(** * food-tracker-mcp: nutrition aggregation, goal comparison, goals store
      and food log

    A shallow embedding of [src/services/database.ts], of the tool handlers
    of [src/index.ts] and of the nutrition arithmetic of
    [src/services/usda-api.ts], with the properties of the aggregation core,
    of the food log and of the answers of the tools proved over it.

    Layout:
    - [Number], [Arithmetic]: the JavaScript [number] operations the code uses,
      as an interface.  IEEE-754 binary64 ([float]) is what a JavaScript
      engine computes with; the statements hold for every instance of the
      interface unless they name doubles.  Exact rationals ([Qc]) are a
      second instance, for the statements that assume exact arithmetic;
    - [JSObject]: a plain object used as a dictionary ([byDate]), with the
      enumeration order of [Object.entries];
    - the SQLite store of [database.ts] as explicit state;
    - the handlers [log_food], [get_daily_log], [set_goals], [get_summary]
      and [delete_entry];
    - [extractNutrition] and [scaleNutrition] of the USDA client. *)

From Stdlib Require Import List String Ascii Bool Arith NArith ZArith Lia.
From Stdlib Require Import QArith Qcanon Qreduction Qround Qabs Lqa.
From Stdlib Require Import Permutation Sorted RelationClasses OrdersEx.
From Stdlib Require Import Floats.
Import ListNotations.

Set Implicit Arguments.

(* ================================================================= *)
(** ** JavaScript numbers *)

(** The part of [number] that the aggregator and the goals code need:
    the literal [0], [+] and the truthiness test behind [x || 0],
    [!x] and [if (x)].  [0] is falsy in every number system. *)
Class Number (num : Type) : Type := {
  zero : num;
  add : num -> num -> num;
  truthy : num -> bool;
  truthy_zero : truthy zero = false
}.

(** The rest of the arithmetic used by the presentation code. *)
Class Arithmetic (num : Type) {N : Number num} : Type := {
  sub : num -> num -> num;
  mul : num -> num -> num;
  div : num -> num -> num;
  gtb : num -> num -> bool;          (* a > b *)
  round : num -> num;                (* Math.round *)
  abs : num -> num;                  (* Math.abs *)
  ofZ : Z -> num                     (* an integer literal or an array length *)
}.
Arguments Arithmetic num {N}.

(** [v || 0] for a nullable numeric field: [null] and falsy numbers give [0]. *)
Definition orZero {num} `{Number num} (v : option num) : num :=
  match v with
  | Some x => if truthy x then x else zero
  | None => zero
  end.

(** [Boolean(v)] for a nullable numeric field, as in [if (goals?.daily_calories)]. *)
Definition isTruthy {num} `{Number num} (v : option num) : bool :=
  match v with
  | Some x => truthy x
  | None => false
  end.

(** [a ?? b]: the left operand unless it is [null] or [undefined]. *)
Definition nullish {A} (a b : option A) : option A :=
  match a with
  | Some x => Some x
  | None => b
  end.

(** Left-to-right summation from [0], the way [reduce] accumulates. *)
Definition sumOf {num} `{Number num} (xs : list num) : num :=
  fold_left add xs zero.

(* ----------------------------------------------------------------- *)
(** *** IEEE-754 binary64: the numbers of the program

    A JavaScript [number] is a double, and [+], [-], [*], [/] and the
    comparisons are the IEEE-754 operations, which the primitive floats
    compute. *)

(** A double is falsy when it is [+0], [-0] or [NaN]; [eqb] identifies the
    two zeros and [NaN] is the only value different from itself. *)
Definition float_truthy (x : float) : bool :=
  negb (PrimFloat.eqb x 0%float) && PrimFloat.eqb x x.

#[export] Instance float_Number : Number float := {
  zero := 0%float;
  add := PrimFloat.add;
  truthy := float_truthy;
  truthy_zero := eq_refl
}.

(** An integer as a double: integer literals, array lengths and row ids.
    The conversion is exact below 2^53 in absolute value. *)
Definition float_ofZ (z : Z) : float :=
  if (0 <=? z)%Z then PrimFloat.of_uint63 (Uint63.of_Z z)
  else PrimFloat.opp (PrimFloat.of_uint63 (Uint63.of_Z (- z))).

(** [Math.round]: the integer nearest to the argument, the upper one of two
    that are equally near.  A double [m * 2^e] with [0 <= e] has no
    fractional part; otherwise the result is the floor of [x + 1/2],
    computed on the integers so that nothing is rounded before the floor is
    taken.  A result of zero keeps the sign of the argument; the zeros, the
    infinities and [NaN] are returned as they are. *)
Definition float_round (x : float) : float :=
  match Prim2SF x with
  | S754_finite s m e =>
      if (0 <=? e)%Z then x
      else
        let n := ((2 * (if s then Z.neg m else Z.pos m) + 2 ^ (- e)) / 2 ^ (- e + 1))%Z in
        if (n =? 0)%Z then (if s then (-0)%float else 0%float) else float_ofZ n
  | _ => x
  end.

(** [a > b] *)
Definition float_gtb (a b : float) : bool := PrimFloat.ltb b a.

#[export] Instance float_Arith : Arithmetic float := {
  sub := PrimFloat.sub;
  mul := PrimFloat.mul;
  div := PrimFloat.div;
  gtb := float_gtb;
  round := float_round;
  abs := PrimFloat.abs;
  ofZ := float_ofZ
}.

(* ----------------------------------------------------------------- *)
(** *** Exact rationals: numbers without rounding

    Not what the program computes with.  The rationals are the number
    system in which addition is associative and commutative, and serve to
    instantiate the statements that assume so.  Division by [0], which
    gives an infinity or [NaN] on doubles, has no counterpart here. *)

Definition Qc_truthy (x : Qc) : bool := negb (Qc_eq_bool x 0).

(** The nearest integer, the upper one of two that are equally near. *)
Definition Qc_round (x : Qc) : Qc :=
  Q2Qc (inject_Z (Qfloor (this x + (1 # 2)))).

Definition Qc_abs (x : Qc) : Qc := Q2Qc (Qabs (this x)).

Definition Qc_gtb (a b : Qc) : bool :=
  match Qccompare a b with Gt => true | _ => false end.

Definition Qc_ofZ (z : Z) : Qc := Q2Qc (inject_Z z).

#[export] Instance Qc_Number : Number Qc := {
  zero := Q2Qc 0;
  add := Qcplus;
  truthy := Qc_truthy;
  truthy_zero := eq_refl
}.

#[export] Instance Qc_Arith : Arithmetic Qc := {
  sub := Qcminus;
  mul := Qcmult;
  div := Qcdiv;
  gtb := Qc_gtb;
  round := Qc_round;
  abs := Qc_abs;
  ofZ := Qc_ofZ
}.

(* ================================================================= *)
(** ** Data model ([src/types.ts]) *)

Module NutritionInfo.
Record t (num : Type) : Type := mk {
  calories : num;
  protein_g : num;
  carbs_g : num;
  fat_g : num;
  fiber_g : num
}.
End NutritionInfo.

Module FoodLogEntry.
Record t (num : Type) : Type := mk {
  id : Z;
  logged_at : string;
  date : string;
  meal : option string;
  food_name : string;
  fdc_id : option num;
  serving_size : num;
  serving_unit : string;
  calories : num;
  protein_g : option num;
  carbs_g : option num;
  fat_g : option num;
  fiber_g : option num;
  notes : option string
}.
End FoodLogEntry.

Module Goals.
Record t (num : Type) : Type := mk {
  id : Z;
  daily_calories : option num;
  protein_g : option num;
  carbs_g : option num;
  fat_g : option num;
  updated_at : string
}.
End Goals.

(* ================================================================= *)
(** ** The aggregator ([calculateTotals], database.ts 153-164) *)

Section Aggregator.
Context {num : Type} `{Number num}.

Definition zeroTotals : NutritionInfo.t num :=
  NutritionInfo.mk zero zero zero zero zero.

(** The reducer passed to [entries.reduce]. *)
Definition addEntry (totals : NutritionInfo.t num) (entry : FoodLogEntry.t num)
    : NutritionInfo.t num :=
  NutritionInfo.mk
    (add (NutritionInfo.calories totals) (orZero (Some (FoodLogEntry.calories entry))))
    (add (NutritionInfo.protein_g totals) (orZero (FoodLogEntry.protein_g entry)))
    (add (NutritionInfo.carbs_g totals) (orZero (FoodLogEntry.carbs_g entry)))
    (add (NutritionInfo.fat_g totals) (orZero (FoodLogEntry.fat_g entry)))
    (add (NutritionInfo.fiber_g totals) (orZero (FoodLogEntry.fiber_g entry))).

Definition calculateTotals (entries : list (FoodLogEntry.t num)) : NutritionInfo.t num :=
  fold_left addEntry entries zeroTotals.

(** What one entry contributes to each field. *)
Definition contribution (entry : FoodLogEntry.t num) : NutritionInfo.t num :=
  NutritionInfo.mk
    (orZero (Some (FoodLogEntry.calories entry)))
    (orZero (FoodLogEntry.protein_g entry))
    (orZero (FoodLogEntry.carbs_g entry))
    (orZero (FoodLogEntry.fat_g entry))
    (orZero (FoodLogEntry.fiber_g entry)).

End Aggregator.

(* ================================================================= *)
(** ** Plain objects used as dictionaries

    [const byDate: Record<string, ...> = {}] is an ordinary object: it
    inherits from [Object.prototype], and [Object.entries] enumerates its own
    keys with the array-index keys first, in ascending numeric order, and
    the remaining string keys in creation order. *)

Module JSObject.

(** The own properties, in creation order. *)
Definition t (V : Type) : Type := list (string * V).

Definition empty {V : Type} : t V := [].

(** The property names every plain object inherits. *)
Definition prototypeNames : list string :=
  [ "constructor"; "__defineGetter__"; "__defineSetter__"; "hasOwnProperty";
    "__lookupGetter__"; "__lookupSetter__"; "isPrototypeOf";
    "propertyIsEnumerable"; "toString"; "valueOf"; "__proto__";
    "toLocaleString" ]%string.

Definition inherited (k : string) : bool :=
  existsb (String.eqb k) prototypeNames.

Definition digitValue (c : ascii) : option N :=
  let n := N_of_ascii c in
  if ((48 <=? n) && (n <=? 57))%N then Some (n - 48)%N else None.

Fixpoint decimalValue (s : string) (acc : N) : option N :=
  match s with
  | EmptyString => Some acc
  | String c rest =>
      match digitValue c with
      | Some d => decimalValue rest (10 * acc + d)%N
      | None => None
      end
  end.

(** An array index is a canonical decimal numeral below [2^32 - 1]. *)
Definition arrayIndex (k : string) : option N :=
  match k with
  | EmptyString => None
  | String c rest =>
      if (c =? "0")%char
      then match rest with EmptyString => Some 0%N | _ => None end
      else match decimalValue k 0 with
           | Some n => if (n <? 4294967295)%N then Some n else None
           | None => None
           end
  end.

(** A key that is neither an array index nor inherited. *)
Definition plainKey (k : string) : bool :=
  match arrayIndex k with
  | Some _ => false
  | None => negb (inherited k)
  end.

Section Properties.
Context {V : Type}.

Fixpoint getOwn (o : t V) (k : string) : option V :=
  match o with
  | [] => None
  | (k', v) :: rest => if String.eqb k k' then Some v else getOwn rest k
  end.

(** [o[k] = v]: overwrite in place, or create the property last. *)
Fixpoint set (o : t V) (k : string) (v : V) : t V :=
  match o with
  | [] => [(k, v)]
  | (k', v') :: rest =>
      if String.eqb k k' then (k', v) :: rest else (k', v') :: set rest k v
  end.

Fixpoint insertByIndex (i : N) (kv : string * V) (sorted : list (N * (string * V)))
    : list (N * (string * V)) :=
  match sorted with
  | [] => [(i, kv)]
  | (j, kv') :: rest =>
      if (i <=? j)%N then (i, kv) :: sorted
      else (j, kv') :: insertByIndex i kv rest
  end.

Fixpoint indexProperties (o : t V) : list (N * (string * V)) :=
  match o with
  | [] => []
  | (k, v) :: rest =>
      match arrayIndex k with
      | Some i => insertByIndex i (k, v) (indexProperties rest)
      | None => indexProperties rest
      end
  end.

Definition stringProperties (o : t V) : list (string * V) :=
  filter (fun kv => match arrayIndex (fst kv) with Some _ => false | None => true end) o.

(** [Object.entries(o)]. *)
Definition entries (o : t V) : list (string * V) :=
  map snd (indexProperties o) ++ stringProperties o.

End Properties.

(** What reading [o[k]] finds. *)
Inductive lookup (V : Type) : Type :=
| Own (v : V)
| Inherited
| Undefined.
Arguments Inherited {V}.
Arguments Undefined {V}.

Definition get {V : Type} (o : t V) (k : string) : lookup V :=
  match getOwn o k with
  | Some v => Own v
  | None => if inherited k then Inherited else Undefined
  end.

(** The grouping idiom of the handlers:
    [if (!o[k]) o[k] = []; o[k].push(x);]
    An array is truthy, so an own bucket is appended to; an inherited
    member is truthy too but has no [push], and the call throws a
    [TypeError] ([None]). *)
Definition pushTo {X : Type} (o : t (list X)) (k : string) (x : X)
    : option (t (list X)) :=
  match get o k with
  | Own bucket => Some (set o k (bucket ++ [x]))
  | Undefined => Some (set o k ([] ++ [x]))
  | Inherited => None
  end.

(** [for (const x of xs) { if (!o[key(x)]) o[key(x)] = []; o[key(x)].push(x); }] *)
Fixpoint groupInto {X : Type} (key : X -> string) (xs : list X) (o : t (list X))
    : option (t (list X)) :=
  match xs with
  | [] => Some o
  | x :: rest =>
      match pushTo o (key x) x with
      | Some o' => groupInto key rest o'
      | None => None
      end
  end.

End JSObject.

(** A calendar date in the form YYYY-MM-DD. *)
Definition isDigit (c : ascii) : bool :=
  match JSObject.digitValue c with Some _ => true | None => false end.

Definition isoDate (s : string) : bool :=
  match list_ascii_of_string s with
  | [y1; y2; y3; y4; d1; m1; m2; d2; a1; a2] =>
      isDigit y1 && isDigit y2 && isDigit y3 && isDigit y4 &&
      (d1 =? "-")%char && isDigit m1 && isDigit m2 &&
      (d2 =? "-")%char && isDigit a1 && isDigit a2
  | _ => false
  end.

(* ================================================================= *)
(** ** The store ([src/services/database.ts]) *)

(** The fields of a [Partial<Goals>] that [updateGoals] reads. *)
Module GoalsPatch.
Record t (num : Type) : Type := mk {
  daily_calories : option num;
  protein_g : option num;
  carbs_g : option num;
  fat_g : option num
}.
End GoalsPatch.

(** The argument of [logFood]: an entry without [id] and [logged_at]. *)
Module NewEntry.
Record t (num : Type) : Type := mk {
  date : string;
  meal : option string;
  food_name : string;
  fdc_id : option num;
  serving_size : num;
  serving_unit : string;
  calories : num;
  protein_g : option num;
  carbs_g : option num;
  fat_g : option num;
  fiber_g : option num;
  notes : option string
}.
End NewEntry.

(** Stable insertion sort, the model of [ORDER BY]. *)
Section OrderBy.
Context {X : Type} (le : X -> X -> bool).

Fixpoint insertSorted (x : X) (sorted : list X) : list X :=
  match sorted with
  | [] => [x]
  | y :: rest => if le x y then x :: sorted else y :: insertSorted x rest
  end.

Fixpoint orderBy (rows : list X) : list X :=
  match rows with
  | [] => []
  | x :: rest => insertSorted x (orderBy rest)
  end.
End OrderBy.

Section Store.
Context {num : Type} {N : Number num} {A : Arithmetic num}.

(** The contents of [data.db]: the two tables and the AUTOINCREMENT
    counter of [food_logs]. *)
Record Database : Type := mkDatabase {
  goals : list (Goals.t num);
  food_logs : list (FoodLogEntry.t num);
  food_logs_seq : Z
}.

(** The module state: whether [db] holds a connection, and the file. *)
Record State : Type := mkState {
  connected : bool;
  file : Database
}.

(** A database file that does not exist yet. *)
Definition freshFile : Database := mkDatabase [] [] 0.

Definition defaultGoals (now : string) : Goals.t num :=
  Goals.mk 1 (Some (ofZ 2000)) (Some (ofZ 150)) (Some (ofZ 250)) (Some (ofZ 65)) now.

(** [now] stands for CURRENT_TIMESTAMP at the time of the call. *)
Definition initializeSchema (now : string) (d : Database) : Database :=
  let count := List.length (goals d) in
  if Nat.eqb count 0
  then mkDatabase (goals d ++ [defaultGoals now]) (food_logs d) (food_logs_seq d)
  else d.

Definition getDb (now : string) (st : State) : State :=
  if connected st then st
  else mkState true (initializeSchema now (file st)).

Definition closeDb (st : State) : State :=
  if connected st then mkState false (file st) else st.

(** [SELECT * FROM goals WHERE id = 1] *)
Definition selectGoals (d : Database) : option (Goals.t num) :=
  find (fun row => Z.eqb (Goals.id row) 1) (goals d).

Definition getGoals (now : string) (st : State) : State * option (Goals.t num) :=
  let st := getDb now st in
  (st, selectGoals (file st)).

(** [current?.field] *)
Definition optField {R V : Type} (r : option R) (f : R -> option V) : option V :=
  match r with
  | Some x => f x
  | None => None
  end.

(** [UPDATE goals SET ... WHERE id = 1] *)
Definition updateGoalsRow (now : string) (newGoals : GoalsPatch.t num)
    (row : Goals.t num) : Goals.t num :=
  if Z.eqb (Goals.id row) 1
  then Goals.mk (Goals.id row)
                (GoalsPatch.daily_calories newGoals)
                (GoalsPatch.protein_g newGoals)
                (GoalsPatch.carbs_g newGoals)
                (GoalsPatch.fat_g newGoals)
                now
  else row.

Definition updateGoals (now : string) (goals_ : GoalsPatch.t num) (st : State)
    : State * option (Goals.t num) :=
  let st := getDb now st in
  let (st, current) := getGoals now st in
  let newGoals :=
    GoalsPatch.mk
      (nullish (GoalsPatch.daily_calories goals_) (optField current (@Goals.daily_calories num)))
      (nullish (GoalsPatch.protein_g goals_) (optField current (@Goals.protein_g num)))
      (nullish (GoalsPatch.carbs_g goals_) (optField current (@Goals.carbs_g num)))
      (nullish (GoalsPatch.fat_g goals_) (optField current (@Goals.fat_g num))) in
  let d := file st in
  let st :=
    mkState (connected st)
            (mkDatabase (map (updateGoalsRow now newGoals) (goals d))
                        (food_logs d) (food_logs_seq d)) in
  getGoals now st.

(** [INSERT INTO food_logs ...], then [SELECT ... WHERE id = lastInsertRowid]. *)
Definition logFood (now : string) (entry : NewEntry.t num) (st : State)
    : State * FoodLogEntry.t num :=
  let st := getDb now st in
  let d := file st in
  let rowid := (food_logs_seq d + 1)%Z in
  let row :=
    FoodLogEntry.mk rowid now
      (NewEntry.date entry) (NewEntry.meal entry) (NewEntry.food_name entry)
      (NewEntry.fdc_id entry) (NewEntry.serving_size entry)
      (NewEntry.serving_unit entry) (NewEntry.calories entry)
      (NewEntry.protein_g entry) (NewEntry.carbs_g entry)
      (NewEntry.fat_g entry) (NewEntry.fiber_g entry) (NewEntry.notes entry) in
  (mkState (connected st) (mkDatabase (goals d) (food_logs d ++ [row]) rowid), row).

(** [... WHERE date = ? ORDER BY logged_at] *)
Definition getDailyLog (now : string) (date : string) (st : State)
    : State * list (FoodLogEntry.t num) :=
  let st := getDb now st in
  (st, orderBy (fun a b => String.leb (FoodLogEntry.logged_at a) (FoodLogEntry.logged_at b))
         (filter (fun row => String.eqb (FoodLogEntry.date row) date)
                 (food_logs (file st)))).

(** The order of [ORDER BY date, logged_at]. *)
Definition byDateThenLoggedAt (a b : FoodLogEntry.t num) : bool :=
  match String.compare (FoodLogEntry.date a) (FoodLogEntry.date b) with
  | Lt => true
  | Eq => String.leb (FoodLogEntry.logged_at a) (FoodLogEntry.logged_at b)
  | Gt => false
  end.

(** [... WHERE date >= ? AND date <= ? ORDER BY date, logged_at] *)
Definition getLogsByDateRange (now : string) (startDate endDate : string) (st : State)
    : State * list (FoodLogEntry.t num) :=
  let st := getDb now st in
  (st, orderBy byDateThenLoggedAt
         (filter (fun row => String.leb startDate (FoodLogEntry.date row)
                             && String.leb (FoodLogEntry.date row) endDate)
                 (food_logs (file st)))).

(** [DELETE FROM food_logs WHERE id = ?]; the result is [changes > 0]. *)
Definition deleteEntry (now : string) (id : Z) (st : State) : State * bool :=
  let st := getDb now st in
  let d := file st in
  let kept := filter (fun row => negb (Z.eqb (FoodLogEntry.id row) id)) (food_logs d) in
  (mkState (connected st) (mkDatabase (goals d) kept (food_logs_seq d)),
   Nat.ltb (List.length kept) (List.length (food_logs d))).

(** The operations the module exports, with the time of each call. *)
Inductive Op : Type :=
| OpGetDb
| OpGetGoals
| OpUpdateGoals (patch : GoalsPatch.t num)
| OpLogFood (entry : NewEntry.t num)
| OpGetDailyLog (date : string)
| OpGetLogsByDateRange (startDate endDate : string)
| OpDeleteEntry (id : Z)
| OpCloseDb.

Definition step (st : State) (call : string * Op) : State :=
  let (now, op) := call in
  match op with
  | OpGetDb => getDb now st
  | OpGetGoals => fst (getGoals now st)
  | OpUpdateGoals patch => fst (updateGoals now patch st)
  | OpLogFood entry => fst (logFood now entry st)
  | OpGetDailyLog date => fst (getDailyLog now date st)
  | OpGetLogsByDateRange s e => fst (getLogsByDateRange now s e st)
  | OpDeleteEntry id => fst (deleteEntry now id st)
  | OpCloseDb => closeDb st
  end.

Definition run (calls : list (string * Op)) (st : State) : State :=
  fold_left step calls st.

(** The process starts with no connection and opens the database at once
    ([getDb()] at index.ts:39). *)
Definition boot (now : string) (d : Database) : State :=
  getDb now (mkState false d).

End Store.

Arguments Database num : clear implicits.
Arguments State num : clear implicits.
Arguments Op num : clear implicits.

(* ================================================================= *)
(** ** The tool handlers ([src/index.ts]) *)

(** A response text is kept as the sequence of its template parts: literal
    text, and the numbers interpolated into it. *)
Inductive piece (num : Type) : Type :=
| Text (s : string)
| Num (x : num).
Arguments Text {num} s.

Record ToolResult (num : Type) : Type := mkResult {
  content : list (piece num);
  isError : bool
}.

Module LogFoodInput.
Record t (num : Type) : Type := mk {
  food_name : string;
  serving_size : num;
  serving_unit : string;
  calories : num;
  protein_g : option num;
  carbs_g : option num;
  fat_g : option num;
  fiber_g : option num;
  meal : option string;
  date : option string;
  fdc_id : option num;
  notes : option string
}.
End LogFoodInput.

Inductive Period : Type := week | month.

Module GetSummaryInput.
Record t : Type := mk {
  start_date : option string;
  end_date : option string;
  period : option Period
}.
End GetSummaryInput.

(** What the handlers read from [new Date()]: today's date, and the dates
    seven days and one month earlier, all as YYYY-MM-DD, and the time stamp
    SQLite would store. *)
Record Clock : Type := mkClock {
  timestamp : string;
  today : string;
  weekAgo : string;
  monthAgo : string
}.

(** One line of the daily breakdown: [{ date, ...calculateTotals(dayEntries) }]. *)
Module DailyTotals.
Record t (num : Type) : Type := mk {
  date : string;
  calories : num;
  protein_g : num;
  carbs_g : num;
  fat_g : num;
  fiber_g : num
}.
End DailyTotals.

(** [s || fallback] for an optional string: absent and empty are falsy. *)
Definition strOr (s : option string) (fallback : string) : string :=
  match s with
  | Some EmptyString | None => fallback
  | Some x => x
  end.

(** [s || null] *)
Definition strOrNull (s : option string) : option string :=
  match s with
  | Some EmptyString | None => None
  | Some x => Some x
  end.

(** [meal.charAt(0).toUpperCase() + meal.slice(1)], on ASCII letters. *)
Definition capitalize (s : string) : string :=
  match s with
  | EmptyString => EmptyString
  | String c rest =>
      let n := N_of_ascii c in
      String (if ((97 <=? n) && (n <=? 122))%N then ascii_of_N (n - 32) else c) rest
  end.

Section Handlers.
Context {num : Type} {N : Number num} {A : Arithmetic num}.

(** [x || null] for an optional number. *)
Definition numOrNull (v : option num) : option num :=
  if isTruthy v then v else None.

(** An interpolated nullable number. *)
Definition showNullable (v : option num) : piece num :=
  match v with
  | Some x => Num x
  | None => Text "null"
  end.

(** [${v || "not set"}] *)
Definition showOrNotSet (v : option num) : piece num :=
  match v with
  | Some x => if truthy x then Num x else Text "not set"
  | None => Text "not set"
  end.

(** [if (v) response += before + v + after] *)
Definition whenSet (v : option num) (before after : string) : list (piece num) :=
  match v with
  | Some x => if truthy x then [Text before; Num x; Text after] else []
  | None => []
  end.

(** The [catch] of the request handler. *)
Definition errorResult (message : string) : ToolResult num :=
  mkResult [Text "Error: "; Text message] true.

Definition textResult (parts : list (piece num)) : ToolResult num :=
  mkResult parts false.

(* --------------------------------------------------------------- *)
(** *** log_food (index.ts 234-272) *)

(** [goals.daily_calories - totals.calories], computed under
    [if (goals?.daily_calories)]. *)
Definition calorieRemaining (totals : NutritionInfo.t num) (goals_ : option (Goals.t num))
    : option num :=
  match optField goals_ (@Goals.daily_calories num) with
  | Some goal =>
      if truthy goal
      then Some (sub goal (NutritionInfo.calories totals))
      else None
  | None => None
  end.

(** [remaining > 0 ? remaining + " remaining" : Math.abs(remaining) + " over goal"] *)
Definition showRemaining (remaining : num) : list (piece num) :=
  if gtb remaining zero
  then [Num remaining; Text " remaining"]
  else [Num (abs remaining); Text " over goal"].

Definition log_food_response (entry : FoodLogEntry.t num) (date : string)
    (totals : NutritionInfo.t num) (goals_ : option (Goals.t num))
    : list (piece num) :=
  [Text "Logged: **"; Text (FoodLogEntry.food_name entry); Text "** (";
   Num (FoodLogEntry.serving_size entry); Text " ";
   Text (FoodLogEntry.serving_unit entry); Text ")\n";
   Num (FoodLogEntry.calories entry); Text " cal"]
  ++ whenSet (FoodLogEntry.protein_g entry) " | P: " "g"
  ++ whenSet (FoodLogEntry.carbs_g entry) " | C: " "g"
  ++ whenSet (FoodLogEntry.fat_g entry) " | F: " "g"
  ++ match strOrNull (FoodLogEntry.meal entry) with
     | Some m => [Text "\nMeal: "; Text m]
     | None => []
     end
  ++ [Text "\n\n**Daily Total ("; Text date; Text "):** ";
      Num (NutritionInfo.calories totals); Text " cal"]
  ++ match calorieRemaining totals goals_ with
     | Some remaining => Text " | " :: showRemaining remaining
     | None => []
     end.

Definition log_food (clock : Clock) (input : LogFoodInput.t num) (st : State num)
    : State num * ToolResult num :=
  let now := timestamp clock in
  let date := strOr (LogFoodInput.date input) (today clock) in
  let (st, entry) :=
    logFood now
      (NewEntry.mk date
         (strOrNull (LogFoodInput.meal input))
         (LogFoodInput.food_name input)
         (numOrNull (LogFoodInput.fdc_id input))
         (LogFoodInput.serving_size input)
         (LogFoodInput.serving_unit input)
         (LogFoodInput.calories input)
         (LogFoodInput.protein_g input)
         (LogFoodInput.carbs_g input)
         (LogFoodInput.fat_g input)
         (LogFoodInput.fiber_g input)
         (strOrNull (LogFoodInput.notes input))) st in
  let (st, dailyEntries) := getDailyLog now date st in
  let totals := calculateTotals dailyEntries in
  let (st, goals_) := getGoals now st in
  (st, textResult (log_food_response entry date totals goals_)).

(* --------------------------------------------------------------- *)
(** *** get_daily_log (index.ts 274-329) *)

(** [Math.round((totals.calories / goals.daily_calories) * 100)], computed
    under [if (goals?.daily_calories)]. *)
Definition percentOfGoal (actual : num) (goals_ : option (Goals.t num)) : option num :=
  match optField goals_ (@Goals.daily_calories num) with
  | Some goal =>
      if truthy goal
      then Some (round (mul (div actual goal) (ofZ 100)))
      else None
  | None => None
  end.

Definition mealEntryLine (entry : FoodLogEntry.t num) : list (piece num) :=
  [Text "- **"; Text (FoodLogEntry.food_name entry); Text "** (";
   Num (FoodLogEntry.serving_size entry); Text " ";
   Text (FoodLogEntry.serving_unit entry); Text ") - ";
   Num (FoodLogEntry.calories entry); Text " cal"]
  ++ whenSet (FoodLogEntry.protein_g entry) " | P: " "g"
  ++ [Text " [ID: "; Num (ofZ (FoodLogEntry.id entry)); Text "]\n"].

Definition mealSection (group : string * list (FoodLogEntry.t num)) : list (piece num) :=
  [Text "### "; Text (capitalize (fst group)); Text "\n"]
  ++ flat_map mealEntryLine (snd group)
  ++ [Text "\n"].

(** The "Daily Totals" block (index.ts 314-326). *)
Definition dailyTotalsSection (totals : NutritionInfo.t num) (goals_ : option (Goals.t num))
    : list (piece num) :=
  [Text "### Daily Totals\n"; Text "- Calories: "; Num (NutritionInfo.calories totals)]
  ++ match percentOfGoal (NutritionInfo.calories totals) goals_ with
     | Some pct =>
         [Text " / "; showNullable (optField goals_ (@Goals.daily_calories num));
          Text " ("; Num pct; Text "%)"]
     | None => []
     end
  ++ [Text "\n- Protein: "; Num (NutritionInfo.protein_g totals); Text "g"]
  ++ whenSet (optField goals_ (@Goals.protein_g num)) " / " "g"
  ++ [Text "\n- Carbs: "; Num (NutritionInfo.carbs_g totals); Text "g"]
  ++ whenSet (optField goals_ (@Goals.carbs_g num)) " / " "g"
  ++ [Text "\n- Fat: "; Num (NutritionInfo.fat_g totals); Text "g"]
  ++ whenSet (optField goals_ (@Goals.fat_g num)) " / " "g"
  ++ [Text "\n- Fiber: "; Num (NutritionInfo.fiber_g totals); Text "g"].

Definition mealKey (entry : FoodLogEntry.t num) : string :=
  strOr (FoodLogEntry.meal entry) "unspecified".

Definition get_daily_log_response (targetDate : string)
    (entries : list (FoodLogEntry.t num)) (goals_ : option (Goals.t num))
    : ToolResult num :=
  if Nat.eqb (List.length entries) 0
  then textResult [Text "No food entries for "; Text targetDate;
                   Text ". Start logging with the log_food tool!"]
  else
    let totals := calculateTotals entries in
    match JSObject.groupInto mealKey entries JSObject.empty with
    | None => errorResult "byMeal[meal].push is not a function"
    | Some byMeal =>
        textResult
          ([Text "## Food Log for "; Text targetDate; Text "\n\n"]
           ++ flat_map mealSection (JSObject.entries byMeal)
           ++ dailyTotalsSection totals goals_)
    end.

Definition get_daily_log (clock : Clock) (date : option string) (st : State num)
    : State num * ToolResult num :=
  let now := timestamp clock in
  let targetDate := strOr date (today clock) in
  let (st, entries) := getDailyLog now targetDate st in
  let (st, goals_) := getGoals now st in
  (st, get_daily_log_response targetDate entries goals_).

(* --------------------------------------------------------------- *)
(** *** set_goals (index.ts 331-364) *)

(** [!input.daily_calories && !input.protein_g && !input.carbs_g && !input.fat_g] *)
Definition nothingToSet (input : GoalsPatch.t num) : bool :=
  negb (isTruthy (GoalsPatch.daily_calories input))
  && negb (isTruthy (GoalsPatch.protein_g input))
  && negb (isTruthy (GoalsPatch.carbs_g input))
  && negb (isTruthy (GoalsPatch.fat_g input)).

Definition currentGoalsText (current : option (Goals.t num)) : list (piece num) :=
  [Text "**Current Goals:**\n";
   Text "- Calories: "; showOrNotSet (optField current (@Goals.daily_calories num)); Text "\n";
   Text "- Protein: "; showOrNotSet (optField current (@Goals.protein_g num)); Text "g\n";
   Text "- Carbs: "; showOrNotSet (optField current (@Goals.carbs_g num)); Text "g\n";
   Text "- Fat: "; showOrNotSet (optField current (@Goals.fat_g num)); Text "g"].

Definition goalsUpdatedText (updated : Goals.t num) : list (piece num) :=
  [Text "**Goals Updated:**\n";
   Text "- Calories: "; showNullable (Goals.daily_calories updated); Text "\n";
   Text "- Protein: "; showNullable (Goals.protein_g updated); Text "g\n";
   Text "- Carbs: "; showNullable (Goals.carbs_g updated); Text "g\n";
   Text "- Fat: "; showNullable (Goals.fat_g updated); Text "g"].

Definition set_goals (clock : Clock) (input : GoalsPatch.t num) (st : State num)
    : State num * ToolResult num :=
  let now := timestamp clock in
  if nothingToSet input
  then
    let (st, current) := getGoals now st in
    (st, textResult (currentGoalsText current))
  else
    let (st, updated) := updateGoals now input st in
    match updated with
    | Some u => (st, textResult (goalsUpdatedText u))
    | None => (st, errorResult "Cannot read properties of undefined (reading 'daily_calories')")
    end.

(* --------------------------------------------------------------- *)
(** *** get_summary (index.ts 366-458) *)

(** The date range of a request (index.ts 369-394). *)
Definition resolvePeriod (clock : Clock) (input : GetSummaryInput.t) : string * string :=
  match GetSummaryInput.period input with
  | Some week => (weekAgo clock, today clock)
  | Some month => (monthAgo clock, today clock)
  | None =>
      match strOrNull (GetSummaryInput.start_date input),
            strOrNull (GetSummaryInput.end_date input) with
      | Some startDate, Some endDate => (startDate, endDate)
      | _, _ => (weekAgo clock, today clock)
      end
  end.

(** The buckets of [byDate] after the grouping loop (index.ts 411-415). *)
Definition groupByDate (entries : list (FoodLogEntry.t num))
    : option (JSObject.t (list (FoodLogEntry.t num))) :=
  JSObject.groupInto (@FoodLogEntry.date num) entries JSObject.empty.

Definition dailyTotalsOf (bucket : string * list (FoodLogEntry.t num)) : DailyTotals.t num :=
  let totals := calculateTotals (snd bucket) in
  DailyTotals.mk (fst bucket)
    (NutritionInfo.calories totals) (NutritionInfo.protein_g totals)
    (NutritionInfo.carbs_g totals) (NutritionInfo.fat_g totals)
    (NutritionInfo.fiber_g totals).

(** [Object.entries(byDate).map(...)] (index.ts 417-420). *)
Definition dailyTotalsList (byDate : JSObject.t (list (FoodLogEntry.t num)))
    : list (DailyTotals.t num) :=
  map dailyTotalsOf (JSObject.entries byDate).

(** [dailyTotals.reduce((sum, d) => sum + d.field, 0)] *)
Definition sumField (field : DailyTotals.t num -> num) (dailyTotals : list (DailyTotals.t num))
    : num :=
  fold_left (fun sum d => add sum (field d)) dailyTotals zero.

Definition numDaysOf (dailyTotals : list (DailyTotals.t num)) : num :=
  ofZ (Z.of_nat (List.length dailyTotals)).

(** [Math.round(sum / numDays)] (index.ts 423-425). *)
Definition avgCalories (dailyTotals : list (DailyTotals.t num)) : num :=
  round (div (sumField (@DailyTotals.calories num) dailyTotals) (numDaysOf dailyTotals)).

(** [Math.round((sum / numDays) * 10) / 10] (index.ts 426-434). *)
Definition avgGrams (field : DailyTotals.t num -> num) (dailyTotals : list (DailyTotals.t num))
    : num :=
  div (round (mul (div (sumField field dailyTotals) (numDaysOf dailyTotals)) (ofZ 10)))
    (ofZ 10).

Definition avgProtein (dailyTotals : list (DailyTotals.t num)) : num :=
  avgGrams (@DailyTotals.protein_g num) dailyTotals.

Definition avgCarbs (dailyTotals : list (DailyTotals.t num)) : num :=
  avgGrams (@DailyTotals.carbs_g num) dailyTotals.

Definition avgFat (dailyTotals : list (DailyTotals.t num)) : num :=
  avgGrams (@DailyTotals.fat_g num) dailyTotals.

Definition breakdownLine (day : DailyTotals.t num) : list (piece num) :=
  [Text "- "; Text (DailyTotals.date day); Text ": ";
   Num (DailyTotals.calories day); Text " cal | P: ";
   Num (DailyTotals.protein_g day); Text "g | C: ";
   Num (DailyTotals.carbs_g day); Text "g | F: ";
   Num (DailyTotals.fat_g day); Text "g\n"].

Definition summaryText (startDate endDate : string) (entryCount : nat)
    (dailyTotals : list (DailyTotals.t num)) (goals_ : option (Goals.t num))
    : list (piece num) :=
  [Text "## Nutrition Summary: "; Text startDate; Text " to "; Text endDate; Text "\n\n";
   Text "**"; Num (numDaysOf dailyTotals); Text " days tracked** | ";
   Num (ofZ (Z.of_nat entryCount)); Text " total entries\n\n";
   Text "### Daily Averages\n"; Text "- Calories: "; Num (avgCalories dailyTotals)]
  ++ match percentOfGoal (avgCalories dailyTotals) goals_ with
     | Some pct =>
         [Text " ("; Num pct; Text "% of ";
          showNullable (optField goals_ (@Goals.daily_calories num)); Text " goal)"]
     | None => []
     end
  ++ [Text "\n- Protein: "; Num (avgProtein dailyTotals); Text "g"]
  ++ whenSet (optField goals_ (@Goals.protein_g num)) " / " "g goal"
  ++ [Text "\n- Carbs: "; Num (avgCarbs dailyTotals); Text "g"]
  ++ whenSet (optField goals_ (@Goals.carbs_g num)) " / " "g goal"
  ++ [Text "\n- Fat: "; Num (avgFat dailyTotals); Text "g"]
  ++ whenSet (optField goals_ (@Goals.fat_g num)) " / " "g goal"
  ++ [Text "\n\n### Daily Breakdown\n"]
  ++ flat_map breakdownLine dailyTotals.

Definition get_summary_response (startDate endDate : string)
    (entries : list (FoodLogEntry.t num)) (goals_ : option (Goals.t num))
    : ToolResult num :=
  if Nat.eqb (List.length entries) 0
  then textResult [Text "No food entries found between "; Text startDate;
                   Text " and "; Text endDate; Text "."]
  else
    match groupByDate entries with
    | None => errorResult "byDate[entry.date].push is not a function"
    | Some byDate =>
        textResult (summaryText startDate endDate (List.length entries)
                                (dailyTotalsList byDate) goals_)
    end.

Definition get_summary (clock : Clock) (input : GetSummaryInput.t) (st : State num)
    : State num * ToolResult num :=
  let now := timestamp clock in
  let (startDate, endDate) := resolvePeriod clock input in
  let (st, entries) := getLogsByDateRange now startDate endDate st in
  let (st, goals_) := getGoals now st in
  (st, get_summary_response startDate endDate entries goals_).

End Handlers.

(* --------------------------------------------------------------- *)
(** *** delete_entry (index.ts 460-473) *)

Section DeleteEntryHandler.
Context {num : Type} {N : Number num} {A : Arithmetic num}.

(** [entry_id] is a number; an id that is not a whole number matches no
    row, so only whole numbers are of interest here. *)
Definition delete_entry (clock : Clock) (entry_id : Z) (st : State num)
  : State num * ToolResult num :=
  let (st, deleted) := deleteEntry (timestamp clock) entry_id st in
  if deleted
  then (st, textResult [Text "Entry "; Num (ofZ entry_id); Text " deleted successfully."])
  else (st, textResult [Text "Entry "; Num (ofZ entry_id); Text " not found."]).

End DeleteEntryHandler.

(* ================================================================= *)
(** ** USDA nutrition values ([src/services/usda-api.ts]) *)

Module USDANutrient.
Record t (num : Type) : Type := mk {
  nutrientId : Z;
  nutrientName : string;
  nutrientNumber : string;
  unitName : string;
  value : num
}.
End USDANutrient.

Module USDAFood.
Record t (num : Type) : Type := mk {
  fdcId : Z;
  description : string;
  dataType : string;
  brandOwner : option string;
  ingredients : option string;
  servingSize : option num;
  servingSizeUnit : option string;
  foodNutrients : list (USDANutrient.t num)
}.
End USDAFood.

(** Nutrient IDs in the USDA database. *)
Module NUTRIENT_IDS.
Definition ENERGY : Z := 1008.
Definition PROTEIN : Z := 1003.
Definition CARBS : Z := 1005.
Definition FAT : Z := 1004.
Definition FIBER : Z := 1079.
End NUTRIENT_IDS.

Section UsdaApi.
Context {num : Type} {N : Number num} {A : Arithmetic num}.

(** [food.foodNutrients.find((n) => n.nutrientId === nutrientId)?.value ?? 0] *)
Definition getNutrientValue (food : USDAFood.t num) (nutrientId : Z) : num :=
  match find (fun n => Z.eqb (USDANutrient.nutrientId n) nutrientId)
             (USDAFood.foodNutrients food) with
  | Some nutrient => USDANutrient.value nutrient
  | None => zero
  end.

(** [Math.round(x * 10) / 10] *)
Definition roundToTenth (x : num) : num :=
  div (round (mul x (ofZ 10))) (ofZ 10).

Definition extractNutrition (food : USDAFood.t num) : NutritionInfo.t num :=
  NutritionInfo.mk
    (round (getNutrientValue food NUTRIENT_IDS.ENERGY))
    (roundToTenth (getNutrientValue food NUTRIENT_IDS.PROTEIN))
    (roundToTenth (getNutrientValue food NUTRIENT_IDS.CARBS))
    (roundToTenth (getNutrientValue food NUTRIENT_IDS.FAT))
    (roundToTenth (getNutrientValue food NUTRIENT_IDS.FIBER)).

(** [baseServingSize] defaults to 100: USDA values are per 100 g. *)
Definition scaleNutrition (nutrition : NutritionInfo.t num) (servingSize : num)
           (baseServingSize : option num) : NutritionInfo.t num :=
  let base := match baseServingSize with
              | Some b => b
              | None => ofZ 100
              end in
  let scale := div servingSize base in
  NutritionInfo.mk
    (round (mul (NutritionInfo.calories nutrition) scale))
    (roundToTenth (mul (NutritionInfo.protein_g nutrition) scale))
    (roundToTenth (mul (NutritionInfo.carbs_g nutrition) scale))
    (roundToTenth (mul (NutritionInfo.fat_g nutrition) scale))
    (roundToTenth (mul (NutritionInfo.fiber_g nutrition) scale)).

End UsdaApi.

(* ================================================================= *)
(** ** Reference notions used in the statements *)

(** The distinct keys of a list, in order of first appearance. *)
Fixpoint distinct (ks : list string) : list string :=
  match ks with
  | [] => []
  | k :: rest => k :: filter (fun k' => negb (String.eqb k' k)) (distinct rest)
  end.

(** The buckets a list is partitioned into: one per distinct key, in order
    of first appearance, each holding its elements in list order. *)
Definition groupsOf {X : Type} (key : X -> string) (xs : list X) : list (string * list X) :=
  map (fun k => (k, filter (fun x => String.eqb (key x) k) xs)) (distinct (map key xs)).

(** One bucket per date that has an entry: the date, with its entries. *)
Definition bucketsOf {num : Type} (entries : list (FoodLogEntry.t num))
  : list (string * list (FoodLogEntry.t num)) :=
  groupsOf (@FoodLogEntry.date num) entries.

(** The daily totals that [get_summary] works with when the grouping loop
    does not throw. *)
Definition summaryDays {num : Type} `{Number num} (entries : list (FoodLogEntry.t num))
  : list (DailyTotals.t num) :=
  map dailyTotalsOf (bucketsOf entries).

(** Lexicographic order on dates written YYYY-MM-DD. *)
Definition dateLe (a b : string) : Prop := String.leb a b = true.
Definition dateLt (a b : string) : Prop := String.ltb a b = true.

(** Dates that are neither array indices nor names inherited from
    [Object.prototype]; every date of the form YYYY-MM-DD is of this kind. *)
Definition plainDates {num : Type} (entries : list (FoodLogEntry.t num)) : Prop :=
  Forall (fun e => JSObject.plainKey (FoodLogEntry.date e) = true) entries.

(** A sequence of entries ordered by date, as [ORDER BY date, ...] returns it. *)
Definition sortedByDate {num : Type} (entries : list (FoodLogEntry.t num)) : Prop :=
  Sorted (fun a b => dateLe (FoodLogEntry.date a) (FoodLogEntry.date b)) entries.

(** The goals table holds exactly one record, and its id is 1. *)
Definition hasGoalsRow {num : Type} (d : Database num) : Prop :=
  exists g, goals d = [g] /\ Goals.id g = 1%Z.

(** Every target of a goals record has a value. *)
Definition goalsComplete {num : Type} (g : Goals.t num) : Prop :=
  Goals.daily_calories g <> None /\ Goals.protein_g g <> None
  /\ Goals.carbs_g g <> None /\ Goals.fat_g g <> None.

(** A supplied field that is [0], or a field that is not supplied. *)
Definition zeroOrAbsent {num : Type} `{Number num} (v : option num) : Prop :=
  v = None \/ v = Some zero.

(** A call that is not [updateGoals]. *)
Definition notUpdateGoals {num : Type} (call : string * Op num) : bool :=
  match snd call with
  | OpUpdateGoals _ => false
  | _ => true
  end.

(** The numbers of a response, in order. *)
Definition numbersOf {num : Type} (parts : list (piece num)) : list num :=
  flat_map (fun p => match p with Num x => [x] | Text _ => [] end) parts.

(** What an entry counts for in a total: the field, [0] where it is absent
    or falsy. *)
Definition caloriesOf {num : Type} `{Number num} (e : FoodLogEntry.t num) : num :=
  orZero (Some (FoodLogEntry.calories e)).

Definition proteinOf {num : Type} `{Number num} (e : FoodLogEntry.t num) : num :=
  orZero (FoodLogEntry.protein_g e).

Definition carbsOf {num : Type} `{Number num} (e : FoodLogEntry.t num) : num :=
  orZero (FoodLogEntry.carbs_g e).

Definition fatOf {num : Type} `{Number num} (e : FoodLogEntry.t num) : num :=
  orZero (FoodLogEntry.fat_g e).

Definition fiberOf {num : Type} `{Number num} (e : FoodLogEntry.t num) : num :=
  orZero (FoodLogEntry.fiber_g e).

(** The sum of a quantity over the entries of one date, accumulated from
    [0] in the order of the entries. *)
Definition dayTotal {num : Type} `{Number num} (quantity : FoodLogEntry.t num -> num)
           (date : string) (entries : list (FoodLogEntry.t num)) : num :=
  sumOf (map quantity (filter (fun e => String.eqb (FoodLogEntry.date e) date) entries)).

(** Every stored date has the form YYYY-MM-DD. *)
Definition isoDates {num : Type} (entries : list (FoodLogEntry.t num)) : Prop :=
  Forall (fun e => isoDate (FoodLogEntry.date e) = true) entries.

(* ================================================================= *)
(** ** The numbers doubles stand for *)

(** The rational a finite double stands for, in lowest terms. *)
Definition floatValue (x : float) : option Q :=
  match Prim2SF x with
  | S754_zero _ => Some 0%Q
  | S754_finite s m e =>
      Some (Qred ((if s then -1 else 1) * inject_Z (Zpos m) * Qpower 2 e))
  | _ => None
  end.

(** [acc + x] does not round: both operands and the result are finite, and
    the result stands for the sum of what the operands stand for. *)
Definition exactAdd (acc x : float) : bool :=
  match floatValue acc, floatValue x, floatValue (acc + x) with
  | Some a, Some b, Some c => Qeq_bool c (a + b)
  | _, _, _ => false
  end.

(** No addition rounds while [xs] is summed from [acc]. *)
Fixpoint exactSumFrom (acc : float) (xs : list float) : bool :=
  match xs with
  | [] => true
  | x :: rest => exactAdd acc x && exactSumFrom (acc + x) rest
  end.

Definition valueOr0 (x : float) : Q :=
  match floatValue x with
  | Some v => v
  | None => 0
  end.

(** The exact sum of what the doubles of a list stand for. *)
Definition valuesSum (xs : list float) : Q :=
  fold_right (fun x s => valueOr0 x + s)%Q 0%Q xs.

(** No addition rounds while [calculateTotals] runs over [entries]. *)
Definition exactTotals (entries : list (FoodLogEntry.t float)) : bool :=
  exactSumFrom 0%float (map (fun e => orZero (Some (FoodLogEntry.calories e))) entries)
  && exactSumFrom 0%float (map (fun e => orZero (FoodLogEntry.protein_g e)) entries)
  && exactSumFrom 0%float (map (fun e => orZero (FoodLogEntry.carbs_g e)) entries)
  && exactSumFrom 0%float (map (fun e => orZero (FoodLogEntry.fat_g e)) entries)
  && exactSumFrom 0%float (map (fun e => orZero (FoodLogEntry.fiber_g e)) entries).

(** The numbers a record of doubles stands for. *)
Definition valuesOf (totals : NutritionInfo.t float) : NutritionInfo.t (option Q) :=
  NutritionInfo.mk
    (floatValue (NutritionInfo.calories totals))
    (floatValue (NutritionInfo.protein_g totals))
    (floatValue (NutritionInfo.carbs_g totals))
    (floatValue (NutritionInfo.fat_g totals))
    (floatValue (NutritionInfo.fiber_g totals)).

(** The kinds of doubles: a zero of either sign, and a number other than
    a zero, an infinity or [NaN]. *)
Definition zeroDouble (x : float) : bool :=
  match Prim2SF x with S754_zero _ => true | _ => false end.

Definition properDouble (x : float) : bool :=
  match Prim2SF x with S754_finite _ _ _ => true | _ => false end.

Definition infiniteDouble (x : float) : bool :=
  match Prim2SF x with S754_infinity _ => true | _ => false end.

(* ================================================================= *)
(** ** Sample data *)

(** An entry with the given nutrition values and unremarkable other fields. *)
Definition sampleEntry {num : Type} (id : Z) (date : string) (calories : num)
           (protein_g carbs_g : option num) : FoodLogEntry.t num :=
  FoodLogEntry.mk id "2025-01-15 12:00:00" date None "oatmeal" None calories "g"
                  calories protein_g carbs_g None None None.

(** The doubles that JavaScript writes [0.1], [0.2] and [0.3]. *)
Definition f0_1 : float := 0x1.999999999999ap-4%float.
Definition f0_2 : float := 0x1.999999999999ap-3%float.
Definition f0_3 : float := 0x1.3333333333333p-2%float.

Definition floatDay : list (FoodLogEntry.t float) :=
  [ sampleEntry 1 "2025-01-15" 100%float (Some f0_1) None;
    sampleEntry 2 "2025-01-15" 200%float (Some f0_2) None;
    sampleEntry 3 "2025-01-15" 300%float (Some f0_3) None ].

Definition qc (n : Z) (d : positive) : Qc := Q2Qc (n # d).

(** The scenario of the specification: two entries on 2025-01-15. *)
Definition scenarioDay : list (FoodLogEntry.t Qc) :=
  [ sampleEntry 1 "2025-01-15" (qc 150 1) (Some (qc 5 1)) None;
    sampleEntry 2 "2025-01-15" (qc 400 1) (Some (qc 40 1)) None ].

(** A clock for the examples. *)
Definition sampleClock : Clock :=
  mkClock "2025-01-15 12:00:00" "2025-01-15" "2025-01-08" "2024-12-15".

(** Two days in date order: 1800 and 2200 calories. *)
Definition twoDays : list (FoodLogEntry.t Qc) :=
  [ sampleEntry 1 "2025-01-14" (qc 1800 1) None None;
    sampleEntry 2 "2025-01-15" (qc 2200 1) None None ].

(** Two [log_food] requests: oatmeal for breakfast on 2025-01-15, and
    salmon for lunch on the current day. *)
Definition oatmealRequest : LogFoodInput.t Qc :=
  LogFoodInput.mk "oatmeal" (qc 1 1) "cup" (qc 150 1) (Some (qc 5 1)) None None None
                  (Some "breakfast"%string) (Some "2025-01-15"%string) None None.

Definition salmonRequest : LogFoodInput.t Qc :=
  LogFoodInput.mk "salmon" (qc 200 1) "g" (qc 400 1) (Some (qc 40 1)) None None None
                  (Some "lunch"%string) None None None.

(** A day of whole numbers: 100, 200 and 300 calories with 10, 20 and 30 g
    of protein. *)
Definition wholeDay : list (FoodLogEntry.t float) :=
  [ sampleEntry 1 "2025-01-15" 100%float (Some 10%float) None;
    sampleEntry 2 "2025-01-15" 200%float (Some 20%float) None;
    sampleEntry 3 "2025-01-15" 300%float (Some 30%float) None ].

(** *** Stores and requests in doubles *)

(** A database file opened for the first time. *)
Definition freshStore : State float := boot "2025-01-01 00:00:00" freshFile.

(** A [log_food] request for one serving. *)
Definition logRequest (food_name : string) (calories : float) (protein_g : option float)
           (meal date : option string) : LogFoodInput.t float :=
  LogFoodInput.mk food_name 1%float "serving" calories protein_g None None None
                  meal date None None.

(** A [get_summary] request for the days from 2025-01-10 to 2025-01-20. *)
Definition januaryRequest : GetSummaryInput.t :=
  GetSummaryInput.mk (Some "2025-01-10"%string) (Some "2025-01-20"%string) None.

(** The 15th logged before the 14th: 2200 and 1801 calories. *)
Definition laterDayLoggedFirst : State float :=
  fst (log_food sampleClock (logRequest "oatmeal" 1801%float None None
                                        (Some "2025-01-14"%string))
         (fst (log_food sampleClock (logRequest "salmon" 2200%float None None
                                                (Some "2025-01-15"%string))
                 freshStore))).

(** Two days with 0.3 g and 2.4 g of protein. *)
Definition tenthsStore : State float :=
  fst (log_food sampleClock (logRequest "tea" 2%float (Some 0x1.3333333333333p+1%float) None
                                        (Some "2025-01-15"%string))
         (fst (log_food sampleClock (logRequest "broth" 10%float
                                                (Some 0x1.3333333333333p-2%float) None
                                                (Some "2025-01-14"%string))
                 freshStore))).

(** One entry of 1150 calories, with the default goal of 2000. *)
Definition day1150 : State float :=
  fst (log_food sampleClock (logRequest "lunch box" 1150%float None (Some "lunch"%string)
                                        (Some "2025-01-15"%string))
         freshStore).

(** One entry of 12.5 calories with 3.25 g of protein. *)
Definition fractionalStore : State float :=
  fst (log_food sampleClock (logRequest "cracker" 12.5%float (Some 3.25%float) None
                                        (Some "2025-01-15"%string))
         freshStore).

(** A calorie goal of [0], stored by a request that also sets the protein
    goal to 100. *)
Definition zeroGoalStore : State float :=
  fst (set_goals sampleClock (GoalsPatch.mk (Some 0%float) (Some 100%float) None None)
         freshStore).

(** 100 g of oats as the USDA lists them, with the protein value 16.9, and
    a food with 0.15 g of protein. *)
Definition nutrient (nutrientId : Z) (value : float) : USDANutrient.t float :=
  USDANutrient.mk nutrientId "nutrient" "000" "G" value.

Definition oats : USDAFood.t float :=
  USDAFood.mk 173904 "Oats" "SR Legacy" None None None None
    [ nutrient 1003 0x1.0e66666666666p+4%float;
      nutrient 1004 0x1.b99999999999ap+2%float;
      nutrient 1005 0x1.0933333333333p+6%float;
      nutrient 1008 389%float;
      nutrient 1079 0x1.5333333333333p+3%float;
      nutrient 1003 99%float ].

Definition traces : USDAFood.t float :=
  USDAFood.mk 1 "Traces" "Branded" None None None None
    [ nutrient 1003 0x1.3333333333333p-3%float ].

(* ================================================================= *)
(** ** Further notions: the food log *)

(** The ids of the rows of [food_logs]. *)
Definition logIds {num : Type} (d : Database num) : list Z :=
  map (@FoodLogEntry.id num) (food_logs d).

(** The rows have distinct ids, all of them handed out already: positive
    and at most the AUTOINCREMENT counter. *)
Definition idsHandedOut {num : Type} (d : Database num) : Prop :=
  NoDup (logIds d)
  /\ Forall (fun i => (0 < i <= food_logs_seq d)%Z) (logIds d)
  /\ (0 <= food_logs_seq d)%Z.

(** The rows of one date, and of a range of dates, in table order. *)
Definition rowsOn {num : Type} (date : string) (d : Database num)
  : list (FoodLogEntry.t num) :=
  filter (fun row => String.eqb (FoodLogEntry.date row) date) (food_logs d).

Definition rowsBetween {num : Type} (startDate endDate : string) (d : Database num)
  : list (FoodLogEntry.t num) :=
  filter (fun row => String.leb startDate (FoodLogEntry.date row)
                     && String.leb (FoodLogEntry.date row) endDate)
         (food_logs d).

(** A later patch laid over an earlier one: each field of the later patch
    where it is supplied, the field of the earlier one elsewhere. *)
Definition overlay {num : Type} (later earlier : GoalsPatch.t num) : GoalsPatch.t num :=
  GoalsPatch.mk
    (nullish (GoalsPatch.daily_calories later) (GoalsPatch.daily_calories earlier))
    (nullish (GoalsPatch.protein_g later) (GoalsPatch.protein_g earlier))
    (nullish (GoalsPatch.carbs_g later) (GoalsPatch.carbs_g earlier))
    (nullish (GoalsPatch.fat_g later) (GoalsPatch.fat_g earlier)).

(** The meals the schema of [log_food] lets through: one of the four names,
    or none. *)
Definition schemaMeal (meal : option string) : bool :=
  match meal with
  | None => true
  | Some m => existsb (String.eqb m) ["breakfast"; "lunch"; "dinner"; "snack"]%string
  end.

(** The entry that [log_food] hands to [logFood] (index.ts 238-251). *)
Definition loggedEntry {num : Type} `{Number num} (clock : Clock)
           (input : LogFoodInput.t num) : NewEntry.t num :=
  NewEntry.mk (strOr (LogFoodInput.date input) (today clock))
              (strOrNull (LogFoodInput.meal input))
              (LogFoodInput.food_name input)
              (numOrNull (LogFoodInput.fdc_id input))
              (LogFoodInput.serving_size input)
              (LogFoodInput.serving_unit input)
              (LogFoodInput.calories input)
              (LogFoodInput.protein_g input)
              (LogFoodInput.carbs_g input)
              (LogFoodInput.fat_g input)
              (LogFoodInput.fiber_g input)
              (strOrNull (LogFoodInput.notes input)).

(** The names under which [get_daily_log] files the entries of a day. *)
Definition mealNames : list string :=
  ["breakfast"; "lunch"; "dinner"; "snack"; "unspecified"]%string.

(** Three entries of one day: breakfast, lunch, and breakfast again. *)
Definition mealEntry (id : Z) (meal : string) (calories : Qc) : FoodLogEntry.t Qc :=
  FoodLogEntry.mk id "2025-01-15 12:00:00" "2025-01-15" (Some meal) "oatmeal" None
                  (qc 1 1) "cup" calories None None None None None.

Definition threeMeals : list (FoodLogEntry.t Qc) :=
  [ mealEntry 1 "breakfast" (qc 150 1);
    mealEntry 2 "lunch" (qc 400 1);
    mealEntry 3 "breakfast" (qc 90 1) ].

(* ================================================================= *)
(** * Properties *)

(** ** The aggregator *)

Section AggregatorFacts.
Context {num : Type} `{Number num}.

Lemma fold_addEntry_fields (entries : list (FoodLogEntry.t num)) :
  forall acc : NutritionInfo.t num,
    fold_left addEntry entries acc =
    NutritionInfo.mk
      (fold_left add (map (fun e => NutritionInfo.calories (contribution e)) entries)
                 (NutritionInfo.calories acc))
      (fold_left add (map (fun e => NutritionInfo.protein_g (contribution e)) entries)
                 (NutritionInfo.protein_g acc))
      (fold_left add (map (fun e => NutritionInfo.carbs_g (contribution e)) entries)
                 (NutritionInfo.carbs_g acc))
      (fold_left add (map (fun e => NutritionInfo.fat_g (contribution e)) entries)
                 (NutritionInfo.fat_g acc))
      (fold_left add (map (fun e => NutritionInfo.fiber_g (contribution e)) entries)
                 (NutritionInfo.fiber_g acc)).
Proof.
  induction entries as [|e es IH]; intros acc.
  - destruct acc; reflexivity.
  - cbn [fold_left map]. rewrite IH. reflexivity.
Qed.

Lemma calculateTotals_fields (entries : list (FoodLogEntry.t num)) :
  calculateTotals entries =
  NutritionInfo.mk
    (sumOf (map (fun e => orZero (Some (FoodLogEntry.calories e))) entries))
    (sumOf (map (fun e => orZero (FoodLogEntry.protein_g e)) entries))
    (sumOf (map (fun e => orZero (FoodLogEntry.carbs_g e)) entries))
    (sumOf (map (fun e => orZero (FoodLogEntry.fat_g e)) entries))
    (sumOf (map (fun e => orZero (FoodLogEntry.fiber_g e)) entries)).
Proof.
  unfold calculateTotals. rewrite fold_addEntry_fields. reflexivity.
Qed.

(** Reordering the summands is harmless as soon as [+] is associative and
    commutative. *)
Lemma fold_left_add_permutation
    (add_assoc : forall a b c : num, add (add a b) c = add a (add b c))
    (add_comm : forall a b : num, add a b = add b a)
    (xs ys : list num) :
  Permutation xs ys -> forall acc, fold_left add xs acc = fold_left add ys acc.
Proof.
  induction 1 as [|x xs ys _ IH|x y xs|xs ys zs _ IH1 _ IH2]; intros acc; cbn [fold_left].
  - reflexivity.
  - apply IH.
  - f_equal. rewrite !add_assoc. f_equal. apply add_comm.
  - now rewrite IH1.
Qed.

End AggregatorFacts.

(** C1.  [calculateTotals] is a total function: for every list of entries
    it returns a record, and each of the five fields is the sum, accumulated
    from [0] in list order, of what the entries contribute to that field.
    An absent ([null]) field contributes [0]; a stored number contributes
    itself (a falsy one, that is [0], contributes [0]).  The empty list gives
    the all-zero record. *)
Theorem calculateTotals_sums_fields {num : Type} `{Number num}
        (entries : list (FoodLogEntry.t num)) :
  let totals := calculateTotals entries in
  NutritionInfo.calories totals
    = sumOf (map (fun e => orZero (Some (FoodLogEntry.calories e))) entries)
  /\ NutritionInfo.protein_g totals
    = sumOf (map (fun e => orZero (FoodLogEntry.protein_g e)) entries)
  /\ NutritionInfo.carbs_g totals
    = sumOf (map (fun e => orZero (FoodLogEntry.carbs_g e)) entries)
  /\ NutritionInfo.fat_g totals
    = sumOf (map (fun e => orZero (FoodLogEntry.fat_g e)) entries)
  /\ NutritionInfo.fiber_g totals
    = sumOf (map (fun e => orZero (FoodLogEntry.fiber_g e)) entries)
  /\ calculateTotals (@nil (FoodLogEntry.t num)) = NutritionInfo.mk zero zero zero zero zero
  /\ orZero None = zero
  /\ (forall x : num, truthy x = true -> orZero (Some x) = x)
  /\ (forall x : num, truthy x = false -> orZero (Some x) = zero).
Proof.
  cbv zeta. rewrite calculateTotals_fields. cbn [NutritionInfo.calories
    NutritionInfo.protein_g NutritionInfo.carbs_g NutritionInfo.fat_g NutritionInfo.fiber_g].
  repeat split; intros x Hx; cbn [orZero]; now rewrite Hx.
Qed.

(** The scenario of the specification: 150 + 400 calories and 5 + 40 g of
    protein on one day. *)
Example scenarioDay_totals :
  calculateTotals scenarioDay = NutritionInfo.mk (qc 550 1) (qc 45 1) (qc 0 1) (qc 0 1) (qc 0 1).
Proof.
  rewrite calculateTotals_fields.
  f_equal; apply Qc_is_canon; vm_compute; reflexivity.
Qed.

(** C5, as amended.  Where the addition of the number system is associative
    and commutative (exact arithmetic), [calculateTotals] gives the same
    record on every permutation of its input. *)
Theorem calculateTotals_permutation_exact {num : Type} `{Number num}
        (add_assoc : forall a b c : num, add (add a b) c = add a (add b c))
        (add_comm : forall a b : num, add a b = add b a)
        (entries entries' : list (FoodLogEntry.t num)) :
  Permutation entries entries' ->
  calculateTotals entries = calculateTotals entries'.
Proof.
  intros P. rewrite !calculateTotals_fields. unfold sumOf.
  f_equal; apply fold_left_add_permutation; auto; now apply Permutation_map.
Qed.

Lemma calculateTotals_permutation_exact_witness :
  calculateTotals (rev scenarioDay) = calculateTotals scenarioDay.
Proof.
  apply (@calculateTotals_permutation_exact Qc Qc_Number).
  - intros a b c. symmetry. apply Qcplus_assoc.
  - apply Qcplus_comm.
  - apply Permutation_sym, Permutation_rev.
Defined.

(** C5, as stated, fails on doubles: 0.1 + 0.2 + 0.3 is
    0.6000000000000001 and 0.3 + 0.2 + 0.1 is 0.6. *)
Lemma calculateTotals_permutation_float_counterexample :
  Permutation floatDay (rev floatDay)
  /\ calculateTotals floatDay <> calculateTotals (rev floatDay).
Proof.
  split.
  - apply Permutation_rev.
  - intros E.
    apply (f_equal (fun t => PrimFloat.eqb (NutritionInfo.protein_g t)
                                           (NutritionInfo.protein_g (calculateTotals floatDay)))) in E.
    vm_compute in E. discriminate E.
Qed.

(* ================================================================= *)
(** ** Doubles: when no addition rounds *)

Lemma floatValue_reduced (x : float) (v : Q) : floatValue x = Some v -> Qred v = v.
Proof.
  unfold floatValue. destruct (Prim2SF x) as [s| | |s m e]; intros H; try discriminate H.
  - assert (E : v = 0%Q) by congruence. subst v. reflexivity.
  - remember ((if s then -1 else 1) * inject_Z (Zpos m) * Qpower 2 e)%Q as q.
    assert (E : v = Qred q) by congruence. subst v. apply Qred_involutive.
Qed.

Lemma exactSumFrom_value (xs : list float) :
  forall (acc : float) (a : Q),
    floatValue acc = Some a -> exactSumFrom acc xs = true ->
    exists t : Q,
      floatValue (fold_left PrimFloat.add xs acc) = Some t /\ (t == a + valuesSum xs)%Q.
Proof.
  induction xs as [|x xs IH]; intros acc a Ha Hex; cbn [fold_left valuesSum fold_right].
  - exists a. split; [assumption | ring].
  - cbn [exactSumFrom] in Hex. apply andb_prop in Hex. destruct Hex as [Hadd Hrest].
    unfold exactAdd in Hadd. rewrite Ha in Hadd.
    destruct (floatValue x) as [b|] eqn:Hb; [|discriminate].
    destruct (floatValue (acc + x)) as [c|] eqn:Hc; [|discriminate].
    apply Qeq_bool_eq in Hadd.
    destruct (IH _ c Hc Hrest) as [t [Ht Hsum]].
    exists t. split; [assumption|].
    rewrite Hsum, Hadd. unfold valueOr0 at 1. rewrite Hb.
    fold (valuesSum xs). ring.
Qed.

Lemma valuesSum_permutation (xs ys : list float) :
  Permutation xs ys -> (valuesSum xs == valuesSum ys)%Q.
Proof.
  induction 1 as [|x xs ys _ IH|x y xs|xs ys zs _ IH1 _ IH2];
    cbn [valuesSum fold_right]; fold valuesSum in *.
  - reflexivity.
  - fold (valuesSum xs). fold (valuesSum ys). now rewrite IH.
  - fold (valuesSum xs). ring.
  - etransitivity; eassumption.
Qed.

(** Two exact summations of the same doubles, in any two orders, end on
    doubles that stand for the same number. *)
Lemma exactSum_permutation (xs ys : list float) :
  Permutation xs ys ->
  exactSumFrom 0%float xs = true -> exactSumFrom 0%float ys = true ->
  floatValue (sumOf xs) = floatValue (sumOf ys).
Proof.
  intros P Hx Hy. unfold sumOf. cbn [add zero float_Number].
  destruct (exactSumFrom_value xs 0%float (a:=0%Q) eq_refl Hx) as [t [Ht Hts]].
  destruct (exactSumFrom_value ys 0%float (a:=0%Q) eq_refl Hy) as [u [Hu Hus]].
  rewrite Ht, Hu. f_equal.
  rewrite <- (floatValue_reduced _ Ht), <- (floatValue_reduced _ Hu).
  apply Qred_complete. rewrite Hts, Hus. now rewrite (valuesSum_permutation P).
Qed.

(** On doubles, [calculateTotals] gives records that stand for the same
    numbers on a sequence and on a permutation of it, whenever no addition
    rounds in either run. *)
Lemma calculateTotals_permutation_exact_doubles
      (entries entries' : list (FoodLogEntry.t float)) :
  Permutation entries entries' ->
  exactTotals entries = true -> exactTotals entries' = true ->
  valuesOf (calculateTotals entries) = valuesOf (calculateTotals entries').
Proof.
  intros P He He'. unfold exactTotals in He, He'.
  repeat (apply andb_prop in He; destruct He as [He ?]).
  repeat (apply andb_prop in He'; destruct He' as [He' ?]).
  rewrite !calculateTotals_fields. unfold valuesOf.
  cbn [NutritionInfo.calories NutritionInfo.protein_g NutritionInfo.carbs_g
       NutritionInfo.fat_g NutritionInfo.fiber_g].
  f_equal; apply exactSum_permutation; auto; now apply Permutation_map.
Qed.

(** Whole numbers add without rounding: 100, 200, 300 total 600 in both
    orders. *)
Example wholeDay_any_order :
  valuesOf (calculateTotals (rev wholeDay)) = valuesOf (calculateTotals wholeDay)
  /\ floatValue (NutritionInfo.calories (calculateTotals wholeDay)) = Some (600 # 1).
Proof.
  split.
  - apply calculateTotals_permutation_exact_doubles.
    + apply Permutation_sym, Permutation_rev.
    + vm_compute. reflexivity.
    + vm_compute. reflexivity.
  - vm_compute. reflexivity.
Qed.

(* ================================================================= *)
(** ** Grouping with a plain object *)

Lemma existsb_eqb_In (k : string) (ks : list string) :
  existsb (String.eqb k) ks = true <-> In k ks.
Proof.
  rewrite existsb_exists. split.
  - intros [k' [Hin Heq]]. apply String.eqb_eq in Heq. now subst.
  - intros Hin. exists k. split; [assumption | apply String.eqb_refl].
Qed.

Lemma existsb_eqb_notIn (k : string) (ks : list string) :
  existsb (String.eqb k) ks = false <-> ~ In k ks.
Proof.
  rewrite <- existsb_eqb_In. destruct (existsb (String.eqb k) ks); intuition congruence.
Qed.

Lemma In_distinct (k : string) (ks : list string) : In k (distinct ks) <-> In k ks.
Proof.
  induction ks as [|a ks IH]; cbn [distinct In]; [tauto|].
  rewrite filter_In, IH, negb_true_iff, String.eqb_neq.
  destruct (string_dec a k) as [->|Hne]; intuition congruence.
Qed.

Lemma existsb_distinct (k : string) (ks : list string) :
  existsb (String.eqb k) (distinct ks) = existsb (String.eqb k) ks.
Proof.
  destruct (existsb (String.eqb k) ks) eqn:E.
  - apply existsb_eqb_In, In_distinct, existsb_eqb_In, E.
  - apply existsb_eqb_notIn. rewrite In_distinct. now apply existsb_eqb_notIn.
Qed.

Lemma NoDup_distinct (ks : list string) : NoDup (distinct ks).
Proof.
  induction ks as [|a ks IH]; cbn [distinct]; constructor.
  - rewrite filter_In, negb_true_iff, String.eqb_neq. intuition congruence.
  - now apply NoDup_filter.
Qed.

Lemma distinct_snoc (ks : list string) (k : string) :
  distinct (ks ++ [k]) = if existsb (String.eqb k) ks then distinct ks else distinct ks ++ [k].
Proof.
  induction ks as [|a ks IH]; cbn [app distinct existsb filter]; [reflexivity|].
  rewrite IH. destruct (String.eqb_spec k a) as [->|Hne]; cbn [orb].
  - destruct (existsb (String.eqb a) ks); [reflexivity|].
    rewrite filter_app. cbn [filter]. rewrite String.eqb_refl. cbn [negb].
    now rewrite app_nil_r.
  - destruct (existsb (String.eqb k) ks); [reflexivity|].
    rewrite filter_app. cbn [filter].
    apply String.eqb_neq in Hne. rewrite Hne. reflexivity.
Qed.

Lemma filter_none {X : Type} (p : X -> bool) (xs : list X) :
  (forall x, In x xs -> p x = false) -> filter p xs = [].
Proof.
  induction xs as [|a xs IH]; cbn [filter]; intros Hp; [reflexivity|].
  rewrite (Hp a) by now left. apply IH. intros x Hx. apply Hp. now right.
Qed.

Section GroupingFacts.
Context {X : Type} (key : X -> string).

Lemma getOwn_tabulate {V : Type} (f : string -> V) (ks : list string) (k : string) :
  JSObject.getOwn (map (fun k' => (k', f k')) ks) k
  = if existsb (String.eqb k) ks then Some (f k) else None.
Proof.
  induction ks as [|a ks IH]; cbn [map JSObject.getOwn existsb]; [reflexivity|].
  destruct (String.eqb_spec k a) as [->|Hne]; cbn [orb]; [reflexivity | apply IH].
Qed.

Lemma set_tabulate_new {V : Type} (f : string -> V) (ks : list string) (k : string) (v : V) :
  ~ In k ks ->
  JSObject.set (map (fun k' => (k', f k')) ks) k v = map (fun k' => (k', f k')) ks ++ [(k, v)].
Proof.
  induction ks as [|a ks IH]; cbn [map JSObject.set app In]; intros Hnin; [reflexivity|].
  destruct (String.eqb_spec k a) as [->|Hne]; [tauto|].
  rewrite IH by tauto. reflexivity.
Qed.

Lemma set_tabulate_old {V : Type} (f g : string -> V) (ks : list string) (k : string) :
  NoDup ks ->
  (forall k', k' <> k -> g k' = f k') ->
  In k ks ->
  JSObject.set (map (fun k' => (k', f k')) ks) k (g k) = map (fun k' => (k', g k')) ks.
Proof.
  intros Hnd Hfg.
  induction Hnd as [|a ks Hnin Hnd IH]; cbn [map JSObject.set In]; intros Hin; [tauto|].
  destruct (String.eqb_spec k a) as [->|Hne].
  - f_equal. apply map_ext_in. intros k' Hk'.
    rewrite Hfg; [reflexivity | congruence].
  - rewrite IH by (destruct Hin; congruence). rewrite (Hfg a) by congruence. reflexivity.
Qed.

Lemma pushTo_groupsOf (pre : list X) (x : X) :
  JSObject.inherited (key x) = false ->
  JSObject.pushTo (groupsOf key pre) (key x) x = Some (groupsOf key (pre ++ [x])).
Proof.
  intros Hplain. unfold JSObject.pushTo, JSObject.get, groupsOf.
  rewrite getOwn_tabulate, existsb_distinct, map_app. cbn [map]. rewrite distinct_snoc.
  destruct (existsb (String.eqb (key x)) (map key pre)) eqn:Hseen.
  - f_equal.
    rewrite existsb_eqb_In, <- In_distinct in Hseen.
    replace (filter (fun y => String.eqb (key y) (key x)) pre ++ [x])
      with ((fun k => filter (fun y => String.eqb (key y) k) (pre ++ [x])) (key x))
      by (rewrite filter_app; cbn [filter]; now rewrite String.eqb_refl).
    apply (set_tabulate_old
      (fun k => filter (fun y => String.eqb (key y) k) pre)
      (fun k => filter (fun y => String.eqb (key y) k) (pre ++ [x]))).
    + apply NoDup_distinct.
    + intros k' Hne. rewrite filter_app. cbn [filter].
      apply not_eq_sym, String.eqb_neq in Hne. rewrite Hne. apply app_nil_r.
    + assumption.
  - rewrite Hplain. f_equal.
    rewrite existsb_eqb_notIn in Hseen.
    rewrite set_tabulate_new by (now rewrite In_distinct).
    rewrite map_app. cbn [map]. f_equal.
    + apply map_ext_in. intros k Hk. f_equal.
      rewrite filter_app. cbn [filter].
      destruct (String.eqb_spec (key x) k) as [<-|Hne]; [| now rewrite app_nil_r].
      exfalso. apply Hseen. now apply In_distinct.
    + f_equal. f_equal. rewrite filter_app. cbn [filter]. rewrite String.eqb_refl.
      rewrite filter_none; [reflexivity|].
      intros y Hy. apply String.eqb_neq. intros E. apply Hseen.
      rewrite <- E. now apply in_map.
Qed.

End GroupingFacts.

Section GroupIntoFacts.
Context {X : Type} (key : X -> string).

Lemma groupInto_groupsOf (xs : list X) :
  Forall (fun x => JSObject.inherited (key x) = false) xs ->
  forall pre : list X,
  JSObject.groupInto key xs (groupsOf key pre) = Some (groupsOf key (pre ++ xs)).
Proof.
  induction 1 as [|x xs Hx _ IH]; intros pre; cbn [JSObject.groupInto].
  - now rewrite app_nil_r.
  - rewrite pushTo_groupsOf by assumption. rewrite IH, <- app_assoc. reflexivity.
Qed.

(** A key that is inherited from [Object.prototype] makes the loop throw. *)
Lemma groupInto_throws (xs : list X) :
  Exists (fun x => JSObject.inherited (key x) = true) xs ->
  forall pre : list X,
  Forall (fun x => JSObject.inherited (key x) = false) pre ->
  JSObject.groupInto key xs (groupsOf key pre) = None.
Proof.
  induction xs as [|x xs IH]; intros Hex pre Hpre; [inversion Hex|].
  cbn [JSObject.groupInto].
  destruct (JSObject.inherited (key x)) eqn:Hx.
  - unfold JSObject.pushTo, JSObject.get, groupsOf.
    rewrite getOwn_tabulate, existsb_distinct.
    destruct (existsb (String.eqb (key x)) (map key pre)) eqn:Hseen.
    + apply existsb_eqb_In, in_map_iff in Hseen. destruct Hseen as [y [Hy Hin]].
      rewrite Forall_forall in Hpre. specialize (Hpre y Hin). congruence.
    + now rewrite Hx.
  - rewrite pushTo_groupsOf by assumption. apply IH.
    + inversion Hex; subst; [congruence | assumption].
    + apply Forall_app. split; [assumption | now constructor].
Qed.

Lemma indexProperties_plain {V : Type} (o : JSObject.t V) :
  Forall (fun kv => JSObject.arrayIndex (fst kv) = None) o ->
  JSObject.indexProperties o = [].
Proof.
  induction 1 as [|[k v] o Hk _ IH]; cbn [JSObject.indexProperties]; [reflexivity|].
  cbn [fst] in Hk. now rewrite Hk.
Qed.

Lemma entries_plain {V : Type} (o : JSObject.t V) :
  Forall (fun kv => JSObject.arrayIndex (fst kv) = None) o ->
  JSObject.entries o = o.
Proof.
  intros Ho. unfold JSObject.entries, JSObject.stringProperties.
  rewrite indexProperties_plain by assumption. cbn [map app].
  induction Ho as [|[k v] o Hk _ IH]; cbn [filter]; [reflexivity|].
  cbn [fst] in *. rewrite Hk. now f_equal.
Qed.

Lemma entries_groupsOf (xs : list X) :
  Forall (fun x => JSObject.arrayIndex (key x) = None) xs ->
  JSObject.entries (groupsOf key xs) = groupsOf key xs.
Proof.
  intros Hxs. apply entries_plain. unfold groupsOf.
  rewrite Forall_map. cbn [fst]. rewrite Forall_forall. intros k Hk.
  apply In_distinct, in_map_iff in Hk. destruct Hk as [x [<- Hin]].
  rewrite Forall_forall in Hxs. now apply Hxs.
Qed.

Lemma plainKey_split (k : string) :
  JSObject.plainKey k = true ->
  JSObject.arrayIndex k = None /\ JSObject.inherited k = false.
Proof.
  unfold JSObject.plainKey. destruct (JSObject.arrayIndex k); [discriminate|].
  rewrite negb_true_iff. auto.
Qed.

Lemma groupsOf_length_pos (xs : list X) :
  xs <> [] -> (0 < List.length (groupsOf key xs))%nat.
Proof.
  destruct xs as [|x xs]; [congruence|]. intros _.
  unfold groupsOf. rewrite length_map. cbn [map distinct List.length]. lia.
Qed.

End GroupIntoFacts.

(** ** Calendar dates are plain keys *)

Lemma isoDate_not_inherited (s : string) :
  isoDate s = true -> JSObject.inherited s = false.
Proof.
  intros Hiso. destruct (JSObject.inherited s) eqn:E; [|reflexivity].
  apply existsb_eqb_In in E. unfold JSObject.prototypeNames in E. cbn [In] in E.
  repeat (destruct E as [E|E]; [subst s; vm_compute in Hiso; discriminate Hiso|]).
  contradiction.
Qed.

Lemma isoDate_not_index (s : string) :
  isoDate s = true -> JSObject.arrayIndex s = None.
Proof.
  unfold isoDate.
  destruct s as [|c1 [|c2 [|c3 [|c4 [|c5 s]]]]]; cbn [list_ascii_of_string]; try discriminate.
  destruct (list_ascii_of_string s) as [|? [|? [|? [|? [|? [|? ?]]]]]]; try discriminate.
  intros Hiso. repeat (apply andb_prop in Hiso; destruct Hiso as [Hiso ?]).
  match goal with H : (c5 =? "-")%char = true |- _ => apply Ascii.eqb_eq in H; subst c5 end.
  unfold JSObject.arrayIndex.
  destruct (c1 =? "0")%char; [reflexivity|].
  cbn [JSObject.decimalValue].
  destruct (JSObject.digitValue c1); [|reflexivity].
  destruct (JSObject.digitValue c2); [|reflexivity].
  destruct (JSObject.digitValue c3); [|reflexivity].
  destruct (JSObject.digitValue c4); [|reflexivity].
  reflexivity.
Qed.

Lemma isoDate_plainKey (s : string) : isoDate s = true -> JSObject.plainKey s = true.
Proof.
  intros Hiso. unfold JSObject.plainKey.
  rewrite (isoDate_not_index s Hiso), (isoDate_not_inherited s Hiso). reflexivity.
Qed.

Lemma isoDates_plain {num : Type} (entries : list (FoodLogEntry.t num)) :
  Forall (fun e => isoDate (FoodLogEntry.date e) = true) entries -> plainDates entries.
Proof.
  apply Forall_impl. intros e. apply isoDate_plainKey.
Qed.

(* ================================================================= *)
(** ** The goals record *)

Section StoreFacts.
Context {num : Type} {N : Number num} {A : Arithmetic num}.

Lemma initializeSchema_seeded (now : string) (d : Database num) :
  hasGoalsRow d -> initializeSchema now d = d.
Proof.
  intros [g [Hg _]]. unfold initializeSchema. now rewrite Hg.
Qed.

Lemma getDb_seeded (now : string) (st : State num) :
  hasGoalsRow (file st) -> file (getDb now st) = file st.
Proof.
  intros Hrow. unfold getDb. destruct (connected st); [reflexivity|].
  cbn [file]. now apply initializeSchema_seeded.
Qed.

Lemma getDb_connected (now : string) (st : State num) : connected (getDb now st) = true.
Proof.
  unfold getDb. destruct (connected st) eqn:E; [assumption | reflexivity].
Qed.

Lemma getDb_idempotent (now now' : string) (st : State num) :
  getDb now' (getDb now st) = getDb now st.
Proof.
  unfold getDb at 1. now rewrite getDb_connected.
Qed.

Lemma selectGoals_row (d : Database num) (g : Goals.t num) :
  goals d = [g] -> Goals.id g = 1%Z -> selectGoals d = Some g.
Proof.
  intros Hg Hid. unfold selectGoals. rewrite Hg. cbn [find]. now rewrite Hid.
Qed.

(** What [updateGoals] does to a store that holds the goals record. *)
Lemma updateGoals_row (now : string) (patch : GoalsPatch.t num) (st : State num)
    (before : Goals.t num) :
  goals (file st) = [before] -> Goals.id before = 1%Z ->
  let after :=
    Goals.mk 1
      (nullish (GoalsPatch.daily_calories patch) (Goals.daily_calories before))
      (nullish (GoalsPatch.protein_g patch) (Goals.protein_g before))
      (nullish (GoalsPatch.carbs_g patch) (Goals.carbs_g before))
      (nullish (GoalsPatch.fat_g patch) (Goals.fat_g before))
      now in
  updateGoals now patch st
  = (mkState true (mkDatabase [after] (food_logs (file st)) (food_logs_seq (file st))),
     Some after).
Proof.
  intros Hg Hid after.
  assert (Hrow : hasGoalsRow (file st)) by (exists before; auto).
  unfold updateGoals, getGoals. rewrite !getDb_idempotent.
  rewrite (getDb_seeded now st Hrow), getDb_connected.
  rewrite (selectGoals_row _ Hg Hid). cbn [optField].
  rewrite Hg. cbn [map]. unfold updateGoalsRow. rewrite Hid. cbn [Z.eqb Pos.eqb].
  cbn [GoalsPatch.daily_calories GoalsPatch.protein_g GoalsPatch.carbs_g GoalsPatch.fat_g].
  unfold getDb. cbn [connected file].
  unfold selectGoals. cbn [goals find Goals.id Z.eqb Pos.eqb].
  reflexivity.
Qed.

Lemma step_hasGoalsRow (call : string * Op num) (st : State num) :
  hasGoalsRow (file st) -> hasGoalsRow (file (step st call)).
Proof.
  intros Hrow. destruct call as [now op].
  destruct op; cbn [step]; unfold getGoals, logFood, getDailyLog,
    getLogsByDateRange, deleteEntry, closeDb; cbn [fst file goals];
    try (rewrite (getDb_seeded now st Hrow); exact Hrow).
  - destruct Hrow as [g [Hg Hid]].
    rewrite (updateGoals_row now patch st Hg Hid). cbn [fst file].
    eexists. split; reflexivity.
  - destruct (connected st); exact Hrow.
Qed.

Lemma boot_hasGoalsRow (now : string) : hasGoalsRow (file (boot now freshFile)).
Proof.
  exists (defaultGoals now). split; reflexivity.
Qed.

Lemma run_hasGoalsRow (calls : list (string * Op num)) :
  forall st : State num, hasGoalsRow (file st) -> hasGoalsRow (file (run calls st)).
Proof.
  induction calls as [|call calls IH]; intros st Hrow; cbn [run fold_left]; [assumption|].
  apply IH. now apply step_hasGoalsRow.
Qed.

Lemma nullish_set (supplied prior : option num) :
  prior <> None -> nullish supplied prior <> None.
Proof.
  destruct supplied; cbn [nullish]; [discriminate | auto].
Qed.

(** The record stays complete: a target that has a value is only ever
    replaced by another value. *)
Lemma step_goalsComplete (call : string * Op num) (st : State num) (g : Goals.t num) :
  goals (file st) = [g] -> Goals.id g = 1%Z -> goalsComplete g ->
  exists g', goals (file (step st call)) = [g'] /\ Goals.id g' = 1%Z /\ goalsComplete g'.
Proof.
  intros Hg Hid Hc.
  assert (Hrow : hasGoalsRow (file st)) by (exists g; auto).
  destruct call as [now op].
  destruct op; cbn [step]; unfold getGoals, logFood, getDailyLog,
    getLogsByDateRange, deleteEntry, closeDb; cbn [fst file goals];
    try (rewrite (getDb_seeded now st Hrow); exists g; auto).
  - rewrite (updateGoals_row now patch st Hg Hid). cbn [fst file goals].
    eexists. split; [reflexivity|]. split; [reflexivity|].
    destruct Hc as [H1 [H2 [H3 H4]]].
    repeat split; cbn; now apply nullish_set.
  - destruct (connected st); exists g; auto.
Qed.

(** Calls other than [updateGoals] leave the goals table alone. *)
Lemma step_goals_unchanged (call : string * Op num) (st : State num) :
  hasGoalsRow (file st) -> notUpdateGoals call = true ->
  goals (file (step st call)) = goals (file st).
Proof.
  intros Hrow Hcall. destruct call as [now op].
  destruct op; cbn [step]; unfold getGoals, logFood, getDailyLog,
    getLogsByDateRange, deleteEntry, closeDb; cbn [fst file goals];
    try (now rewrite (getDb_seeded now st Hrow)).
  - discriminate Hcall.
  - now destruct (connected st).
Qed.

End StoreFacts.

Section GoalsTheorems.
Context {num : Type} {N : Number num} {A : Arithmetic num}.

Lemma run_goalsComplete (calls : list (string * Op num)) :
  forall (st : State num) (g : Goals.t num),
  goals (file st) = [g] -> Goals.id g = 1%Z -> goalsComplete g ->
  exists g', goals (file (run calls st)) = [g'] /\ Goals.id g' = 1%Z /\ goalsComplete g'.
Proof.
  induction calls as [|call calls IH]; intros st g Hg Hid Hc; cbn [run fold_left].
  - exists g. auto.
  - destruct (step_goalsComplete call st Hg Hid Hc) as [g' [Hg' [Hid' Hc']]].
    exact (IH _ g' Hg' Hid' Hc').
Qed.

Lemma run_goals_unchanged (calls : list (string * Op num)) :
  forall st : State num,
  hasGoalsRow (file st) -> forallb notUpdateGoals calls = true ->
  goals (file (run calls st)) = goals (file st).
Proof.
  induction calls as [|call calls IH]; intros st Hrow Hcalls; cbn [run fold_left]; [reflexivity|].
  cbn [forallb] in Hcalls. apply andb_prop in Hcalls. destruct Hcalls as [Hcall Hcalls].
  unfold run in IH. rewrite IH; [| now apply step_hasGoalsRow | assumption].
  now apply step_goals_unchanged.
Qed.

Lemma defaultGoals_complete (now : string) : goalsComplete (defaultGoals (num:=num) now).
Proof.
  repeat split; discriminate.
Qed.

Lemma getGoals_row (now : string) (st : State num) (g : Goals.t num) :
  goals (file st) = [g] -> Goals.id g = 1%Z ->
  getGoals now st = (getDb now st, Some g) /\ file (getDb now st) = file st.
Proof.
  intros Hg Hid.
  assert (Hrow : hasGoalsRow (file st)) by (exists g; auto).
  unfold getGoals. rewrite (getDb_seeded now st Hrow).
  now rewrite (selectGoals_row _ Hg Hid).
Qed.

End GoalsTheorems.

(** C9.  Opening a fresh store seeds the goals record (id 1, 2000 calories,
    150 g protein, 250 g carbs, 65 g fat).  After any sequence of store
    operations [getGoals] returns a record: it has id 1, it is the only row
    of the table, and each of its four targets has a value; as long as
    nobody called [updateGoals] it is still the default record. *)
Theorem getGoals_never_absent {num : Type} {N : Number num} {A : Arithmetic num}
        (now now' : string) (calls : list (string * Op num)) :
  snd (getGoals now' (boot now freshFile))
    = Some (Goals.mk 1 (Some (ofZ 2000)) (Some (ofZ 150)) (Some (ofZ 250)) (Some (ofZ 65)) now)
  /\ (exists g : Goals.t num,
         snd (getGoals now' (run calls (boot now freshFile))) = Some g
         /\ Goals.id g = 1%Z
         /\ goalsComplete g
         /\ goals (file (fst (getGoals now' (run calls (boot now freshFile))))) = [g])
  /\ (forallb notUpdateGoals calls = true ->
      snd (getGoals now' (run calls (boot now freshFile))) = Some (defaultGoals now)).
Proof.
  split; [reflexivity|]. split.
  - destruct (run_goalsComplete calls (boot now freshFile) (g:=defaultGoals now)
                eq_refl eq_refl (defaultGoals_complete now)) as [g [Hg [Hid Hc]]].
    exists g. destruct (getGoals_row now' _ Hg Hid) as [E F].
    rewrite E. cbn [fst snd]. rewrite F. auto.
  - intros Hcalls.
    pose proof (run_goals_unchanged calls (boot now freshFile)
                                    (boot_hasGoalsRow now) Hcalls) as Hg.
    change (goals (file (boot now freshFile))) with [defaultGoals (num:=num) now] in Hg.
    destruct (getGoals_row now' _ Hg eq_refl) as [E _]. now rewrite E.
Qed.

(** C8.  In every state the store can be in, the goals table holds exactly
    one record before [updateGoals] and exactly one after it; a target that
    the call supplies takes the supplied value, a target it does not supply
    keeps its prior value, and the food log is untouched. *)
Theorem updateGoals_overwrites_supplied_only
        {num : Type} {N : Number num} {A : Arithmetic num}
        (now t : string) (calls : list (string * Op num))
        (patch : GoalsPatch.t num) :
  let st := run calls (boot now freshFile) in
  let st' := fst (updateGoals t patch st) in
  exists before after : Goals.t num,
    goals (file st) = [before]
    /\ goals (file st') = [after]
    /\ snd (updateGoals t patch st) = Some after
    /\ Goals.id before = 1%Z /\ Goals.id after = 1%Z
    /\ Goals.daily_calories after
       = match GoalsPatch.daily_calories patch with
         | Some v => Some v
         | None => Goals.daily_calories before
         end
    /\ Goals.protein_g after
       = match GoalsPatch.protein_g patch with
         | Some v => Some v
         | None => Goals.protein_g before
         end
    /\ Goals.carbs_g after
       = match GoalsPatch.carbs_g patch with
         | Some v => Some v
         | None => Goals.carbs_g before
         end
    /\ Goals.fat_g after
       = match GoalsPatch.fat_g patch with
         | Some v => Some v
         | None => Goals.fat_g before
         end
    /\ food_logs (file st') = food_logs (file st).
Proof.
  cbv zeta.
  destruct (run_hasGoalsRow calls (boot now freshFile) (boot_hasGoalsRow now))
    as [before [Hg Hid]].
  rewrite (updateGoals_row t patch _ Hg Hid). cbn [fst snd file goals food_logs].
  exists before. eexists. repeat split; assumption || reflexivity.
Qed.

Section SetGoalsFacts.
Context {num : Type} {N : Number num} {A : Arithmetic num}.

Lemma zeroOrAbsent_falsy (v : option num) : zeroOrAbsent v -> isTruthy v = false.
Proof.
  intros [->| ->]; cbn [isTruthy]; [reflexivity | apply truthy_zero].
Qed.

Lemma truthy_nonzero (v : num) : truthy v = true -> v <> zero.
Proof.
  intros Hv ->. rewrite truthy_zero in Hv. discriminate.
Qed.

Lemma isTruthy_supplied (v : option num) :
  isTruthy v = true -> exists x, v = Some x /\ truthy x = true.
Proof.
  destruct v as [x|]; cbn [isTruthy]; [|discriminate]. intros Hx. now exists x.
Qed.

Lemma nothingToSet_false (input : GoalsPatch.t num) :
  nothingToSet input = false ->
  exists v, (GoalsPatch.daily_calories input = Some v \/ GoalsPatch.protein_g input = Some v
    \/ GoalsPatch.carbs_g input = Some v \/ GoalsPatch.fat_g input = Some v)
  /\ truthy v = true.
Proof.
  unfold nothingToSet. intros Hn.
  destruct (isTruthy (GoalsPatch.daily_calories input)) eqn:E1.
  { destruct (isTruthy_supplied _ E1) as [v [Hv Ht]]. exists v. auto. }
  destruct (isTruthy (GoalsPatch.protein_g input)) eqn:E2.
  { destruct (isTruthy_supplied _ E2) as [v [Hv Ht]]. exists v. auto. }
  destruct (isTruthy (GoalsPatch.carbs_g input)) eqn:E3.
  { destruct (isTruthy_supplied _ E3) as [v [Hv Ht]]. exists v. auto. }
  destruct (isTruthy (GoalsPatch.fat_g input)) eqn:E4.
  { destruct (isTruthy_supplied _ E4) as [v [Hv Ht]]. exists v. auto 6. }
  discriminate Hn.
Qed.

(** With nothing to set the handler only reads. *)
Lemma set_goals_query (clock : Clock) (input : GoalsPatch.t num) (st : State num) :
  nothingToSet input = true ->
  set_goals clock input st
  = (fst (getGoals (timestamp clock) st),
    textResult (currentGoalsText (snd (getGoals (timestamp clock) st)))).
Proof.
  intros Hn. unfold set_goals. rewrite Hn. reflexivity.
Qed.

End SetGoalsFacts.

(* ================================================================= *)
(** ** Order of dates *)

Lemma compare_as_OT (a b : string) : String.compare a b = String_as_OT.compare a b.
Proof.
  revert b. induction a as [|c a IH]; intros [|d b]; reflexivity.
Qed.

Lemma dateLt_alt (a b : string) : dateLt a b <-> String.compare a b = Lt.
Proof.
  unfold dateLt, String.ltb. destruct (String.compare a b); intuition congruence.
Qed.

Lemma dateLt_trans (a b c : string) : dateLt a b -> dateLt b c -> dateLt a c.
Proof.
  rewrite !dateLt_alt, !compare_as_OT.
  apply (@StrictOrder_Transitive _ _ String_as_OT.lt_strorder).
Qed.

Lemma dateLe_cases (a b : string) : dateLe a b <-> dateLt a b \/ a = b.
Proof.
  rewrite dateLt_alt. unfold dateLe, String.leb. split.
  - destruct (String.compare a b) eqn:E; intros H; try discriminate; auto.
    right. now apply String.compare_eq_iff.
  - intros [->| ->]; [reflexivity|].
    destruct (String.compare b b) eqn:E; try reflexivity.
    pose proof (String.compare_antisym b b) as H. rewrite E in H. discriminate H.
Qed.

Lemma dateLe_refl (a : string) : dateLe a a.
Proof. apply dateLe_cases. now right. Qed.

Lemma dateLe_trans (a b c : string) : dateLe a b -> dateLe b c -> dateLe a c.
Proof.
  rewrite !dateLe_cases. intros [Hab| ->] [Hbc| ->]; auto.
  left. now apply dateLt_trans with b.
Qed.

Lemma not_dateLe_dateLt (a b : string) : String.leb a b = false -> dateLt b a.
Proof.
  unfold String.leb. intros H. apply dateLt_alt. rewrite String.compare_antisym.
  destruct (String.compare a b); try discriminate. reflexivity.
Qed.

Lemma StronglySorted_filter {X : Type} (R : X -> X -> Prop) (p : X -> bool) (xs : list X) :
  StronglySorted R xs -> StronglySorted R (filter p xs).
Proof.
  induction 1 as [|x xs _ IH Hall]; cbn [filter]; [constructor|].
  destruct (p x); [|assumption].
  constructor; [assumption|].
  rewrite Forall_forall in *. intros y Hy. apply filter_In in Hy. now apply Hall.
Qed.

(** The distinct dates of a date-ordered sequence are strictly ascending. *)
Lemma distinct_ascending (ks : list string) :
  StronglySorted dateLe ks -> StronglySorted dateLt (distinct ks).
Proof.
  induction 1 as [|k ks _ IH Hall]; cbn [distinct]; constructor.
  - now apply StronglySorted_filter.
  - rewrite Forall_forall in *. intros x Hx.
    apply filter_In in Hx. destruct Hx as [Hx Hne].
    rewrite In_distinct in Hx. apply negb_true_iff, String.eqb_neq in Hne.
    destruct (proj1 (dateLe_cases k x) (Hall x Hx)) as [Hlt| ->]; [assumption | congruence].
Qed.

Lemma sortedByDate_dates {num : Type} (entries : list (FoodLogEntry.t num)) :
  sortedByDate entries -> StronglySorted dateLe (map (@FoodLogEntry.date num) entries).
Proof.
  intros Hs. apply Sorted_StronglySorted in Hs.
  - induction Hs as [|e es _ IH Hall]; cbn [map]; constructor; [assumption|].
    now rewrite Forall_map.
  - intros a b c. apply dateLe_trans.
Qed.

(** ** ORDER BY *)

Section OrderByFacts.
Context {X : Type} (le : X -> X -> bool) (R : X -> X -> Prop).
Hypothesis le_R : forall x y, le x y = true -> R x y.
Hypothesis nle_R : forall x y, le x y = false -> R y x.

Lemma insertSorted_HdRel (a x : X) (sorted : list X) :
  R a x -> HdRel R a sorted -> HdRel R a (insertSorted le x sorted).
Proof.
  intros Hax Hhd. destruct sorted as [|y rest]; cbn [insertSorted].
  - now constructor.
  - destruct (le x y); constructor; [assumption | now inversion Hhd].
Qed.

Lemma insertSorted_Sorted (x : X) (sorted : list X) :
  Sorted R sorted -> Sorted R (insertSorted le x sorted).
Proof.
  induction 1 as [|y rest Hrest IH Hhd]; cbn [insertSorted].
  - repeat constructor.
  - destruct (le x y) eqn:E.
    + constructor; [now constructor | constructor; now apply le_R].
    + constructor; [assumption|]. apply insertSorted_HdRel; [now apply nle_R | assumption].
Qed.

Lemma orderBy_Sorted (rows : list X) : Sorted R (orderBy le rows).
Proof.
  induction rows as [|x rows IH]; cbn [orderBy]; [constructor | now apply insertSorted_Sorted].
Qed.

End OrderByFacts.

Lemma insertSorted_Permutation {X : Type} (le : X -> X -> bool) (x : X) (sorted : list X) :
  Permutation (x :: sorted) (insertSorted le x sorted).
Proof.
  induction sorted as [|y rest IH]; cbn [insertSorted]; [reflexivity|].
  destruct (le x y); [reflexivity|].
  rewrite perm_swap. now constructor.
Qed.

Lemma orderBy_Permutation {X : Type} (le : X -> X -> bool) (rows : list X) :
  Permutation rows (orderBy le rows).
Proof.
  induction rows as [|x rows IH]; cbn [orderBy]; [reflexivity|].
  rewrite <- insertSorted_Permutation. now constructor.
Qed.

(** The rows of a range query come ordered by date. *)
Lemma getLogsByDateRange_sorted {num : Type} {N : Number num} {A : Arithmetic num}
      (now startDate endDate : string) (st : State num) :
  sortedByDate (snd (getLogsByDateRange now startDate endDate st)).
Proof.
  unfold getLogsByDateRange, sortedByDate. cbn [snd].
  apply orderBy_Sorted; intros x y; unfold byDateThenLoggedAt.
  - destruct (String.compare (FoodLogEntry.date x) (FoodLogEntry.date y)) eqn:E;
      intros H; try discriminate; unfold dateLe, String.leb; now rewrite E.
  - destruct (String.compare (FoodLogEntry.date x) (FoodLogEntry.date y)) eqn:E;
      intros H; try discriminate.
    + apply String.compare_eq_iff in E. rewrite E. apply dateLe_refl.
    + apply dateLe_cases. left. apply not_dateLe_dateLt.
      unfold String.leb. now rewrite E.
Qed.

(* ================================================================= *)
(** ** The range summarizer *)

Section SummaryFacts.
Context {num : Type} {N : Number num} {A : Arithmetic num}.

Lemma groupByDate_buckets (entries : list (FoodLogEntry.t num)) :
  plainDates entries ->
  groupByDate entries = Some (bucketsOf entries)
  /\ dailyTotalsList (bucketsOf entries) = map dailyTotalsOf (bucketsOf entries).
Proof.
  intros Hplain. split.
  - unfold groupByDate, bucketsOf.
    apply (groupInto_groupsOf (@FoodLogEntry.date num) (xs:=entries)) with (pre := []).
    eapply Forall_impl; [|exact Hplain]. intros e He. now apply plainKey_split in He.
  - unfold dailyTotalsList, bucketsOf. f_equal. apply entries_groupsOf.
    eapply Forall_impl; [|exact Hplain]. intros e He. now apply plainKey_split in He.
Qed.

Lemma getDb_food_logs (now : string) (st : State num) :
  food_logs (file (getDb now st)) = food_logs (file st).
Proof.
  unfold getDb. destruct (connected st); [reflexivity|].
  cbn [file]. unfold initializeSchema. now destruct (Nat.eqb _ 0).
Qed.

Lemma getLogsByDateRange_plain (now startDate endDate : string) (st : State num) :
  plainDates (food_logs (file st)) ->
  plainDates (snd (getLogsByDateRange now startDate endDate st)).
Proof.
  unfold plainDates, getLogsByDateRange. cbn [snd]. rewrite getDb_food_logs. intros Hplain.
  eapply Permutation_Forall; [apply orderBy_Permutation|].
  rewrite Forall_forall in *. intros e He. apply filter_In in He. now apply Hplain.
Qed.

End SummaryFacts.

Section AverageFacts.
Context {num : Type} {N : Number num} {A : Arithmetic num}.

Lemma sumField_sumOf (field : DailyTotals.t num -> num) (days : list (DailyTotals.t num)) :
  sumField field days = sumOf (map field days).
Proof.
  unfold sumField, sumOf. generalize (zero (num:=num)).
  induction days as [|d days IH]; intros acc; cbn [fold_left map]; [reflexivity | apply IH].
Qed.

Lemma summaryDays_length (entries : list (FoodLogEntry.t num)) :
  List.length (summaryDays entries)
  = List.length (distinct (map (@FoodLogEntry.date num) entries)).
Proof.
  unfold summaryDays, bucketsOf, groupsOf. now rewrite !length_map.
Qed.

Lemma summaryDays_nonempty (entries : list (FoodLogEntry.t num)) :
  entries <> [] -> (0 < List.length (summaryDays entries))%nat.
Proof.
  intros Hne. unfold summaryDays. rewrite length_map.
  now apply groupsOf_length_pos.
Qed.

(** With plain dates and at least one entry the handler reaches the
    averaging code. *)
Lemma get_summary_response_plain (startDate endDate : string)
      (entries : list (FoodLogEntry.t num)) (goals_ : option (Goals.t num)) :
  plainDates entries -> entries <> [] ->
  get_summary_response startDate endDate entries goals_
  = textResult (summaryText startDate endDate (List.length entries)
                            (summaryDays entries) goals_).
Proof.
  intros Hplain Hne. unfold get_summary_response.
  destruct entries as [|e es]; [congruence|]. cbn [List.length Nat.eqb].
  destruct (groupByDate_buckets Hplain) as [-> ->]. reflexivity.
Qed.

(** Each line of the breakdown is the aggregate of the entries of its date. *)
Lemma summaryDays_buckets (entries : list (FoodLogEntry.t num)) :
  summaryDays entries
  = map (fun d => dailyTotalsOf
                    (d, filter (fun e => String.eqb (FoodLogEntry.date e) d) entries))
        (distinct (map (@FoodLogEntry.date num) entries)).
Proof.
  unfold summaryDays, bucketsOf, groupsOf. now rewrite map_map.
Qed.

End AverageFacts.

(* ================================================================= *)
(** * Further properties of the store *)

Lemma NoDup_map_filter {X Y : Type} (f : X -> Y) (p : X -> bool) (xs : list X) :
  NoDup (map f xs) -> NoDup (map f (filter p xs)).
Proof.
  induction xs as [|x xs IH]; cbn [filter map]; intros Hnd; [constructor|].
  inversion Hnd as [|? ? Hnin Hnd']; subst.
  destruct (p x); cbn [map]; [|now apply IH].
  constructor; [|now apply IH].
  intros Hin. apply Hnin. apply in_map_iff in Hin. destruct Hin as [y [Hy Hin]].
  apply filter_In in Hin. apply in_map_iff. exists y. tauto.
Qed.

Section FoodLogFacts.
Context {num : Type} {N : Number num} {A : Arithmetic num}.

Lemma getDb_logs_seq (now : string) (st : State num) :
  food_logs (file (getDb now st)) = food_logs (file st)
  /\ food_logs_seq (file (getDb now st)) = food_logs_seq (file st).
Proof.
  unfold getDb. destruct (connected st); [split; reflexivity|].
  cbn [file]. unfold initializeSchema. destruct (Nat.eqb _ 0); split; reflexivity.
Qed.

(** What a call does to the food log and to its counter: nothing, one new
    row with the next id, or the removal of the rows of one id. *)
Lemma step_food_logs (call : string * Op num) (st : State num) :
  let d := file st in
  let d' := file (step st call) in
  (food_logs d' = food_logs d /\ food_logs_seq d' = food_logs_seq d)
  \/ (exists row, food_logs d' = food_logs d ++ [row]
                  /\ FoodLogEntry.id row = (food_logs_seq d + 1)%Z
                  /\ food_logs_seq d' = (food_logs_seq d + 1)%Z)
  \/ (exists id, food_logs d'
                 = filter (fun row => negb (Z.eqb (FoodLogEntry.id row) id)) (food_logs d)
                 /\ food_logs_seq d' = food_logs_seq d).
Proof.
  destruct call as [now op]. cbv zeta.
  destruct (getDb_logs_seq now st) as [Hl Hs].
  destruct op; cbn [step].
  - left. auto.
  - left. unfold getGoals. cbn [fst]. auto.
  - left. unfold updateGoals, getGoals. cbn [fst]. rewrite !getDb_idempotent.
    split; [rewrite (proj1 (getDb_logs_seq _ _)) | rewrite (proj2 (getDb_logs_seq _ _))];
      cbn [file food_logs food_logs_seq]; assumption.
  - right. left. unfold logFood. cbn [fst file food_logs food_logs_seq].
    rewrite Hl, Hs. eexists. split; [reflexivity|]. split; reflexivity.
  - left. unfold getDailyLog. cbn [fst]. auto.
  - left. unfold getLogsByDateRange. cbn [fst]. auto.
  - right. right. exists id. unfold deleteEntry. cbn [fst file food_logs food_logs_seq].
    rewrite Hl, Hs. auto.
  - left. unfold closeDb. destruct (connected st); auto.
Qed.

Lemma step_seq_mono (call : string * Op num) (st : State num) :
  (food_logs_seq (file st) <= food_logs_seq (file (step st call)))%Z.
Proof.
  destruct (step_food_logs call st) as [[_ Hs]|[[row [_ [_ Hs]]]|[id [_ Hs]]]];
    rewrite Hs; lia.
Qed.

Lemma run_seq_mono (calls : list (string * Op num)) :
  forall st : State num, (food_logs_seq (file st) <= food_logs_seq (file (run calls st)))%Z.
Proof.
  induction calls as [|call calls IH]; intros st; cbn [run fold_left]; [lia|].
  etransitivity; [apply (step_seq_mono call st) | apply IH].
Qed.

Lemma step_idsHandedOut (call : string * Op num) (st : State num) :
  idsHandedOut (file st) -> idsHandedOut (file (step st call)).
Proof.
  unfold idsHandedOut, logIds. intros [Hnd [Hall Hpos]].
  destruct (step_food_logs call st) as [[Hl Hs]|[[row [Hl [Hid Hs]]]|[id [Hl Hs]]]];
    rewrite Hl, Hs.
  - auto.
  - rewrite map_app. cbn [map]. rewrite Hid. split; [|split; [|lia]].
    + apply Permutation_NoDup with (l := (food_logs_seq (file st) + 1)%Z
                                         :: map (@FoodLogEntry.id num) (food_logs (file st))).
      * apply Permutation_cons_append.
      * constructor; [|assumption].
        intros Hin. rewrite Forall_forall in Hall. apply Hall in Hin. lia.
    + apply Forall_app. split.
      * eapply Forall_impl; [|exact Hall]. cbv beta. intros i Hi. lia.
      * constructor; [lia | constructor].
  - split; [|split; [|assumption]].
    + now apply NoDup_map_filter.
    + rewrite Forall_forall in *. intros i Hi. apply Hall.
      apply in_map_iff in Hi. destruct Hi as [x [Hx Hin]]. apply filter_In in Hin.
      apply in_map_iff. exists x. tauto.
Qed.

Lemma boot_idsHandedOut (now : string) : idsHandedOut (file (boot (num:=num) now freshFile)).
Proof.
  unfold idsHandedOut, logIds. cbn. repeat split; [constructor | constructor | lia].
Qed.

Lemma run_idsHandedOut (calls : list (string * Op num)) :
  forall st : State num, idsHandedOut (file st) -> idsHandedOut (file (run calls st)).
Proof.
  induction calls as [|call calls IH]; intros st Hinv; cbn [run fold_left]; [assumption|].
  apply IH. now apply step_idsHandedOut.
Qed.

End FoodLogFacts.

(* ----------------------------------------------------------------- *)
(** ** Rows, ids and the calls that change them *)

Lemma filter_length_lt {X : Type} (p : X -> bool) (xs : list X) :
  Nat.ltb (List.length (filter p xs)) (List.length xs) = true
  <-> exists x, In x xs /\ p x = false.
Proof.
  rewrite Nat.ltb_lt. induction xs as [|x xs IH]; cbn [filter List.length In].
  - split; [lia | intros [x [[] _]]].
  - pose proof (filter_length_le p xs) as Hle.
    destruct (p x) eqn:E; cbn [List.length].
    + rewrite <- Nat.succ_lt_mono, IH. split.
      * intros [y [Hy Hp]]. exists y. auto.
      * intros [y [[->|Hy] Hp]]; [congruence | exists y; auto].
    + split; [|lia]. intros _. exists x. auto.
Qed.

Lemma filter_all {X : Type} (p : X -> bool) (xs : list X) :
  (forall x, In x xs -> p x = true) -> filter p xs = xs.
Proof.
  induction xs as [|x xs IH]; cbn [filter]; intros Hp; [reflexivity|].
  rewrite (Hp x (or_introl eq_refl)). f_equal. apply IH. intros y Hy. apply Hp. now right.
Qed.

Lemma dateLt_irreflexive (a : string) : ~ dateLt a a.
Proof.
  rewrite dateLt_alt. intros E.
  pose proof (String.compare_antisym a a) as H. rewrite E in H. discriminate H.
Qed.

Lemma dateLt_not_dateLe (a b : string) : dateLt a b -> ~ dateLe b a.
Proof.
  intros Hlt Hle. apply dateLe_cases in Hle. destruct Hle as [Hlt'| ->].
  - exact (dateLt_irreflexive (dateLt_trans Hlt Hlt')).
  - exact (dateLt_irreflexive Hlt).
Qed.

Section FoodLogCalls.
Context {num : Type} {N : Number num} {A : Arithmetic num}.

Lemma logFood_file (now : string) (entry : NewEntry.t num) (st : State num) :
  let row := snd (logFood now entry st) in
  food_logs (file (fst (logFood now entry st))) = food_logs (file st) ++ [row]
  /\ food_logs_seq (file (fst (logFood now entry st))) = (food_logs_seq (file st) + 1)%Z
  /\ FoodLogEntry.id row = (food_logs_seq (file st) + 1)%Z
  /\ FoodLogEntry.date row = NewEntry.date entry
  /\ FoodLogEntry.logged_at row = now.
Proof.
  destruct (getDb_logs_seq now st) as [Hl Hs].
  unfold logFood. cbn [fst snd file food_logs food_logs_seq FoodLogEntry.id
                       FoodLogEntry.date FoodLogEntry.logged_at].
  rewrite Hl, Hs. repeat split.
Qed.

Lemma logFood_id_fresh (now : string) (entry : NewEntry.t num) (st : State num) :
  idsHandedOut (file st) ->
  ~ In (FoodLogEntry.id (snd (logFood now entry st))) (logIds (file st)).
Proof.
  intros [_ [Hall _]] Hin. destruct (logFood_file now entry st) as [_ [_ [Hid _]]].
  rewrite Hid in Hin. rewrite Forall_forall in Hall. apply Hall in Hin. lia.
Qed.

Lemma logFood_idsHandedOut (now : string) (entry : NewEntry.t num) (st : State num) :
  idsHandedOut (file st) -> idsHandedOut (file (fst (logFood now entry st))).
Proof. exact (step_idsHandedOut (now, OpLogFood entry) st). Qed.

Lemma deleteEntry_file (now : string) (id : Z) (st : State num) :
  food_logs (file (fst (deleteEntry now id st)))
  = filter (fun row => negb (Z.eqb (FoodLogEntry.id row) id)) (food_logs (file st))
  /\ food_logs_seq (file (fst (deleteEntry now id st))) = food_logs_seq (file st)
  /\ snd (deleteEntry now id st)
     = Nat.ltb (List.length (filter (fun row => negb (Z.eqb (FoodLogEntry.id row) id))
                                    (food_logs (file st))))
               (List.length (food_logs (file st))).
Proof.
  destruct (getDb_logs_seq now st) as [Hl Hs].
  unfold deleteEntry. cbn [fst snd file food_logs food_logs_seq].
  rewrite Hl, Hs. repeat split.
Qed.

Lemma deleteEntry_found (now : string) (id : Z) (st : State num) :
  snd (deleteEntry now id st) = true <-> In id (logIds (file st)).
Proof.
  destruct (deleteEntry_file now id st) as [_ [_ ->]].
  rewrite filter_length_lt. unfold logIds. rewrite in_map_iff. split.
  - intros [row [Hin Hp]]. exists row. split; [|assumption].
    apply negb_false_iff in Hp. now apply Z.eqb_eq.
  - intros [row [Hid Hin]]. exists row. split; [assumption|].
    apply negb_false_iff. now apply Z.eqb_eq.
Qed.

Lemma deleteEntry_rows (now : string) (id : Z) (st : State num) (row : FoodLogEntry.t num) :
  In row (food_logs (file (fst (deleteEntry now id st))))
  <-> In row (food_logs (file st)) /\ FoodLogEntry.id row <> id.
Proof.
  destruct (deleteEntry_file now id st) as [-> _].
  rewrite filter_In, negb_true_iff, Z.eqb_neq. reflexivity.
Qed.

Lemma deleteEntry_gone (now : string) (id : Z) (st : State num) :
  ~ In id (logIds (file (fst (deleteEntry now id st)))).
Proof.
  unfold logIds. rewrite in_map_iff. intros [row [Hid Hin]].
  apply deleteEntry_rows in Hin. tauto.
Qed.

Lemma deleteEntry_absent (now : string) (id : Z) (st : State num) :
  ~ In id (logIds (file st)) ->
  food_logs (file (fst (deleteEntry now id st))) = food_logs (file st).
Proof.
  intros Hnin. destruct (deleteEntry_file now id st) as [-> _].
  apply filter_all. intros row Hin. apply negb_true_iff, Z.eqb_neq.
  intros Hid. apply Hnin. unfold logIds. apply in_map_iff. now exists row.
Qed.

Lemma getDailyLog_rows (now date : string) (st : State num) :
  snd (getDailyLog now date st)
  = orderBy (fun a b => String.leb (FoodLogEntry.logged_at a) (FoodLogEntry.logged_at b))
            (rowsOn date (file st)).
Proof.
  unfold getDailyLog, rowsOn. cbn [snd]. now rewrite (proj1 (getDb_logs_seq now st)).
Qed.

Lemma getLogsByDateRange_rows (now startDate endDate : string) (st : State num) :
  snd (getLogsByDateRange now startDate endDate st)
  = orderBy byDateThenLoggedAt (rowsBetween startDate endDate (file st)).
Proof.
  unfold getLogsByDateRange, rowsBetween. cbn [snd].
  now rewrite (proj1 (getDb_logs_seq now st)).
Qed.

Lemma rowsOn_logFood (now date : string) (entry : NewEntry.t num) (st : State num) :
  rowsOn date (file (fst (logFood now entry st)))
  = rowsOn date (file st)
    ++ (if String.eqb (NewEntry.date entry) date then [snd (logFood now entry st)] else []).
Proof.
  destruct (logFood_file now entry st) as [Hl [_ [_ [Hd _]]]].
  unfold rowsOn. rewrite Hl, filter_app. cbn [filter]. now rewrite Hd.
Qed.

End FoodLogCalls.

(** X1.  Ids of the food log are never reused.  In any store reached from a
    fresh database file, the id [logFood] gives a new row is positive, is
    not the id of any stored row, and is smaller than the id of every row
    logged later, whatever is logged, read or deleted in between. *)
Theorem logFood_ids_never_reused {num : Type} {N : Number num} {A : Arithmetic num}
        (now0 now1 now2 : string) (calls between : list (string * Op num))
        (entry1 entry2 : NewEntry.t num) :
  let st := run calls (boot now0 freshFile) in
  let row1 := snd (logFood now1 entry1 st) in
  let st1 := fst (logFood now1 entry1 st) in
  let st2 := run between st1 in
  let row2 := snd (logFood now2 entry2 st2) in
  ~ In (FoodLogEntry.id row1) (logIds (file st))
  /\ NoDup (logIds (file st1))
  /\ (0 < FoodLogEntry.id row1 < FoodLogEntry.id row2)%Z
  /\ ~ In (FoodLogEntry.id row2) (logIds (file st2))
  /\ NoDup (logIds (file st2)).
Proof.
  intros st row1 st1 st2 row2.
  assert (Hst : idsHandedOut (file st))
    by (apply run_idsHandedOut, boot_idsHandedOut).
  assert (Hst1 : idsHandedOut (file st1)) by now apply logFood_idsHandedOut.
  assert (Hst2 : idsHandedOut (file st2)) by now apply run_idsHandedOut.
  destruct (logFood_file now1 entry1 st) as [_ [Hs1 [Hid1 _]]].
  destruct (logFood_file now2 entry2 st2) as [_ [_ [Hid2 _]]].
  pose proof (run_seq_mono between st1) as Hmono.
  destruct Hst as [Hnd [Hall Hpos]].
  split; [|split; [|split; [|split]]].
  - now apply logFood_id_fresh.
  - exact (proj1 Hst1).
  - fold row1 in Hid1. fold row2 in Hid2. fold st1 in Hs1. fold st2 in Hmono. lia.
  - now apply logFood_id_fresh.
  - exact (proj1 Hst2).
Qed.

(** X2.  What [logFood] stores, [getDailyLog] returns.  The row returned by
    [logFood] carries the time of the call and the date of the entry; the
    daily log of that date then holds this row besides the rows it held
    before, and the daily log of every other date is what it was. *)
Theorem logFood_then_getDailyLog {num : Type} {N : Number num} {A : Arithmetic num}
        (now now' : string) (entry : NewEntry.t num) (st : State num) :
  let row := snd (logFood now entry st) in
  let st1 := fst (logFood now entry st) in
  FoodLogEntry.logged_at row = now
  /\ FoodLogEntry.date row = NewEntry.date entry
  /\ In row (snd (getDailyLog now' (NewEntry.date entry) st1))
  /\ Permutation (snd (getDailyLog now' (NewEntry.date entry) st1))
                 (row :: snd (getDailyLog now' (NewEntry.date entry) st))
  /\ (forall date : string,
         date <> NewEntry.date entry ->
         snd (getDailyLog now' date st1) = snd (getDailyLog now' date st)).
Proof.
  intros row st1.
  destruct (logFood_file now entry st) as [_ [_ [_ [Hd Ht]]]].
  assert (Hperm : Permutation (snd (getDailyLog now' (NewEntry.date entry) st1))
                              (row :: snd (getDailyLog now' (NewEntry.date entry) st))).
  { rewrite !getDailyLog_rows. unfold st1. rewrite rowsOn_logFood, String.eqb_refl.
    fold row. rewrite <- !orderBy_Permutation. symmetry. apply Permutation_cons_append. }
  split; [assumption|]. split; [assumption|]. split; [|split; [assumption|]].
  - eapply Permutation_in; [symmetry; exact Hperm | now left].
  - intros date Hne. rewrite !getDailyLog_rows. unfold st1. rewrite rowsOn_logFood.
    destruct (String.eqb_spec (NewEntry.date entry) date) as [E|_]; [congruence|].
    now rewrite app_nil_r.
Qed.

(** X3.  [deleteEntry] removes exactly the rows of the given id.  Its result
    is [true] exactly when a stored row has the id; afterwards no row has
    it, every other row is still stored, the AUTOINCREMENT counter is
    untouched, and deleting the same id again returns [false]. *)
Theorem deleteEntry_removes_exactly {num : Type} {N : Number num} {A : Arithmetic num}
        (now now' : string) (id : Z) (st : State num) :
  let st' := fst (deleteEntry now id st) in
  (snd (deleteEntry now id st) = true <-> In id (logIds (file st)))
  /\ ~ In id (logIds (file st'))
  /\ (forall row : FoodLogEntry.t num,
         In row (food_logs (file st'))
         <-> In row (food_logs (file st)) /\ FoodLogEntry.id row <> id)
  /\ (~ In id (logIds (file st)) -> food_logs (file st') = food_logs (file st))
  /\ food_logs_seq (file st') = food_logs_seq (file st)
  /\ snd (deleteEntry now' id st') = false.
Proof.
  intros st'. split; [apply deleteEntry_found|]. split; [apply deleteEntry_gone|].
  split; [intros row; apply deleteEntry_rows|]. split; [apply deleteEntry_absent|].
  split; [apply (deleteEntry_file now id st)|].
  apply not_true_is_false. rewrite deleteEntry_found. apply deleteEntry_gone.
Qed.

(** X4.  The answer of the [delete_entry] tool.  It is never an error; it
    says "deleted successfully" exactly when a stored row has the id and
    "not found" otherwise, and a second request for the same id always
    answers "not found". *)
Theorem delete_entry_reports {num : Type} {N : Number num} {A : Arithmetic num}
        (clock clock' : Clock) (entry_id : Z) (st : State num) :
  let answer := snd (delete_entry clock entry_id st) in
  let deleted := [Text "Entry "; Num (ofZ entry_id); Text " deleted successfully."] in
  let notFound := [Text "Entry "; Num (ofZ entry_id); Text " not found."] in
  isError answer = false
  /\ (In entry_id (logIds (file st)) -> content answer = deleted)
  /\ (~ In entry_id (logIds (file st)) -> content answer = notFound)
  /\ (content answer = deleted \/ content answer = notFound)
  /\ deleted <> notFound
  /\ content (snd (delete_entry clock' entry_id (fst (delete_entry clock entry_id st))))
     = notFound.
Proof.
  intros answer deleted notFound.
  assert (Hshape : forall c s,
             delete_entry c entry_id s
             = (fst (deleteEntry (timestamp c) entry_id s),
                textResult (if snd (deleteEntry (timestamp c) entry_id s)
                            then deleted else notFound))).
  { intros c s. unfold delete_entry.
    destruct (deleteEntry (timestamp c) entry_id s) as [s' [|]]; reflexivity. }
  unfold answer. rewrite !Hshape. cbn [fst snd].
  pose proof (deleteEntry_found (timestamp clock) entry_id st) as Hfound.
  pose proof (deleteEntry_gone (timestamp clock) entry_id st) as Hgone.
  rewrite <- (deleteEntry_found (timestamp clock')) in Hgone.
  apply not_true_is_false in Hgone. rewrite Hgone.
  destruct (snd (deleteEntry (timestamp clock) entry_id st)); cbn [content isError textResult].
  - repeat split; try tauto; try discriminate;
      intros Hnin; exfalso; apply Hnin, Hfound; reflexivity.
  - repeat split; try tauto; try discriminate;
      intros Hin; apply Hfound in Hin; discriminate Hin.
Qed.

(** X5.  Logging an entry and deleting the row it returned leaves the food
    log as it was.  In any store reached from a fresh database file the
    deletion succeeds and the rows and the goals are those from before the
    entry was logged; only the AUTOINCREMENT counter has moved on. *)
Theorem logFood_then_deleteEntry_restores
        {num : Type} {N : Number num} {A : Arithmetic num}
        (now0 now now' : string) (calls : list (string * Op num))
        (entry : NewEntry.t num) :
  let st := run calls (boot now0 freshFile) in
  let row := snd (logFood now entry st) in
  let st1 := fst (logFood now entry st) in
  let st2 := fst (deleteEntry now' (FoodLogEntry.id row) st1) in
  snd (deleteEntry now' (FoodLogEntry.id row) st1) = true
  /\ food_logs (file st2) = food_logs (file st)
  /\ goals (file st2) = goals (file st)
  /\ food_logs_seq (file st2) = (food_logs_seq (file st) + 1)%Z.
Proof.
  intros st row st1 st2.
  assert (Hst : idsHandedOut (file st))
    by (apply run_idsHandedOut, boot_idsHandedOut).
  assert (Hrow : hasGoalsRow (file st))
    by (apply run_hasGoalsRow, boot_hasGoalsRow).
  destruct (logFood_file now entry st) as [Hl [Hs [Hid _]]].
  fold row in Hl, Hid. fold st1 in Hl, Hs.
  destruct (deleteEntry_file now' (FoodLogEntry.id row) st1) as [Hl2 [Hs2 _]].
  fold st2 in Hl2, Hs2.
  split; [|split; [|split]].
  - apply deleteEntry_found. unfold logIds. rewrite Hl, map_app.
    apply in_or_app. right. now left.
  - rewrite Hl2, Hl, filter_app. cbn [filter]. rewrite Z.eqb_refl. cbn [negb].
    rewrite app_nil_r. apply filter_all. intros r Hin.
    apply negb_true_iff, Z.eqb_neq. intros E.
    apply (@logFood_id_fresh _ _ _ now entry st Hst). fold row. rewrite <- E.
    unfold logIds. now apply in_map.
  - transitivity (goals (file st1)).
    + apply (step_goals_unchanged (now', OpDeleteEntry (FoodLogEntry.id row)) st1);
        [|reflexivity].
      apply (step_hasGoalsRow (now, OpLogFood entry) st Hrow).
    + apply (step_goals_unchanged (now, OpLogFood entry) st Hrow). reflexivity.
  - now rewrite Hs2, Hs.
Qed.

(* ----------------------------------------------------------------- *)
(** ** The two queries of the food log *)

Lemma leb_total (a b : string) : String.leb a b = false -> String.leb b a = true.
Proof.
  intros H. apply not_dateLe_dateLt in H.
  apply (proj2 (dateLe_cases b a)). now left.
Qed.


(** X6.  [getDailyLog] returns the stored rows of the requested date, each
    once, ordered by the time they were logged, and stores nothing: a row
    is returned exactly when it is stored under that date. *)
Theorem getDailyLog_rows_of_the_date {num : Type} {N : Number num} {A : Arithmetic num}
        (now date : string) (st : State num) :
  let rows := snd (getDailyLog now date st) in
  (forall row : FoodLogEntry.t num,
      In row rows <-> In row (food_logs (file st)) /\ FoodLogEntry.date row = date)
  /\ Permutation rows (rowsOn date (file st))
  /\ Sorted (fun a b => String.leb (FoodLogEntry.logged_at a) (FoodLogEntry.logged_at b) = true)
            rows
  /\ (List.length rows <= List.length (food_logs (file st)))%nat
  /\ food_logs (file (fst (getDailyLog now date st))) = food_logs (file st).
Proof.
  intros rows.
  assert (Hperm : Permutation rows (rowsOn date (file st))).
  { unfold rows. rewrite getDailyLog_rows. symmetry. apply orderBy_Permutation. }
  split; [|split; [assumption|split; [|split]]].
  - intros row. split.
    + intros Hin. apply (Permutation_in _ Hperm) in Hin. unfold rowsOn in Hin.
      apply filter_In in Hin. now rewrite String.eqb_eq in Hin.
    + intros [Hin Hd]. apply (Permutation_in _ (Permutation_sym Hperm)).
      unfold rowsOn. apply filter_In. now rewrite String.eqb_eq.
  - unfold rows. rewrite getDailyLog_rows.
    apply orderBy_Sorted; intros x y H; [assumption | now apply leb_total].
  - rewrite (Permutation_length Hperm). apply filter_length_le.
  - unfold getDailyLog. cbn [fst]. apply (proj1 (getDb_logs_seq now st)).
Qed.


(* ----------------------------------------------------------------- *)
(** ** Reading, closing and reopening *)

Section ReadFacts.
Context {num : Type} {N : Number num} {A : Arithmetic num}.

Lemma reachable_hasGoalsRow (now0 : string) (calls : list (string * Op num)) :
  hasGoalsRow (file (run calls (boot (num:=num) now0 freshFile))).
Proof. apply run_hasGoalsRow, boot_hasGoalsRow. Qed.

Lemma closeDb_file (st : State num) : file (closeDb st) = file st.
Proof. unfold closeDb. now destruct (connected st). Qed.

Lemma get_daily_log_state (clock : Clock) (date : option string) (st : State num) :
  fst (get_daily_log clock date st) = getDb (timestamp clock) st.
Proof.
  unfold get_daily_log, getDailyLog, getGoals. cbn [fst]. apply getDb_idempotent.
Qed.

Lemma get_summary_state (clock : Clock) (input : GetSummaryInput.t) (st : State num) :
  fst (get_summary clock input st) = getDb (timestamp clock) st.
Proof.
  unfold get_summary. destruct (resolvePeriod clock input) as [startDate endDate].
  unfold getLogsByDateRange, getGoals. cbn [fst]. apply getDb_idempotent.
Qed.

End ReadFacts.

(** X8.  Reading changes nothing.  In any store reached from a fresh
    database file, [getGoals], [getDailyLog] and [getLogsByDateRange], the
    tools [get_daily_log] and [get_summary], and closing the database and
    opening it again all leave the contents of the file as they are: the
    default goals are written once, when the file is first created. *)
Theorem reads_leave_the_file_unchanged
        {num : Type} {N : Number num} {A : Arithmetic num}
        (now0 now : string) (calls : list (string * Op num))
        (date startDate endDate : string)
        (clock : Clock) (optDate : option string) (input : GetSummaryInput.t) :
  let st := run calls (boot now0 freshFile) in
  file (fst (getGoals now st)) = file st
  /\ file (fst (getDailyLog now date st)) = file st
  /\ file (fst (getLogsByDateRange now startDate endDate st)) = file st
  /\ file (fst (get_daily_log clock optDate st)) = file st
  /\ file (fst (get_summary clock input st)) = file st
  /\ file (getDb now (closeDb st)) = file st.
Proof.
  intros st.
  assert (Hrow : hasGoalsRow (file st)) by apply reachable_hasGoalsRow.
  split; [|split; [|split; [|split; [|split]]]].
  - unfold getGoals. cbn [fst]. now apply getDb_seeded.
  - unfold getDailyLog. cbn [fst]. now apply getDb_seeded.
  - unfold getLogsByDateRange. cbn [fst]. now apply getDb_seeded.
  - rewrite get_daily_log_state. now apply getDb_seeded.
  - rewrite get_summary_state. now apply getDb_seeded.
  - transitivity (file (closeDb st)); [|apply closeDb_file].
    apply getDb_seeded. now rewrite closeDb_file.
Qed.

(* ----------------------------------------------------------------- *)
(** ** Successive goal updates *)

Lemma nullish_assoc {X : Type} (a b c : option X) :
  nullish a (nullish b c) = nullish (nullish a b) c.
Proof. now destruct a. Qed.

Lemma nullish_same {X : Type} (a b : option X) : nullish a (nullish a b) = nullish a b.
Proof. now destruct a. Qed.

(** X9.  Two goal updates in a row act as one.  In any store reached from a
    fresh database file, updating the goals with one set of fields and then
    with another gives the store and the record that a single update gives
    with the later fields laid over the earlier ones; repeating an update
    changes nothing but the time stamp. *)
Theorem updateGoals_twice_is_overlay
        {num : Type} {N : Number num} {A : Arithmetic num}
        (now0 t1 t2 : string) (calls : list (string * Op num))
        (first second : GoalsPatch.t num) :
  let st := run calls (boot now0 freshFile) in
  updateGoals t2 second (fst (updateGoals t1 first st))
  = updateGoals t2 (overlay second first) st
  /\ updateGoals t2 first (fst (updateGoals t1 first st)) = updateGoals t2 first st.
Proof.
  intros st.
  destruct (reachable_hasGoalsRow now0 calls) as [g [Hg Hid]]. fold st in Hg.
  rewrite !(updateGoals_row _ _ st Hg Hid). cbn [fst].
  split.
  - erewrite (updateGoals_row t2 second); [|reflexivity|reflexivity].
    cbn [file food_logs food_logs_seq Goals.daily_calories Goals.protein_g
         Goals.carbs_g Goals.fat_g overlay GoalsPatch.daily_calories
         GoalsPatch.protein_g GoalsPatch.carbs_g GoalsPatch.fat_g].
    now rewrite !nullish_assoc.
  - erewrite (updateGoals_row t2 first); [|reflexivity|reflexivity].
    cbn [file food_logs food_logs_seq Goals.daily_calories Goals.protein_g
         Goals.carbs_g Goals.fat_g].
    now rewrite !nullish_same.
Qed.

(* ----------------------------------------------------------------- *)
(** ** Grouping splits the entries *)

Section PartitionFacts.
Context {X : Type}.

Lemma filter_split_Permutation (p : X -> bool) (xs : list X) :
  Permutation (filter p xs ++ filter (fun x => negb (p x)) xs) xs.
Proof.
  induction xs as [|x xs IH]; cbn [filter]; [constructor|].
  destruct (p x); cbn [negb app].
  - now constructor.
  - etransitivity; [symmetry; apply Permutation_middle|]. now constructor.
Qed.

Lemma concat_Permutation (ls ls' : list (list X)) :
  Permutation ls ls' -> Permutation (List.concat ls) (List.concat ls').
Proof.
  induction 1 as [|l ls ls' _ IH|l l' ls|ls ls' ls'' _ IH1 _ IH2]; cbn [List.concat].
  - constructor.
  - now apply Permutation_app_head.
  - rewrite !app_assoc. apply Permutation_app_tail, Permutation_app_comm.
  - now transitivity (List.concat ls').
Qed.

Lemma filter_other_key (key : X -> string) (k k' : string) (xs : list X) :
  k' <> k ->
  filter (fun x => String.eqb (key x) k')
         (filter (fun x => negb (String.eqb (key x) k)) xs)
  = filter (fun x => String.eqb (key x) k') xs.
Proof.
  intros Hne. induction xs as [|x xs IH]; cbn [filter]; [reflexivity|].
  destruct (String.eqb_spec (key x) k) as [E|E]; cbn [negb filter].
  - destruct (String.eqb_spec (key x) k') as [E'|_]; [congruence | exact IH].
  - now rewrite IH.
Qed.

Lemma concat_buckets_Permutation (key : X -> string) (ks : list string) :
  NoDup ks ->
  forall xs : list X,
  (forall x, In x xs -> In (key x) ks) ->
  Permutation (List.concat (map (fun k => filter (fun x => String.eqb (key x) k) xs) ks)) xs.
Proof.
  induction 1 as [|k ks Hnin Hnd IH]; intros xs Hin; cbn [map List.concat].
  - destruct xs as [|x xs]; [constructor|]. destruct (Hin x (or_introl eq_refl)).
  - etransitivity;
      [|apply (filter_split_Permutation (fun x => String.eqb (key x) k))].
    apply Permutation_app_head.
    rewrite (map_ext_in
               (fun k' => filter (fun x => String.eqb (key x) k') xs)
               (fun k' => filter (fun x => String.eqb (key x) k')
                                 (filter (fun x => negb (String.eqb (key x) k)) xs))).
    + apply IH. intros x Hx. apply filter_In in Hx. destruct Hx as [Hx Hk].
      destruct (Hin x Hx) as [E|H]; [|exact H].
      rewrite <- E, String.eqb_refl in Hk. discriminate Hk.
    + intros k' Hk'. symmetry. apply filter_other_key. intros E. now subst k'.
Qed.

Lemma groupsOf_keys (key : X -> string) (xs : list X) :
  map fst (groupsOf key xs) = distinct (map key xs).
Proof. unfold groupsOf. rewrite map_map. cbn [fst]. apply map_id. Qed.

Lemma groupsOf_concat (key : X -> string) (xs : list X) :
  Permutation (List.concat (map snd (groupsOf key xs))) xs.
Proof.
  unfold groupsOf. rewrite map_map. cbn [snd].
  apply concat_buckets_Permutation; [apply NoDup_distinct|].
  intros x Hx. apply In_distinct. now apply in_map.
Qed.

Lemma groupsOf_bucket (key : X -> string) (xs : list X) (k : string) (bucket : list X) :
  In (k, bucket) (groupsOf key xs) ->
  bucket = filter (fun x => String.eqb (key x) k) xs /\ bucket <> [].
Proof.
  unfold groupsOf. rewrite in_map_iff. intros [k' [E Hk']].
  injection E as -> <-. split; [reflexivity|].
  rewrite In_distinct, in_map_iff in Hk'. destruct Hk' as [x [Hk Hx]].
  intros Hnil.
  assert (Hin : In x (filter (fun x0 => String.eqb (key x0) k) xs))
    by (apply filter_In; split; [assumption | now apply String.eqb_eq]).
  rewrite Hnil in Hin. destruct Hin.
Qed.

Lemma groupsOf_length (key : X -> string) (xs : list X) :
  (List.length (groupsOf key xs) <= List.length xs)%nat.
Proof.
  unfold groupsOf. rewrite length_map, <- (length_map key xs).
  apply NoDup_incl_length; [apply NoDup_distinct|].
  intros k Hk. now apply In_distinct.
Qed.

Lemma groupInto_empty (key : X -> string) (xs : list X) :
  JSObject.groupInto key xs JSObject.empty
  = if existsb (fun x => JSObject.inherited (key x)) xs
    then None else Some (groupsOf key xs).
Proof.
  change (@JSObject.empty (list X)) with (groupsOf key []).
  destruct (existsb (fun x => JSObject.inherited (key x)) xs) eqn:E.
  - apply groupInto_throws; [|constructor].
    apply existsb_exists in E. now apply Exists_exists.
  - apply (groupInto_groupsOf key (xs:=xs)).
    apply Forall_forall. intros x Hx. apply not_true_is_false. intros Hi.
    assert (Hex : existsb (fun x => JSObject.inherited (key x)) xs = true)
      by (apply existsb_exists; now exists x).
    congruence.
Qed.

End PartitionFacts.

Section EntriesFacts.
Context {V : Type}.

Lemma insertByIndex_Permutation (i : N) (kv : string * V) (sorted : list (N * (string * V))) :
  Permutation (JSObject.insertByIndex i kv sorted) ((i, kv) :: sorted).
Proof.
  induction sorted as [|[j kv'] rest IH]; cbn [JSObject.insertByIndex]; [reflexivity|].
  destruct (N.leb i j); [reflexivity|].
  etransitivity; [apply perm_skip, IH | apply perm_swap].
Qed.

Lemma indexProperties_Permutation (o : JSObject.t V) :
  Permutation (map snd (JSObject.indexProperties o))
              (filter (fun kv => match JSObject.arrayIndex (fst kv) with
                                 | Some _ => true
                                 | None => false
                                 end) o).
Proof.
  induction o as [|[k v] rest IH]; cbn [JSObject.indexProperties filter fst]; [constructor|].
  destruct (JSObject.arrayIndex k) as [i|]; [|exact IH].
  etransitivity; [apply Permutation_map, insertByIndex_Permutation|].
  cbn [map snd]. now constructor.
Qed.

(** [Object.entries] lists every own property once. *)
Lemma entries_Permutation (o : JSObject.t V) : Permutation (JSObject.entries o) o.
Proof.
  unfold JSObject.entries, JSObject.stringProperties.
  etransitivity; [apply Permutation_app_tail, indexProperties_Permutation|].
  etransitivity; [|apply (filter_split_Permutation
                             (fun kv => match JSObject.arrayIndex (fst kv) with
                                        | Some _ => true
                                        | None => false
                                        end))].
  apply Permutation_app_head.
  erewrite filter_ext; [reflexivity|].
  intros kv. cbv beta. now destruct (JSObject.arrayIndex (fst kv)).
Qed.

End EntriesFacts.

Section SummationFacts.
Context {num : Type} `{Number num}.
Hypothesis add_assoc : forall a b c : num, add (add a b) c = add a (add b c).
Hypothesis add_comm : forall a b : num, add a b = add b a.
Hypothesis add_zero : forall a : num, add a zero = a.

Lemma fold_add_from (xs : list num) :
  forall acc : num, fold_left add xs acc = add acc (sumOf xs).
Proof.
  unfold sumOf. induction xs as [|x xs IH]; intros acc; cbn [fold_left].
  - now rewrite add_zero.
  - rewrite (IH (add acc x)), (IH (add zero x)).
    now rewrite (add_comm zero x), add_zero, add_assoc.
Qed.

Lemma sumOf_cons (x : num) (xs : list num) : sumOf (x :: xs) = add x (sumOf xs).
Proof.
  unfold sumOf at 1. cbn [fold_left]. rewrite fold_add_from.
  now rewrite (add_comm zero x), add_zero.
Qed.

Lemma sumOf_app (xs ys : list num) : sumOf (xs ++ ys) = add (sumOf xs) (sumOf ys).
Proof. unfold sumOf at 1. rewrite fold_left_app. apply fold_add_from. Qed.

Lemma sumOf_concat {X : Type} (f : X -> num) (buckets : list (list X)) :
  sumOf (map (fun bucket => sumOf (map f bucket)) buckets)
  = sumOf (map f (List.concat buckets)).
Proof.
  induction buckets as [|b bs IH]; cbn [map List.concat]; [reflexivity|].
  now rewrite sumOf_cons, map_app, sumOf_app, IH.
Qed.

Lemma sumOf_Permutation (xs ys : list num) : Permutation xs ys -> sumOf xs = sumOf ys.
Proof. intros P. unfold sumOf. now apply fold_left_add_permutation. Qed.

Lemma calculateTotals_rearranged (xs ys : list (FoodLogEntry.t num)) :
  Permutation xs ys -> calculateTotals xs = calculateTotals ys.
Proof.
  intros P. rewrite !calculateTotals_fields.
  f_equal; apply sumOf_Permutation; now apply Permutation_map.
Qed.

(** The sum, over the buckets of a grouping, of the bucket sums of a
    quantity is the sum of that quantity over all the entries. *)
Lemma sum_of_bucket_sums {X : Type} (key : X -> string) (f : X -> num) (xs : list X) :
  sumOf (map (fun b => sumOf (map f (snd b))) (JSObject.entries (groupsOf key xs)))
  = sumOf (map f xs).
Proof.
  rewrite (sumOf_Permutation
             (Permutation_map (fun b => sumOf (map f (snd b)))
                              (entries_Permutation (groupsOf key xs)))).
  rewrite <- (map_map snd (fun bucket => sumOf (map f bucket))).
  rewrite sumOf_concat.
  apply sumOf_Permutation, Permutation_map, groupsOf_concat.
Qed.

End SummationFacts.

(** X10.  When a response is an error.  The grouping loops of [get_summary]
    and [get_daily_log] throw, and the response is the error text, exactly
    when the date (the meal) of some entry is the name of a member every
    object inherits, such as "constructor" or "toString". *)
Theorem grouping_fails_iff_inherited_key
        {num : Type} {N : Number num} {A : Arithmetic num}
        (targetDate startDate endDate : string)
        (entries : list (FoodLogEntry.t num)) (goals_ : option (Goals.t num)) :
  (groupByDate entries = None
   <-> exists e, In e entries /\ JSObject.inherited (FoodLogEntry.date e) = true)
  /\ (isError (get_summary_response startDate endDate entries goals_) = true
      <-> exists e, In e entries /\ JSObject.inherited (FoodLogEntry.date e) = true)
  /\ (isError (get_daily_log_response targetDate entries goals_) = true
      <-> exists e, In e entries /\ JSObject.inherited (mealKey e) = true).
Proof.
  assert (Hnil : forall key : FoodLogEntry.t num -> string,
             List.length entries = 0%nat ->
             existsb (fun e => JSObject.inherited (key e)) entries = false).
  { intros key Hlen. destruct entries; [reflexivity | discriminate Hlen]. }
  unfold get_summary_response, get_daily_log_response, groupByDate.
  rewrite !groupInto_empty.
  rewrite <- !(existsb_exists (fun e => JSObject.inherited (_ e)) entries).
  split; [|split].
  - destruct (existsb _ entries); split; intros; congruence.
  - destruct (Nat.eqb_spec (List.length entries) 0) as [E|_].
    + rewrite (Hnil _ E). cbn [isError textResult]. reflexivity.
    + destruct (existsb _ entries); cbn [isError textResult errorResult];
        split; intros; congruence.
  - destruct (Nat.eqb_spec (List.length entries) 0) as [E|_].
    + rewrite (Hnil _ E). cbn [isError textResult]. reflexivity.
    + destruct (existsb _ entries); cbn [isError textResult errorResult];
        split; intros; congruence.
Qed.

(** X11.  The grouping of [get_summary] splits the entries by date.  When
    the loop does not throw, the days enumerated from [byDate] are the
    dates that have an entry, each once; the bucket of a date holds exactly
    the entries of that date, in their order, and is never empty; every
    entry is in one bucket, so there are at most as many days as entries. *)
Theorem groupByDate_partitions {num : Type} {N : Number num} {A : Arithmetic num}
        (entries : list (FoodLogEntry.t num))
        (byDate : JSObject.t (list (FoodLogEntry.t num))) :
  groupByDate entries = Some byDate ->
  let buckets := JSObject.entries byDate in
  NoDup (map fst buckets)
  /\ (forall d : string,
         In d (map fst buckets) <-> exists e, In e entries /\ FoodLogEntry.date e = d)
  /\ (forall (d : string) (bucket : list (FoodLogEntry.t num)),
         In (d, bucket) buckets ->
         bucket = filter (fun e => String.eqb (FoodLogEntry.date e) d) entries
         /\ bucket <> [])
  /\ Permutation (List.concat (map snd buckets)) entries
  /\ (List.length (dailyTotalsList byDate) <= List.length entries)%nat.
Proof.
  unfold groupByDate. rewrite groupInto_empty.
  destruct (existsb _ entries); [discriminate|]. intros E. injection E as <-.
  cbv zeta. set (buckets := JSObject.entries (groupsOf (@FoodLogEntry.date num) entries)).
  pose proof (entries_Permutation (groupsOf (@FoodLogEntry.date num) entries)) as Hperm.
  fold buckets in Hperm.
  assert (Hkeys : Permutation (map fst buckets)
                              (distinct (map (@FoodLogEntry.date num) entries))).
  { rewrite <- groupsOf_keys. now apply Permutation_map. }
  split; [|split; [|split; [|split]]].
  - apply (Permutation_NoDup (Permutation_sym Hkeys)), NoDup_distinct.
  - intros d. split.
    + intros Hd. apply (Permutation_in _ Hkeys) in Hd.
      rewrite In_distinct, in_map_iff in Hd. destruct Hd as [e [Hd He]]. now exists e.
    + intros [e [He Hd]]. apply (Permutation_in _ (Permutation_sym Hkeys)).
      rewrite In_distinct, in_map_iff. now exists e.
  - intros d bucket Hin. apply (Permutation_in _ Hperm) in Hin.
    now apply groupsOf_bucket in Hin.
  - etransitivity; [apply concat_Permutation, Permutation_map, Hperm|].
    apply groupsOf_concat.
  - unfold dailyTotalsList. fold buckets.
    rewrite length_map, (Permutation_length Hperm). apply groupsOf_length.
Qed.

Lemma groupByDate_partitions_witness :
  NoDup (map fst (JSObject.entries (bucketsOf twoDays))).
Proof.
  exact (proj1 (@groupByDate_partitions Qc _ _ twoDays (bucketsOf twoDays) eq_refl)).
Defined.

(** X12.  The daily breakdown of a summary adds up.  With exact numbers
    (addition associative and commutative, [0] neutral), the calories,
    protein, carbohydrates and fat of the days of the breakdown sum to the
    totals of all the entries of the range. *)
Theorem daily_breakdown_adds_up {num : Type} {N : Number num} {A : Arithmetic num}
        (add_assoc : forall a b c : num, add (add a b) c = add a (add b c))
        (add_comm : forall a b : num, add a b = add b a)
        (add_zero : forall a : num, add a zero = a)
        (entries : list (FoodLogEntry.t num))
        (byDate : JSObject.t (list (FoodLogEntry.t num))) :
  groupByDate entries = Some byDate ->
  let days := dailyTotalsList byDate in
  let totals := calculateTotals entries in
  sumField (@DailyTotals.calories num) days = NutritionInfo.calories totals
  /\ sumField (@DailyTotals.protein_g num) days = NutritionInfo.protein_g totals
  /\ sumField (@DailyTotals.carbs_g num) days = NutritionInfo.carbs_g totals
  /\ sumField (@DailyTotals.fat_g num) days = NutritionInfo.fat_g totals.
Proof.
  unfold groupByDate. rewrite groupInto_empty.
  destruct (existsb _ entries); [discriminate|]. intros E. injection E as <-.
  cbv zeta. unfold dailyTotalsList.
  rewrite !sumField_sumOf, !map_map. unfold dailyTotalsOf.
  cbn [DailyTotals.calories DailyTotals.protein_g DailyTotals.carbs_g DailyTotals.fat_g].
  rewrite (calculateTotals_fields entries).
  cbn [NutritionInfo.calories NutritionInfo.protein_g NutritionInfo.carbs_g
       NutritionInfo.fat_g].
  repeat split.
  - erewrite map_ext; [apply (sum_of_bucket_sums add_assoc add_comm add_zero)|].
    intros b. cbv beta. now rewrite calculateTotals_fields.
  - erewrite map_ext; [apply (sum_of_bucket_sums add_assoc add_comm add_zero)|].
    intros b. cbv beta. now rewrite calculateTotals_fields.
  - erewrite map_ext; [apply (sum_of_bucket_sums add_assoc add_comm add_zero)|].
    intros b. cbv beta. now rewrite calculateTotals_fields.
  - erewrite map_ext; [apply (sum_of_bucket_sums add_assoc add_comm add_zero)|].
    intros b. cbv beta. now rewrite calculateTotals_fields.
Qed.

Lemma daily_breakdown_adds_up_witness :
  sumField (@DailyTotals.calories Qc) (dailyTotalsList (bucketsOf twoDays))
  = NutritionInfo.calories (calculateTotals twoDays).
Proof.
  refine (proj1 (@daily_breakdown_adds_up Qc _ _ _ Qcplus_comm Qcplus_0_r
                   twoDays (bucketsOf twoDays) eq_refl)).
  intros a b c. symmetry. apply Qcplus_assoc.
Defined.

(* ----------------------------------------------------------------- *)
(** ** The answers of the reading tools *)

Lemma filter_nil_iff {X : Type} (p : X -> bool) (xs : list X) :
  filter p xs = [] <-> forall x, In x xs -> p x = false.
Proof.
  split.
  - intros Hnil x Hx. apply not_true_is_false. intros Hp.
    assert (Hin : In x (filter p xs)) by (apply filter_In; auto).
    rewrite Hnil in Hin. destruct Hin.
  - apply filter_none.
Qed.

Lemma orderBy_length {X : Type} (le : X -> X -> bool) (rows : list X) :
  List.length (orderBy le rows) = List.length rows.
Proof. symmetry. apply Permutation_length, orderBy_Permutation. Qed.

Lemma length_zero_iff {X : Type} (xs : list X) :
  Nat.eqb (List.length xs) 0 = true <-> xs = [].
Proof. destruct xs; cbn; split; intros; congruence. Qed.

Section ToolFacts.
Context {num : Type} {N : Number num} {A : Arithmetic num}.

Lemma schemaMeal_plainKey (e : FoodLogEntry.t num) :
  schemaMeal (FoodLogEntry.meal e) = true ->
  In (mealKey e) mealNames /\ JSObject.plainKey (mealKey e) = true.
Proof.
  unfold mealKey, schemaMeal. destruct (FoodLogEntry.meal e) as [m|].
  - cbn [existsb]. rewrite !orb_true_iff.
    intros [H|[H|[H|[H|H]]]]; try discriminate H;
      apply String.eqb_eq in H; subst m; (split; [cbn; tauto | reflexivity]).
  - intros _. split; [cbn; tauto | reflexivity].
Qed.

Lemma schemaMeal_strOrNull (meal : option string) :
  schemaMeal meal = true -> schemaMeal (strOrNull meal) = true.
Proof. destruct meal as [[|c m]|]; cbn; auto. Qed.

Lemma get_daily_log_shape (clock : Clock) (date : option string) (st : State num) :
  snd (get_daily_log clock date st)
  = get_daily_log_response (strOr date (today clock))
      (snd (getDailyLog (timestamp clock) (strOr date (today clock)) st))
      (snd (getGoals (timestamp clock) st)).
Proof.
  unfold get_daily_log, getDailyLog, getGoals. cbn [fst snd].
  now rewrite getDb_idempotent.
Qed.

Lemma get_summary_shape (clock : Clock) (input : GetSummaryInput.t) (st : State num) :
  snd (get_summary clock input st)
  = get_summary_response (fst (resolvePeriod clock input)) (snd (resolvePeriod clock input))
      (snd (getLogsByDateRange (timestamp clock) (fst (resolvePeriod clock input))
                               (snd (resolvePeriod clock input)) st))
      (snd (getGoals (timestamp clock) st)).
Proof.
  unfold get_summary. destruct (resolvePeriod clock input) as [startDate endDate].
  unfold getLogsByDateRange, getGoals. cbn [fst snd].
  now rewrite getDb_idempotent.
Qed.

Lemma get_daily_log_response_empty (targetDate : string)
      (entries : list (FoodLogEntry.t num)) (goals_ : option (Goals.t num)) :
  get_daily_log_response targetDate entries goals_
  = textResult [Text "No food entries for "; Text targetDate;
                Text ". Start logging with the log_food tool!"]
  <-> entries = [].
Proof.
  unfold get_daily_log_response. split.
  - destruct entries as [|e rest]; [reflexivity|]. cbn [List.length Nat.eqb].
    destruct (JSObject.groupInto _ _ _); unfold textResult, errorResult; cbn [app];
      intros H; discriminate H.
  - now intros ->.
Qed.

Lemma get_summary_response_empty (startDate endDate : string)
      (entries : list (FoodLogEntry.t num)) (goals_ : option (Goals.t num)) :
  get_summary_response startDate endDate entries goals_
  = textResult [Text "No food entries found between "; Text startDate;
                Text " and "; Text endDate; Text "."]
  <-> entries = [].
Proof.
  unfold get_summary_response. split.
  - destruct entries as [|e rest]; [reflexivity|]. cbn [List.length Nat.eqb].
    destruct (groupByDate _); unfold textResult, errorResult, summaryText; cbn [app];
      intros H; discriminate H.
  - now intros ->.
Qed.

Lemma getDailyLog_nil_iff (now date : string) (st : State num) :
  snd (getDailyLog now date st) = []
  <-> forall row, In row (food_logs (file st)) -> FoodLogEntry.date row <> date.
Proof.
  rewrite getDailyLog_rows, <- length_zero_iff, orderBy_length, length_zero_iff.
  unfold rowsOn. rewrite filter_nil_iff.
  split; intros H row Hin; specialize (H row Hin).
  - now apply String.eqb_neq.
  - now apply String.eqb_neq.
Qed.

Lemma getLogsByDateRange_nil_iff (now startDate endDate : string) (st : State num) :
  snd (getLogsByDateRange now startDate endDate st) = []
  <-> forall row, In row (food_logs (file st)) ->
                  ~ (dateLe startDate (FoodLogEntry.date row)
                     /\ dateLe (FoodLogEntry.date row) endDate).
Proof.
  rewrite getLogsByDateRange_rows, <- length_zero_iff, orderBy_length, length_zero_iff.
  unfold rowsBetween, dateLe. rewrite filter_nil_iff.
  split; intros H row Hin; specialize (H row Hin).
  - rewrite <- andb_true_iff. now rewrite H.
  - apply not_true_is_false. now rewrite andb_true_iff.
Qed.

End ToolFacts.

(** X13.  The sections of a daily log.  When every entry has one of the four
    meals of the [log_food] schema or none, [get_daily_log] never fails: the
    answer lists one section per meal in use, in the order in which the
    meals first appear, entries without a meal under "unspecified", each
    entry in exactly one section, followed by the totals of all entries. *)
Theorem get_daily_log_sections {num : Type} {N : Number num} {A : Arithmetic num}
        (targetDate : string) (entries : list (FoodLogEntry.t num))
        (goals_ : option (Goals.t num)) :
  Forall (fun e => schemaMeal (FoodLogEntry.meal e) = true) entries ->
  isError (get_daily_log_response targetDate entries goals_) = false
  /\ (entries <> [] ->
      get_daily_log_response targetDate entries goals_
      = textResult ([Text "## Food Log for "; Text targetDate; Text "\n\n"]
                    ++ flat_map mealSection (groupsOf mealKey entries)
                    ++ dailyTotalsSection (calculateTotals entries) goals_))
  /\ (forall meal : string, In meal (map fst (groupsOf mealKey entries)) -> In meal mealNames)
  /\ NoDup (map fst (groupsOf mealKey entries))
  /\ Permutation (List.concat (map snd (groupsOf mealKey entries))) entries.
Proof.
  intros Hschema.
  assert (Hplain : Forall (fun e => JSObject.plainKey (mealKey e) = true) entries).
  { eapply Forall_impl; [|exact Hschema]. intros e He. now apply schemaMeal_plainKey. }
  assert (Hgroup : JSObject.groupInto mealKey entries JSObject.empty
                   = Some (groupsOf mealKey entries)).
  { rewrite groupInto_empty.
    destruct (existsb _ entries) eqn:E; [|reflexivity].
    apply existsb_exists in E. destruct E as [e [He Hi]].
    rewrite Forall_forall in Hplain. apply Hplain, plainKey_split in He.
    destruct He as [_ He]. congruence. }
  assert (Hentries : JSObject.entries (groupsOf mealKey entries) = groupsOf mealKey entries).
  { apply entries_groupsOf. eapply Forall_impl; [|exact Hplain].
    intros e He. now apply plainKey_split in He. }
  unfold get_daily_log_response. rewrite Hgroup, Hentries.
  split; [|split; [|split; [|split]]].
  - now destruct (Nat.eqb (List.length entries) 0).
  - intros Hne. destruct entries; [congruence | reflexivity].
  - intros meal. rewrite groupsOf_keys, In_distinct, in_map_iff.
    intros [e [<- He]]. rewrite Forall_forall in Hschema.
    now apply schemaMeal_plainKey, Hschema.
  - rewrite groupsOf_keys. apply NoDup_distinct.
  - apply groupsOf_concat.
Qed.

Lemma get_daily_log_sections_witness :
  isError (get_daily_log_response "2025-01-15" threeMeals None) = false
  /\ map fst (groupsOf mealKey threeMeals) = ["breakfast"; "lunch"]%string.
Proof.
  split; [|reflexivity].
  apply (@get_daily_log_sections Qc _ _ "2025-01-15" threeMeals None).
  repeat constructor.
Defined.

(** X14.  When [get_daily_log] has nothing to show.  The answer is the
    "No food entries" text exactly when no stored row has the requested
    date, which is today's date when the request names none. *)
Theorem get_daily_log_no_entries_iff {num : Type} {N : Number num} {A : Arithmetic num}
        (clock : Clock) (date : option string) (st : State num) :
  let targetDate := strOr date (today clock) in
  (snd (get_daily_log clock date st)
   = textResult [Text "No food entries for "; Text targetDate;
                 Text ". Start logging with the log_food tool!"]
   <-> forall row, In row (food_logs (file st)) -> FoodLogEntry.date row <> targetDate)
  /\ (date = None \/ date = Some EmptyString -> targetDate = today clock).
Proof.
  intros targetDate. split.
  - rewrite get_daily_log_shape. fold targetDate.
    rewrite get_daily_log_response_empty. apply getDailyLog_nil_iff.
  - intros [->| ->]; reflexivity.
Qed.

(** X15.  When [get_summary] has nothing to show.  The answer is the
    "No food entries found" text exactly when no stored row has a date
    within the range of the request; in particular a range whose end
    precedes its start always gets this answer. *)
Theorem get_summary_no_entries_iff {num : Type} {N : Number num} {A : Arithmetic num}
        (clock : Clock) (input : GetSummaryInput.t) (st : State num) :
  let startDate := fst (resolvePeriod clock input) in
  let endDate := snd (resolvePeriod clock input) in
  let nothing := textResult [Text "No food entries found between "; Text startDate;
                             Text " and "; Text endDate; Text "."] in
  (snd (get_summary clock input st) = nothing
   <-> forall row, In row (food_logs (file st)) ->
                   ~ (dateLe startDate (FoodLogEntry.date row)
                      /\ dateLe (FoodLogEntry.date row) endDate))
  /\ (dateLt endDate startDate -> snd (get_summary clock input st) = nothing).
Proof.
  intros startDate endDate nothing.
  assert (Hiff : snd (get_summary clock input st) = nothing
                 <-> forall row, In row (food_logs (file st)) ->
                                 ~ (dateLe startDate (FoodLogEntry.date row)
                                    /\ dateLe (FoodLogEntry.date row) endDate)).
  { rewrite get_summary_shape. fold startDate endDate. unfold nothing.
    rewrite get_summary_response_empty. apply getLogsByDateRange_nil_iff. }
  split; [exact Hiff|].
  intros Hinv. apply Hiff. intros row _ [Hs He].
  exact (dateLt_not_dateLe Hinv (dateLe_trans Hs He)).
Qed.

(* ----------------------------------------------------------------- *)
(** ** The answers of the writing tools *)

Section WritingToolFacts.
Context {num : Type} {N : Number num} {A : Arithmetic num}.

Lemma getDb_open (now : string) (st : State num) : connected st = true -> getDb now st = st.
Proof. unfold getDb. now intros ->. Qed.

Lemma logFood_connected (now : string) (entry : NewEntry.t num) (st : State num) :
  connected (fst (logFood now entry st)) = true.
Proof. unfold logFood. cbn [fst connected]. apply getDb_connected. Qed.

Lemma log_food_shape (clock : Clock) (input : LogFoodInput.t num) (st : State num) :
  let now := timestamp clock in
  let date := strOr (LogFoodInput.date input) (today clock) in
  let st1 := fst (logFood now (loggedEntry clock input) st) in
  let row := snd (logFood now (loggedEntry clock input) st) in
  log_food clock input st
  = (st1, textResult (log_food_response row date
                        (calculateTotals (snd (getDailyLog now date st1)))
                        (snd (getGoals now st1)))).
Proof.
  intros now date st1 row.
  assert (Hopen : forall t, getDb t st1 = st1)
    by (intros t; apply getDb_open, logFood_connected).
  unfold log_food. fold now date. change (NewEntry.mk date _ _ _ _ _ _ _ _ _ _ _)
    with (loggedEntry clock input).
  rewrite (surjective_pairing (logFood now (loggedEntry clock input) st)).
  fold st1 row. unfold getDailyLog, getGoals. cbn [fst snd]. now rewrite !Hopen.
Qed.

Lemma calculateTotals_snoc (entries : list (FoodLogEntry.t num)) (e : FoodLogEntry.t num) :
  calculateTotals (entries ++ [e]) = addEntry (calculateTotals entries) e.
Proof. unfold calculateTotals. now rewrite fold_left_app. Qed.

End WritingToolFacts.

(* ----------------------------------------------------------------- *)
(** ** USDA nutrition values *)

Section NutrientLookup.
Context {num : Type} {N : Number num} {A : Arithmetic num}.

Lemma getNutrientValue_missing (food : USDAFood.t num) (nutrientId : Z) :
  (forall n, In n (USDAFood.foodNutrients food) -> USDANutrient.nutrientId n <> nutrientId) ->
  getNutrientValue food nutrientId = zero.
Proof.
  intros Hmiss. unfold getNutrientValue.
  destruct (find _ (USDAFood.foodNutrients food)) as [n|] eqn:E; [|reflexivity].
  apply find_some in E. destruct E as [Hin Hid]. apply Z.eqb_eq in Hid.
  now apply Hmiss in Hin.
Qed.

Lemma getNutrientValue_first (food : USDAFood.t num) (nutrientId : Z)
      (before after : list (USDANutrient.t num)) (n : USDANutrient.t num) :
  USDAFood.foodNutrients food = before ++ n :: after ->
  USDANutrient.nutrientId n = nutrientId ->
  (forall m, In m before -> USDANutrient.nutrientId m <> nutrientId) ->
  getNutrientValue food nutrientId = USDANutrient.value n.
Proof.
  intros Hlist Hid Hbefore. unfold getNutrientValue. rewrite Hlist. clear Hlist.
  induction before as [|m before IH]; cbn [app find].
  - apply Z.eqb_eq in Hid. now rewrite Hid.
  - destruct (Z.eqb_spec (USDANutrient.nutrientId m) nutrientId) as [E|_].
    + now apply Hbefore in E; [|left].
    + apply IH. intros m' Hm'. apply Hbefore. now right.
Qed.

End NutrientLookup.

(* ----------------------------------------------------------------- *)
(** ** The queries and the tools together *)

Lemma compare_same (a : string) : String.compare a a = Eq.
Proof.
  destruct (String.compare a a) eqn:E; [reflexivity| |];
    pose proof (String.compare_antisym a a) as H; rewrite E in H; discriminate H.
Qed.

Lemma leb_both_eqb (d x : string) : String.leb d x && String.leb x d = String.eqb x d.
Proof.
  destruct (String.eqb_spec x d) as [->|Hne].
  - now rewrite (dateLe_refl d).
  - apply not_true_is_false. rewrite andb_true_iff. intros [H1 H2].
    apply dateLe_cases in H1, H2. destruct H1 as [H1|H1]; [|congruence].
    destruct H2 as [H2|H2]; [|congruence].
    exact (dateLt_irreflexive (dateLt_trans H1 H2)).
Qed.

Section OrderByExt.
Context {X : Type} (le1 le2 : X -> X -> bool).

Lemma insertSorted_ext_in (x : X) (sorted : list X) :
  (forall y, In y sorted -> le1 x y = le2 x y) ->
  insertSorted le1 x sorted = insertSorted le2 x sorted.
Proof.
  induction sorted as [|y rest IH]; intros Hle; cbn [insertSorted]; [reflexivity|].
  rewrite (Hle y (or_introl eq_refl)). destruct (le2 x y); [reflexivity|].
  f_equal. apply IH. intros z Hz. apply Hle. now right.
Qed.

Lemma orderBy_ext_in (rows : list X) :
  (forall x y, In x rows -> In y rows -> le1 x y = le2 x y) ->
  orderBy le1 rows = orderBy le2 rows.
Proof.
  induction rows as [|x rest IH]; intros Hle; cbn [orderBy]; [reflexivity|].
  rewrite IH by (intros a b Ha Hb; apply Hle; now right).
  apply insertSorted_ext_in. intros y Hy. apply Hle; [now left|right].
  eapply Permutation_in; [symmetry; apply orderBy_Permutation | exact Hy].
Qed.

End OrderByExt.

(** X20.  A range of one day is the daily log.  [getLogsByDateRange] with
    the same date as start and end returns the rows that [getDailyLog]
    returns for that date, in the same order. *)
Theorem one_day_range_is_the_daily_log {num : Type} {N : Number num} {A : Arithmetic num}
        (now now' date : string) (st : State num) :
  snd (getLogsByDateRange now date date st) = snd (getDailyLog now' date st).
Proof.
  rewrite getLogsByDateRange_rows, getDailyLog_rows. unfold rowsBetween, rowsOn.
  rewrite (filter_ext _ (fun row => String.eqb (FoodLogEntry.date row) date))
    by (intros row; apply leb_both_eqb).
  apply orderBy_ext_in. intros x y Hx Hy.
  apply filter_In in Hx, Hy. destruct Hx as [_ Hx], Hy as [_ Hy].
  apply String.eqb_eq in Hx, Hy. unfold byDateThenLoggedAt.
  now rewrite Hx, Hy, compare_same.
Qed.

Section LoggedEntryShown.
Context {num : Type} {N : Number num} {A : Arithmetic num}.

Lemma mealEntryLine_id (entry : FoodLogEntry.t num) :
  In (Num (ofZ (FoodLogEntry.id entry))) (mealEntryLine entry)
  /\ In (Text (FoodLogEntry.food_name entry)) (mealEntryLine entry).
Proof.
  unfold mealEntryLine. split.
  - apply in_or_app. right. apply in_or_app. right. cbn. auto.
  - apply in_or_app. left. cbn. auto.
Qed.

Lemma mealSections_list (key : FoodLogEntry.t num -> string)
      (entries : list (FoodLogEntry.t num)) (entry : FoodLogEntry.t num) (p : piece num) :
  In entry entries -> In p (mealEntryLine entry) ->
  In p (flat_map mealSection (groupsOf key entries)).
Proof.
  intros Hin Hp. apply in_flat_map.
  exists (key entry, filter (fun e => String.eqb (key e) (key entry)) entries). split.
  - unfold groupsOf. apply in_map_iff. exists (key entry). split; [reflexivity|].
    apply In_distinct. now apply in_map.
  - unfold mealSection. cbn [fst snd]. apply in_or_app. right. apply in_or_app. left.
    apply in_flat_map. exists entry. split; [|exact Hp].
    apply filter_In. split; [exact Hin | apply String.eqb_refl].
Qed.

End LoggedEntryShown.

(** X21.  What [log_food] stores, [get_daily_log] shows.  When the stored
    rows and the request have one of the four meals of the schema or none,
    a [get_daily_log] request of the same day for the date of the request
    does not fail after [log_food]: its answer lists the new entry, by name
    and with the id of the stored row. *)
Theorem log_food_then_get_daily_log {num : Type} {N : Number num} {A : Arithmetic num}
        (clock clock' : Clock) (input : LogFoodInput.t num) (st : State num) :
  Forall (fun e => schemaMeal (FoodLogEntry.meal e) = true) (food_logs (file st)) ->
  schemaMeal (LogFoodInput.meal input) = true ->
  today clock' = today clock ->
  let st1 := fst (log_food clock input st) in
  let answer := snd (get_daily_log clock' (LogFoodInput.date input) st1) in
  exists row : FoodLogEntry.t num,
    food_logs (file st1) = food_logs (file st) ++ [row]
    /\ FoodLogEntry.food_name row = LogFoodInput.food_name input
    /\ isError answer = false
    /\ In (Text (LogFoodInput.food_name input)) (content answer)
    /\ In (Num (ofZ (FoodLogEntry.id row))) (content answer).
Proof.
  intros Hstored Hinput Hday st1 answer.
  set (now := timestamp clock). set (date := strOr (LogFoodInput.date input) (today clock)).
  set (row := snd (logFood now (loggedEntry clock input) st)).
  assert (Hst1 : st1 = fst (logFood now (loggedEntry clock input) st))
    by (unfold st1; now rewrite log_food_shape).
  destruct (logFood_file now (loggedEntry clock input) st) as [Hl _].
  fold row in Hl. rewrite <- Hst1 in Hl.
  set (rows := snd (getDailyLog (timestamp clock') date st1)).
  assert (Hanswer : answer = get_daily_log_response date rows
                               (snd (getGoals (timestamp clock') st1))).
  { unfold answer. rewrite get_daily_log_shape, Hday. reflexivity. }
  assert (Hperm : Permutation rows (rowsOn date (file st) ++ [row])).
  { unfold rows. rewrite getDailyLog_rows, Hst1, rowsOn_logFood.
    cbn [loggedEntry NewEntry.date]. fold date. rewrite String.eqb_refl. fold row.
    symmetry. apply orderBy_Permutation. }
  assert (Hrow : In row rows).
  { apply (Permutation_in _ (Permutation_sym Hperm)), in_or_app. right. now left. }
  assert (Hschema : Forall (fun e => schemaMeal (FoodLogEntry.meal e) = true) rows).
  { apply Forall_forall. intros e He. apply (Permutation_in _ Hperm) in He.
    apply in_app_or in He. destruct He as [He|[<-|[]]].
    - unfold rowsOn in He. apply filter_In in He.
      rewrite Forall_forall in Hstored. now apply Hstored.
    - now apply schemaMeal_strOrNull. }
  assert (Hplain : Forall (fun e => JSObject.plainKey (mealKey e) = true) rows).
  { eapply Forall_impl; [|exact Hschema]. intros e He. now apply schemaMeal_plainKey. }
  assert (Hresponse : answer
                      = textResult ([Text "## Food Log for "; Text date; Text "\n\n"]
                                    ++ flat_map mealSection (groupsOf mealKey rows)
                                    ++ dailyTotalsSection (calculateTotals rows)
                                         (snd (getGoals (timestamp clock') st1)))).
  { rewrite Hanswer. unfold get_daily_log_response. rewrite groupInto_empty.
    destruct (existsb _ rows) eqn:E.
    - apply existsb_exists in E. destruct E as [e [He Hi]].
      rewrite Forall_forall in Hplain. apply Hplain, plainKey_split in He.
      destruct He as [_ He]. congruence.
    - rewrite entries_groupsOf
        by (eapply Forall_impl; [|exact Hplain]; intros e He; now apply plainKey_split in He).
      destruct rows; [destruct Hrow | reflexivity]. }
  exists row. rewrite Hresponse. cbn [isError content textResult].
  split; [exact Hl|]. split; [reflexivity|]. split; [reflexivity|].
  split; apply in_or_app; right; apply in_or_app; left;
    apply mealSections_list with (entry := row); try exact Hrow.
  - exact (proj2 (mealEntryLine_id row)).
  - exact (proj1 (mealEntryLine_id row)).
Qed.

Lemma log_food_then_get_daily_log_witness :
  isError (snd (get_daily_log sampleClock None
                  (fst (log_food sampleClock salmonRequest
                          (fst (log_food sampleClock oatmealRequest
                                  (boot "2025-01-01 00:00:00" freshFile)))))))
  = false.
Proof.
  destruct (@log_food_then_get_daily_log Qc _ _ sampleClock sampleClock salmonRequest
              (fst (log_food sampleClock oatmealRequest (boot "2025-01-01 00:00:00" freshFile))))
    as [row [_ [_ [Herr _]]]].
  - repeat constructor.
  - reflexivity.
  - reflexivity.
  - exact Herr.
Defined.

(* ================================================================= *)
(** * What the tools answer *)

(** ** The text of a summary *)

Lemma flat_map_map {X Y Z : Type} (f : X -> Y) (g : Y -> list Z) (xs : list X) :
  flat_map g (map f xs) = flat_map (fun x => g (f x)) xs.
Proof.
  induction xs as [|x xs IH]; cbn [map flat_map]; [reflexivity | now rewrite IH].
Qed.

Section SummaryAnswer.
Context {num : Type} {N : Number num} {A : Arithmetic num}.

Lemma dailyTotalsOf_sums (d : string) (bucket : list (FoodLogEntry.t num)) :
  dailyTotalsOf (d, bucket)
  = DailyTotals.mk d (sumOf (map caloriesOf bucket)) (sumOf (map proteinOf bucket))
                   (sumOf (map carbsOf bucket)) (sumOf (map fatOf bucket))
                   (sumOf (map fiberOf bucket)).
Proof. unfold dailyTotalsOf. cbn [fst snd]. now rewrite calculateTotals_fields. Qed.

Lemma summaryDays_sums (entries : list (FoodLogEntry.t num)) :
  summaryDays entries
  = map (fun d => DailyTotals.mk d (dayTotal caloriesOf d entries)
                                 (dayTotal proteinOf d entries)
                                 (dayTotal carbsOf d entries)
                                 (dayTotal fatOf d entries)
                                 (dayTotal fiberOf d entries))
        (distinct (map (@FoodLogEntry.date num) entries)).
Proof.
  rewrite summaryDays_buckets. apply map_ext. intros d. apply dailyTotalsOf_sums.
Qed.

(** The whole text of a summary, with every number spelled out. *)
Lemma get_summary_response_text (startDate endDate : string)
      (entries : list (FoodLogEntry.t num)) (goals_ : option (Goals.t num)) :
  plainDates entries -> entries <> [] ->
  let dates := distinct (map (@FoodLogEntry.date num) entries) in
  let numDays := ofZ (Z.of_nat (List.length dates)) in
  let mean := fun quantity : FoodLogEntry.t num -> num =>
                div (sumOf (map (fun d => dayTotal quantity d entries) dates)) numDays in
  let tenth := fun x : num => div (round (mul x (ofZ 10))) (ofZ 10) in
  get_summary_response startDate endDate entries goals_
  = mkResult
      ([Text "## Nutrition Summary: "; Text startDate; Text " to "; Text endDate;
        Text "\n\n"; Text "**"; Num numDays; Text " days tracked** | ";
        Num (ofZ (Z.of_nat (List.length entries))); Text " total entries\n\n";
        Text "### Daily Averages\n"; Text "- Calories: "; Num (round (mean caloriesOf))]
       ++ match percentOfGoal (round (mean caloriesOf)) goals_ with
          | Some pct =>
              [Text " ("; Num pct; Text "% of ";
               showNullable (optField goals_ (@Goals.daily_calories num)); Text " goal)"]
          | None => []
          end
       ++ [Text "\n- Protein: "; Num (tenth (mean proteinOf)); Text "g"]
       ++ whenSet (optField goals_ (@Goals.protein_g num)) " / " "g goal"
       ++ [Text "\n- Carbs: "; Num (tenth (mean carbsOf)); Text "g"]
       ++ whenSet (optField goals_ (@Goals.carbs_g num)) " / " "g goal"
       ++ [Text "\n- Fat: "; Num (tenth (mean fatOf)); Text "g"]
       ++ whenSet (optField goals_ (@Goals.fat_g num)) " / " "g goal"
       ++ [Text "\n\n### Daily Breakdown\n"]
       ++ flat_map (fun d => [Text "- "; Text d; Text ": ";
                              Num (dayTotal caloriesOf d entries); Text " cal | P: ";
                              Num (dayTotal proteinOf d entries); Text "g | C: ";
                              Num (dayTotal carbsOf d entries); Text "g | F: ";
                              Num (dayTotal fatOf d entries); Text "g\n"]) dates)
      false.
Proof.
  intros Hplain Hne. cbv zeta. rewrite (get_summary_response_plain _ _ _ Hplain Hne).
  unfold textResult, summaryText, avgProtein, avgCarbs, avgFat, avgCalories, avgGrams,
    numDaysOf.
  rewrite !sumField_sumOf, summaryDays_length, summaryDays_sums, !map_map, flat_map_map.
  reflexivity.
Qed.

(** The dates of a summary: those of the rows in range, in ascending order
    when no stored date is an array index or an inherited name. *)
Lemma range_dates_ascending (now startDate endDate : string) (st : State num) :
  StronglySorted dateLt
    (distinct (map (@FoodLogEntry.date num)
                   (snd (getLogsByDateRange now startDate endDate st)))).
Proof. apply distinct_ascending, sortedByDate_dates, getLogsByDateRange_sorted. Qed.

Lemma range_dates (now startDate endDate d : string) (st : State num) :
  In d (distinct (map (@FoodLogEntry.date num)
                      (snd (getLogsByDateRange now startDate endDate st))))
  <-> exists row, In row (food_logs (file st)) /\ FoodLogEntry.date row = d
                  /\ dateLe startDate d /\ dateLe d endDate.
Proof.
  rewrite In_distinct, in_map_iff, getLogsByDateRange_rows. unfold rowsBetween, dateLe.
  split.
  - intros [row [Hd Hin]].
    apply (Permutation_in _ (Permutation_sym (orderBy_Permutation _ _))) in Hin.
    apply filter_In in Hin. destruct Hin as [Hin Hrange].
    apply andb_true_iff in Hrange. rewrite Hd in Hrange. exists row. tauto.
  - intros [row [Hin [Hd [Hs He]]]]. exists row. split; [exact Hd|].
    apply (Permutation_in _ (orderBy_Permutation _ _)), filter_In.
    split; [exact Hin|]. rewrite Hd. now apply andb_true_iff.
Qed.

End SummaryAnswer.

(** C6.  The daily breakdown of a summary is in ascending order of date.
    Whatever the order in which the rows were logged, when the stored dates
    have the form YYYY-MM-DD and the range holds a row, the answer of
    [get_summary] ends with one line per date that has a row in the range,
    showing the totals of that date, and these dates ascend strictly. *)
Theorem summary_breakdown_ascending {num : Type} {N : Number num} {A : Arithmetic num}
        (clock : Clock) (input : GetSummaryInput.t) (st : State num) :
  isoDates (food_logs (file st)) ->
  snd (getLogsByDateRange (timestamp clock) (fst (resolvePeriod clock input))
                          (snd (resolvePeriod clock input)) st) <> [] ->
  let startDate := fst (resolvePeriod clock input) in
  let endDate := snd (resolvePeriod clock input) in
  let entries := snd (getLogsByDateRange (timestamp clock) startDate endDate st) in
  exists (dates : list string) (averages : list (piece num)),
    snd (get_summary clock input st)
    = mkResult
        (averages
         ++ [Text "\n\n### Daily Breakdown\n"]
         ++ flat_map (fun d => [Text "- "; Text d; Text ": ";
                                Num (dayTotal caloriesOf d entries); Text " cal | P: ";
                                Num (dayTotal proteinOf d entries); Text "g | C: ";
                                Num (dayTotal carbsOf d entries); Text "g | F: ";
                                Num (dayTotal fatOf d entries); Text "g\n"]) dates)
        false
    /\ StronglySorted dateLt dates
    /\ (forall d : string,
           In d dates
           <-> exists row, In row (food_logs (file st)) /\ FoodLogEntry.date row = d
                           /\ dateLe startDate d /\ dateLe d endDate).
Proof.
  intros Hiso Hne startDate endDate entries.
  assert (Hplain : plainDates entries)
    by (apply getLogsByDateRange_plain, isoDates_plain, Hiso).
  exists (distinct (map (@FoodLogEntry.date num) entries)). eexists.
  split; [|split].
  - rewrite get_summary_shape. fold startDate endDate entries.
    rewrite (get_summary_response_text _ _ _ Hplain Hne). cbv zeta.
    rewrite !app_assoc. reflexivity.
  - apply range_dates_ascending.
  - intros d. apply range_dates.
Qed.

Lemma summary_breakdown_ascending_witness :
  exists (dates : list string) (averages : list (piece float)),
    content (snd (get_summary sampleClock januaryRequest laterDayLoggedFirst))
    = averages
      ++ [Text "\n\n### Daily Breakdown\n"]
      ++ flat_map
           (fun d =>
              let entries := snd (getLogsByDateRange "2025-01-15 12:00:00" "2025-01-10"
                                                     "2025-01-20" laterDayLoggedFirst) in
              [Text "- "; Text d; Text ": ";
               Num (dayTotal caloriesOf d entries); Text " cal | P: ";
               Num (dayTotal proteinOf d entries); Text "g | C: ";
               Num (dayTotal carbsOf d entries); Text "g | F: ";
               Num (dayTotal fatOf d entries); Text "g\n"]) dates
    /\ StronglySorted dateLt dates.
Proof.
  destruct (@summary_breakdown_ascending float _ _ sampleClock januaryRequest
              laterDayLoggedFirst)
    as [dates [averages [Hanswer [Hsorted _]]]].
  - repeat constructor.
  - discriminate.
  - exists dates, averages. split; [|exact Hsorted].
    rewrite Hanswer. reflexivity.
Defined.

(** The 15th was logged before the 14th; the breakdown lists the 14th
    first. *)
Example later_day_logged_first :
  map (@FoodLogEntry.date float) (food_logs (file laterDayLoggedFirst))
  = ["2025-01-15"; "2025-01-14"]%string
  /\ snd (get_summary sampleClock januaryRequest laterDayLoggedFirst)
     = mkResult
         [Text "## Nutrition Summary: "; Text "2025-01-10"; Text " to "; Text "2025-01-20";
          Text "\n\n"; Text "**"; Num 2%float; Text " days tracked** | "; Num 2%float;
          Text " total entries\n\n"; Text "### Daily Averages\n"; Text "- Calories: ";
          Num 2001%float; Text " ("; Num 100%float; Text "% of "; Num 2000%float;
          Text " goal)";
          Text "\n- Protein: "; Num 0%float; Text "g"; Text " / "; Num 150%float;
          Text "g goal";
          Text "\n- Carbs: "; Num 0%float; Text "g"; Text " / "; Num 250%float;
          Text "g goal";
          Text "\n- Fat: "; Num 0%float; Text "g"; Text " / "; Num 65%float; Text "g goal";
          Text "\n\n### Daily Breakdown\n";
          Text "- "; Text "2025-01-14"; Text ": "; Num 1801%float; Text " cal | P: ";
          Num 0%float; Text "g | C: "; Num 0%float; Text "g | F: "; Num 0%float;
          Text "g\n";
          Text "- "; Text "2025-01-15"; Text ": "; Num 2200%float; Text " cal | P: ";
          Num 0%float; Text "g | C: "; Num 0%float; Text "g | F: "; Num 0%float;
          Text "g\n"]
         false.
Proof. split; vm_compute; reflexivity. Qed.

(** C2, as amended.  The averages of a summary.  When the range holds a row
    (and no stored date is an array index or an inherited name, as no date
    of the form YYYY-MM-DD is), the answer of [get_summary] counts as days
    the dates that have a row in the range, and shows as average of a
    quantity the sum of the daily totals of these dates divided by their
    number, then rounded: [Math.round] of the quotient for the calories,
    [Math.round] of ten times the quotient, divided by ten, for protein,
    carbohydrates and fat.  Dates without rows do not count. *)
Theorem averages_over_days_with_entries {num : Type} {N : Number num} {A : Arithmetic num}
        (clock : Clock) (input : GetSummaryInput.t) (st : State num) :
  plainDates (food_logs (file st)) ->
  snd (getLogsByDateRange (timestamp clock) (fst (resolvePeriod clock input))
                          (snd (resolvePeriod clock input)) st) <> [] ->
  let startDate := fst (resolvePeriod clock input) in
  let endDate := snd (resolvePeriod clock input) in
  let entries := snd (getLogsByDateRange (timestamp clock) startDate endDate st) in
  let dates := distinct (map (@FoodLogEntry.date num) entries) in
  let numDays := ofZ (Z.of_nat (List.length dates)) in
  let mean := fun quantity : FoodLogEntry.t num -> num =>
                div (sumOf (map (fun d => dayTotal quantity d entries) dates)) numDays in
  (0 < List.length dates)%nat
  /\ NoDup dates
  /\ (forall d : string, In d dates <-> exists e, In e entries /\ FoodLogEntry.date e = d)
  /\ exists percent proteinGoal carbsGoal fatGoal breakdown : list (piece num),
       snd (get_summary clock input st)
       = mkResult
           ([Text "## Nutrition Summary: "; Text startDate; Text " to "; Text endDate;
             Text "\n\n"; Text "**"; Num numDays; Text " days tracked** | ";
             Num (ofZ (Z.of_nat (List.length entries))); Text " total entries\n\n";
             Text "### Daily Averages\n";
             Text "- Calories: "; Num (round (mean caloriesOf))]
            ++ percent
            ++ [Text "\n- Protein: ";
                Num (div (round (mul (mean proteinOf) (ofZ 10))) (ofZ 10)); Text "g"]
            ++ proteinGoal
            ++ [Text "\n- Carbs: ";
                Num (div (round (mul (mean carbsOf) (ofZ 10))) (ofZ 10)); Text "g"]
            ++ carbsGoal
            ++ [Text "\n- Fat: ";
                Num (div (round (mul (mean fatOf) (ofZ 10))) (ofZ 10)); Text "g"]
            ++ fatGoal
            ++ [Text "\n\n### Daily Breakdown\n"]
            ++ breakdown)
           false.
Proof.
  intros Hplain Hne startDate endDate entries dates numDays mean.
  assert (Hplain' : plainDates entries) by now apply getLogsByDateRange_plain.
  split; [|split; [|split]].
  - unfold dates. rewrite <- summaryDays_length. now apply summaryDays_nonempty.
  - apply NoDup_distinct.
  - intros d. unfold dates. rewrite In_distinct, in_map_iff.
    split; intros [e [H1 H2]]; exists e; auto.
  - rewrite get_summary_shape. fold startDate endDate entries.
    rewrite (get_summary_response_text _ _ _ Hplain' Hne). cbv zeta.
    do 5 eexists. reflexivity.
Qed.

Lemma averages_over_days_with_entries_witness :
  (0 < List.length
         (distinct (map (@FoodLogEntry.date float)
                        (snd (getLogsByDateRange "2025-01-15 12:00:00" "2025-01-10"
                                                 "2025-01-20" laterDayLoggedFirst)))))%nat.
Proof.
  refine (proj1 (@averages_over_days_with_entries float _ _ sampleClock januaryRequest
                   laterDayLoggedFirst _ _)).
  - repeat constructor.
  - discriminate.
Defined.

(** C2, as stated, fails: the average shown is rounded.  Days of 1801 and
    2200 calories in a range of eleven days have the mean 2000.5; the
    summary shows 2001. *)
Lemma average_is_rounded_counterexample :
  let entries := snd (getLogsByDateRange "2025-01-15 12:00:00" "2025-01-10" "2025-01-20"
                                         laterDayLoggedFirst) in
  let dates := distinct (map (@FoodLogEntry.date float) entries) in
  map (fun d => dayTotal caloriesOf d entries) dates = [1801%float; 2200%float]
  /\ div (sumOf (map (fun d => dayTotal caloriesOf d entries) dates))
         (ofZ (Z.of_nat (List.length dates))) = 2000.5%float
  /\ firstn 13 (content (snd (get_summary sampleClock januaryRequest laterDayLoggedFirst)))
     = [Text "## Nutrition Summary: "; Text "2025-01-10"; Text " to "; Text "2025-01-20";
        Text "\n\n"; Text "**"; Num 2%float; Text " days tracked** | "; Num 2%float;
        Text " total entries\n\n"; Text "### Daily Averages\n";
        Text "- Calories: "; Num 2001%float]
  /\ 2001%float <> 2000.5%float.
Proof.
  cbv zeta. split; [vm_compute; reflexivity|]. split; [vm_compute; reflexivity|].
  split; [vm_compute; reflexivity|].
  intros E. apply (f_equal (PrimFloat.eqb 2001%float)) in E. vm_compute in E. discriminate E.
Qed.

(* ----------------------------------------------------------------- *)
(** ** The text of a daily log *)

Section DailyLogAnswer.
Context {num : Type} {N : Number num} {A : Arithmetic num}.

(** When the grouping loop does not throw, the answer ends with the totals
    block. *)
Lemma get_daily_log_response_totals (targetDate : string)
      (entries : list (FoodLogEntry.t num)) (goals_ : option (Goals.t num)) :
  entries <> [] ->
  isError (get_daily_log_response targetDate entries goals_) = false ->
  exists sections : list (piece num),
    get_daily_log_response targetDate entries goals_
    = mkResult
        (sections
         ++ [Text "### Daily Totals\n"; Text "- Calories: ";
             Num (sumOf (map caloriesOf entries))]
         ++ match percentOfGoal (sumOf (map caloriesOf entries)) goals_ with
            | Some pct =>
                [Text " / "; showNullable (optField goals_ (@Goals.daily_calories num));
                 Text " ("; Num pct; Text "%)"]
            | None => []
            end
         ++ [Text "\n- Protein: "; Num (sumOf (map proteinOf entries)); Text "g"]
         ++ whenSet (optField goals_ (@Goals.protein_g num)) " / " "g"
         ++ [Text "\n- Carbs: "; Num (sumOf (map carbsOf entries)); Text "g"]
         ++ whenSet (optField goals_ (@Goals.carbs_g num)) " / " "g"
         ++ [Text "\n- Fat: "; Num (sumOf (map fatOf entries)); Text "g"]
         ++ whenSet (optField goals_ (@Goals.fat_g num)) " / " "g"
         ++ [Text "\n- Fiber: "; Num (sumOf (map fiberOf entries)); Text "g"])
        false.
Proof.
  intros Hne. unfold get_daily_log_response.
  destruct (Nat.eqb (List.length entries) 0) eqn:E.
  { apply length_zero_iff in E. congruence. }
  destruct (JSObject.groupInto mealKey entries JSObject.empty) as [byMeal|];
    [intros _ | intros H; discriminate H].
  exists ([Text "## Food Log for "; Text targetDate; Text "\n\n"]
          ++ flat_map mealSection (JSObject.entries byMeal)).
  unfold textResult, dailyTotalsSection. rewrite calculateTotals_fields.
  cbn [NutritionInfo.calories NutritionInfo.protein_g NutritionInfo.carbs_g
       NutritionInfo.fat_g NutritionInfo.fiber_g].
  rewrite <- !app_assoc. reflexivity.
Qed.

(** The percentage of the calorie goal, read from the goals record. *)
Lemma percentOfGoal_record (actual : num) (g : Goals.t num) :
  percentOfGoal actual (Some g)
  = match Goals.daily_calories g with
    | Some goal => if truthy goal
                   then Some (round (mul (div actual goal) (ofZ 100)))
                   else None
    | None => None
    end.
Proof. reflexivity. Qed.

End DailyLogAnswer.

(** C7, as amended.  Where the code rounds.  The averages of a summary are
    rounded once, as the last step, from sums accumulated without rounding:
    the calories with [Math.round], protein, carbohydrates and fat with
    [Math.round(x * 10) / 10]; no fiber average is shown.  The totals of a
    day, in the breakdown of a summary and in the totals block of a daily
    log, are the sums themselves, not rounded at all.  On doubles the
    quotient and its multiple of ten are rounded by the arithmetic before
    [Math.round] sees them: days of 0.3 g and 2.4 g of protein average to
    1.3 g. *)
Theorem averages_rounded_once_totals_not_rounded
        {num : Type} {N : Number num} {A : Arithmetic num} :
  (forall (clock : Clock) (input : GetSummaryInput.t) (st : State num),
      plainDates (food_logs (file st)) ->
      let startDate := fst (resolvePeriod clock input) in
      let endDate := snd (resolvePeriod clock input) in
      let entries := snd (getLogsByDateRange (timestamp clock) startDate endDate st) in
      let dates := distinct (map (@FoodLogEntry.date num) entries) in
      let numDays := ofZ (Z.of_nat (List.length dates)) in
      let mean := fun quantity : FoodLogEntry.t num -> num =>
                    div (sumOf (map (fun d => dayTotal quantity d entries) dates)) numDays in
      entries <> [] ->
      exists percent proteinGoal carbsGoal fatGoal : list (piece num),
        snd (get_summary clock input st)
        = mkResult
            ([Text "## Nutrition Summary: "; Text startDate; Text " to "; Text endDate;
              Text "\n\n"; Text "**"; Num numDays; Text " days tracked** | ";
              Num (ofZ (Z.of_nat (List.length entries))); Text " total entries\n\n";
              Text "### Daily Averages\n";
              Text "- Calories: "; Num (round (mean caloriesOf))]
             ++ percent
             ++ [Text "\n- Protein: ";
                 Num (div (round (mul (mean proteinOf) (ofZ 10))) (ofZ 10)); Text "g"]
             ++ proteinGoal
             ++ [Text "\n- Carbs: ";
                 Num (div (round (mul (mean carbsOf) (ofZ 10))) (ofZ 10)); Text "g"]
             ++ carbsGoal
             ++ [Text "\n- Fat: ";
                 Num (div (round (mul (mean fatOf) (ofZ 10))) (ofZ 10)); Text "g"]
             ++ fatGoal
             ++ [Text "\n\n### Daily Breakdown\n"]
             ++ flat_map (fun d => [Text "- "; Text d; Text ": ";
                                    Num (dayTotal caloriesOf d entries); Text " cal | P: ";
                                    Num (dayTotal proteinOf d entries); Text "g | C: ";
                                    Num (dayTotal carbsOf d entries); Text "g | F: ";
                                    Num (dayTotal fatOf d entries); Text "g\n"]) dates)
            false)
  /\ (forall (clock : Clock) (date : option string) (st : State num),
         let entries := snd (getDailyLog (timestamp clock) (strOr date (today clock)) st) in
         entries <> [] ->
         isError (snd (get_daily_log clock date st)) = false ->
         exists sections percent proteinGoal carbsGoal fatGoal : list (piece num),
           snd (get_daily_log clock date st)
           = mkResult
               (sections
                ++ [Text "### Daily Totals\n";
                    Text "- Calories: "; Num (sumOf (map caloriesOf entries))]
                ++ percent
                ++ [Text "\n- Protein: "; Num (sumOf (map proteinOf entries)); Text "g"]
                ++ proteinGoal
                ++ [Text "\n- Carbs: "; Num (sumOf (map carbsOf entries)); Text "g"]
                ++ carbsGoal
                ++ [Text "\n- Fat: "; Num (sumOf (map fatOf entries)); Text "g"]
                ++ fatGoal
                ++ [Text "\n- Fiber: "; Num (sumOf (map fiberOf entries)); Text "g"])
               false)
  /\ numbersOf (content (snd (get_summary sampleClock januaryRequest tenthsStore)))
     = [2%float; 2%float; 6%float; 0%float; 2000%float;
        0x1.4cccccccccccdp+0%float; 150%float; 0%float; 250%float; 0%float; 65%float;
        10%float; 0x1.3333333333333p-2%float; 0%float; 0%float;
        2%float; 0x1.3333333333333p+1%float; 0%float; 0%float].
Proof.
  split; [|split].
  - intros clock input st Hplain startDate endDate entries dates numDays mean Hne.
    assert (Hplain' : plainDates entries) by now apply getLogsByDateRange_plain.
    rewrite get_summary_shape. fold startDate endDate entries.
    rewrite (get_summary_response_text _ _ _ Hplain' Hne). cbv zeta.
    do 4 eexists. reflexivity.
  - intros clock date st entries Hne Hok. rewrite get_daily_log_shape in *.
    fold entries in Hok |- *.
    destruct (get_daily_log_response_totals _ _ Hne Hok) as [sections ->].
    exists sections. do 4 eexists. reflexivity.
  - vm_compute. reflexivity.
Qed.

Lemma averages_rounded_once_totals_not_rounded_witness :
  exists sections percent proteinGoal carbsGoal fatGoal : list (piece float),
    snd (get_daily_log sampleClock None fractionalStore)
    = mkResult
        (sections
         ++ [Text "### Daily Totals\n"; Text "- Calories: "; Num 12.5%float]
         ++ percent
         ++ [Text "\n- Protein: "; Num 3.25%float; Text "g"]
         ++ proteinGoal
         ++ [Text "\n- Carbs: "; Num 0%float; Text "g"]
         ++ carbsGoal
         ++ [Text "\n- Fat: "; Num 0%float; Text "g"]
         ++ fatGoal
         ++ [Text "\n- Fiber: "; Num 0%float; Text "g"])
        false.
Proof.
  refine (proj1 (proj2 (@averages_rounded_once_totals_not_rounded float _ _))
            sampleClock None fractionalStore _ _).
  - discriminate.
  - reflexivity.
Defined.

(** C7, as stated, fails for the totals of a day: an entry of 12.5 calories
    and 3.25 g of protein is shown with 12.5 calories and 3.25 g, where
    rounding to a whole number and to one decimal would show 13 and 3.3. *)
Lemma daily_totals_not_rounded_counterexample :
  snd (get_daily_log sampleClock None fractionalStore)
  = mkResult
      [Text "## Food Log for "; Text "2025-01-15"; Text "\n\n";
       Text "### "; Text "Unspecified"; Text "\n";
       Text "- **"; Text "cracker"; Text "** ("; Num 1%float; Text " "; Text "serving";
       Text ") - "; Num 12.5%float; Text " cal"; Text " | P: "; Num 3.25%float; Text "g";
       Text " [ID: "; Num 1%float; Text "]\n"; Text "\n";
       Text "### Daily Totals\n";
       Text "- Calories: "; Num 12.5%float;
       Text " / "; Num 2000%float; Text " ("; Num 1%float; Text "%)";
       Text "\n- Protein: "; Num 3.25%float; Text "g"; Text " / "; Num 150%float; Text "g";
       Text "\n- Carbs: "; Num 0%float; Text "g"; Text " / "; Num 250%float; Text "g";
       Text "\n- Fat: "; Num 0%float; Text "g"; Text " / "; Num 65%float; Text "g";
       Text "\n- Fiber: "; Num 0%float; Text "g"]
      false
  /\ round 12.5%float = 13%float
  /\ div (round (mul 3.25%float (ofZ 10))) (ofZ 10) = 0x1.a666666666666p+1%float
  /\ 12.5%float <> 13%float
  /\ 3.25%float <> 0x1.a666666666666p+1%float.
Proof.
  split; [vm_compute; reflexivity|]. split; [vm_compute; reflexivity|].
  split; [vm_compute; reflexivity|].
  split; intros E.
  - apply (f_equal (PrimFloat.eqb 12.5%float)) in E. vm_compute in E. discriminate E.
  - apply (f_equal (PrimFloat.eqb 3.25%float)) in E. vm_compute in E. discriminate E.
Qed.

(** The falsy doubles: the two zeros and [NaN]. *)
Lemma float_truthy_kinds (x : float) :
  float_truthy x = false <-> zeroDouble x = true \/ Prim2SF x = S754_nan.
Proof.
  unfold float_truthy, zeroDouble.
  rewrite !FloatAxioms.eqb_spec. unfold SFeqb, SFcompare.
  change (Prim2SF 0) with (S754_zero false).
  destruct (Prim2SF x) as [s| s | |s m e]; cbn.
  - split; auto.
  - destruct s; cbn; split; try discriminate; intros [H|H]; discriminate.
  - split; auto.
  - rewrite Z.compare_refl, Pos.compare_refl.
    destruct s; cbn; split; try discriminate; intros [H|H]; discriminate.
Qed.

(** C4.  The percentage of the calorie goal.  [get_daily_log] shows, after
    the calorie total of the day, the goal and
    [Math.round(total / goal * 100)] percent, and [get_summary] shows the
    same of the average calories it displays, exactly when the calorie goal
    of the stored record is a number other than [0] (in particular for
    every positive goal); with no goal or a goal of [0] nothing is shown and
    nothing is divided.  On doubles the goals that show nothing are the two
    zeros and [NaN], so the divisor is never a zero.  The quotient and the
    product are those of the number type: on doubles 1150 of 2000 calories
    is shown as 57 percent, because (1150 / 2000) * 100 is
    57.49999999999999. *)
Theorem percentOfGoal_iff_goal_nonzero {num : Type} {N : Number num} {A : Arithmetic num} :
  (forall (clock : Clock) (date : option string) (st : State num) (g : Goals.t num),
      goals (file st) = [g] -> Goals.id g = 1%Z ->
      let entries := snd (getDailyLog (timestamp clock) (strOr date (today clock)) st) in
      let total := sumOf (map caloriesOf entries) in
      entries <> [] ->
      isError (snd (get_daily_log clock date st)) = false ->
      exists sections rest : list (piece num),
        snd (get_daily_log clock date st)
        = mkResult
            (sections
             ++ [Text "### Daily Totals\n"; Text "- Calories: "; Num total]
             ++ match Goals.daily_calories g with
                | Some goal =>
                    if truthy goal
                    then [Text " / "; Num goal; Text " (";
                          Num (round (mul (div total goal) (ofZ 100))); Text "%)"]
                    else []
                | None => []
                end
             ++ Text "\n- Protein: " :: rest)
            false)
  /\ (forall (clock : Clock) (input : GetSummaryInput.t) (st : State num) (g : Goals.t num),
         goals (file st) = [g] -> Goals.id g = 1%Z ->
         plainDates (food_logs (file st)) ->
         let startDate := fst (resolvePeriod clock input) in
         let endDate := snd (resolvePeriod clock input) in
         let entries := snd (getLogsByDateRange (timestamp clock) startDate endDate st) in
         let dates := distinct (map (@FoodLogEntry.date num) entries) in
         let average :=
           round (div (sumOf (map (fun d => dayTotal caloriesOf d entries) dates))
                      (ofZ (Z.of_nat (List.length dates)))) in
         entries <> [] ->
         exists header rest : list (piece num),
           snd (get_summary clock input st)
           = mkResult
               (header
                ++ [Text "### Daily Averages\n"; Text "- Calories: "; Num average]
                ++ match Goals.daily_calories g with
                   | Some goal =>
                       if truthy goal
                       then [Text " ("; Num (round (mul (div average goal) (ofZ 100)));
                             Text "% of "; Num goal; Text " goal)"]
                       else []
                   | None => []
                   end
                ++ Text "\n- Protein: " :: rest)
               false)
  /\ truthy (zero : num) = false
  /\ (forall goal : float,
         truthy goal = false <-> zeroDouble goal = true \/ Prim2SF goal = S754_nan)
  /\ numbersOf (content (snd (get_daily_log sampleClock None day1150)))
     = [1%float; 1150%float; 1%float;
        1150%float; 2000%float; 57%float;
        0%float; 150%float; 0%float; 250%float; 0%float; 65%float; 0%float].
Proof.
  split; [|split; [|split; [|split]]].
  - intros clock date st g Hg Hid entries total Hne Hok.
    rewrite get_daily_log_shape in *. fold entries in Hok |- *.
    destruct (getGoals_row (timestamp clock) st Hg Hid) as [Hgoals _].
    rewrite Hgoals in *. cbn [snd] in *.
    destruct (get_daily_log_response_totals _ _ Hne Hok) as [sections ->].
    exists sections. eexists. fold total. rewrite percentOfGoal_record.
    cbn [optField showNullable].
    destruct (Goals.daily_calories g) as [goal|]; [destruct (truthy goal)|];
      cbn [app]; reflexivity.
  - intros clock input st g Hg Hid Hplain startDate endDate entries dates average Hne.
    assert (Hplain' : plainDates entries) by now apply getLogsByDateRange_plain.
    rewrite get_summary_shape. fold startDate endDate entries.
    destruct (getGoals_row (timestamp clock) st Hg Hid) as [Hgoals _].
    rewrite Hgoals. cbn [snd].
    rewrite (get_summary_response_text _ _ _ Hplain' Hne). cbv zeta.
    fold dates. fold average. rewrite percentOfGoal_record. cbn [optField showNullable].
    exists [Text "## Nutrition Summary: "; Text startDate; Text " to "; Text endDate;
            Text "\n\n"; Text "**"; Num (ofZ (Z.of_nat (List.length dates)));
            Text " days tracked** | ";
            Num (ofZ (Z.of_nat (List.length entries))); Text " total entries\n\n"].
    eexists.
    destruct (Goals.daily_calories g) as [goal|]; [destruct (truthy goal)|];
      cbn [app]; reflexivity.
  - apply truthy_zero.
  - exact float_truthy_kinds.
  - vm_compute. reflexivity.
Qed.

Lemma percentOfGoal_iff_goal_nonzero_witness :
  exists sections rest : list (piece float),
    snd (get_daily_log sampleClock None day1150)
    = mkResult
        (sections
         ++ [Text "### Daily Totals\n"; Text "- Calories: "; Num 1150%float]
         ++ [Text " / "; Num 2000%float; Text " ("; Num 57%float; Text "%)"]
         ++ Text "\n- Protein: " :: rest)
        false.
Proof.
  refine (proj1 (@percentOfGoal_iff_goal_nonzero float _ _) sampleClock None day1150
                (Goals.mk 1 (Some 2000%float) (Some 150%float) (Some 250%float)
                          (Some 65%float) "2025-01-01 00:00:00")
                _ _ _ _).
  - reflexivity.
  - reflexivity.
  - intros H. vm_compute in H. discriminate H.
  - vm_compute. reflexivity.
Defined.

(* ----------------------------------------------------------------- *)
(** ** The text of a confirmation *)

Section LogFoodAnswer.
Context {num : Type} {N : Number num} {A : Arithmetic num}.

Lemma logFood_goals (now : string) (entry : NewEntry.t num) (st : State num)
      (g : Goals.t num) :
  goals (file st) = [g] -> Goals.id g = 1%Z ->
  goals (file (fst (logFood now entry st))) = [g].
Proof.
  intros Hg Hid. unfold logFood. cbn [fst file goals].
  rewrite getDb_seeded; [exact Hg | now exists g].
Qed.

(** The text of a confirmation, with the goals record in hand. *)
Lemma log_food_text (clock : Clock) (input : LogFoodInput.t num) (st : State num)
      (g : Goals.t num) :
  goals (file st) = [g] -> Goals.id g = 1%Z ->
  let date := strOr (LogFoodInput.date input) (today clock) in
  let row := snd (logFood (timestamp clock) (loggedEntry clock input) st) in
  let total :=
    sumOf (map caloriesOf
               (snd (getDailyLog (timestamp clock) date (fst (log_food clock input st))))) in
  snd (log_food clock input st)
  = mkResult (log_food_response row date
                (NutritionInfo.mk total zero zero zero zero) (Some g)) false.
Proof.
  intros Hg Hid date row total. unfold total. rewrite log_food_shape. cbn [fst snd].
  fold date.
  set (st1 := fst (logFood (timestamp clock) (loggedEntry clock input) st)).
  rewrite (proj1 (getGoals_row (timestamp clock) st1
                    (logFood_goals (timestamp clock) (loggedEntry clock input) st Hg Hid)
                    Hid)).
  cbn [snd]. unfold textResult, log_food_response, calorieRemaining.
  rewrite calculateTotals_fields. reflexivity.
Qed.

Lemma insertSorted_snoc {X : Type} (le : X -> X -> bool) (x last : X) (rows : list X) :
  le x last = true ->
  insertSorted le x (rows ++ [last]) = insertSorted le x rows ++ [last].
Proof.
  intros Hle. induction rows as [|y rows IH]; cbn [insertSorted app].
  - now rewrite Hle.
  - destruct (le x y); [reflexivity | now rewrite IH].
Qed.

Lemma orderBy_snoc {X : Type} (le : X -> X -> bool) (rows : list X) (last : X) :
  (forall x, In x rows -> le x last = true) ->
  orderBy le (rows ++ [last]) = orderBy le rows ++ [last].
Proof.
  induction rows as [|x rows IH]; intros Hle; cbn [orderBy app]; [reflexivity|].
  rewrite IH by (intros y Hy; apply Hle; now right).
  apply insertSorted_snoc, Hle. now left.
Qed.

(** The rows of the date after a [log_food] request that is not earlier
    than any stored row: the rows before it, then the new row. *)
Lemma log_food_rows (clock : Clock) (input : LogFoodInput.t num) (st : State num) :
  Forall (fun e => String.leb (FoodLogEntry.logged_at e) (timestamp clock) = true)
         (food_logs (file st)) ->
  let date := strOr (LogFoodInput.date input) (today clock) in
  snd (getDailyLog (timestamp clock) date (fst (log_food clock input st)))
  = snd (getDailyLog (timestamp clock) date st)
    ++ [snd (logFood (timestamp clock) (loggedEntry clock input) st)].
Proof.
  intros Hlate date. rewrite log_food_shape. cbn [fst].
  set (now := timestamp clock) in *.
  set (row := snd (logFood now (loggedEntry clock input) st)).
  rewrite !getDailyLog_rows, rowsOn_logFood.
  cbn [loggedEntry NewEntry.date]. fold date. rewrite String.eqb_refl. fold row.
  apply orderBy_snoc. intros e He. unfold rowsOn in He. apply filter_In in He.
  destruct (logFood_file now (loggedEntry clock input) st) as [_ [_ [_ [_ Hat]]]].
  fold row in Hat. rewrite Hat.
  rewrite Forall_forall in Hlate. now apply Hlate.
Qed.

End LogFoodAnswer.

(** C3, as amended.  The goal delta of [log_food].  After the daily total of
    calories the answer carries a delta exactly when the calorie goal of
    the stored record is a number other than [0]: the delta is goal minus
    total, shown as "N remaining" when it is above [0] and as its absolute
    value "over goal" otherwise.  With no calorie goal or a goal of [0]
    there is no delta, and the protein, carbohydrate and fat goals are not
    compared at all. *)
Theorem calorie_delta_iff_goal_nonzero {num : Type} {N : Number num} {A : Arithmetic num}
        (clock : Clock) (input : LogFoodInput.t num) (st : State num) (g : Goals.t num) :
  goals (file st) = [g] -> Goals.id g = 1%Z ->
  let date := strOr (LogFoodInput.date input) (today clock) in
  let total :=
    sumOf (map caloriesOf
               (snd (getDailyLog (timestamp clock) date (fst (log_food clock input st))))) in
  let delta :=
    match Goals.daily_calories g with
    | Some goal =>
        if truthy goal
        then if gtb (sub goal total) zero
             then [Text " | "; Num (sub goal total); Text " remaining"]
             else [Text " | "; Num (abs (sub goal total)); Text " over goal"]
        else []
    | None => []
    end in
  (exists logged : list (piece num),
      snd (log_food clock input st)
      = mkResult (logged
                  ++ [Text "\n\n**Daily Total ("; Text date; Text "):** ";
                      Num total; Text " cal"]
                  ++ delta)
                 false)
  /\ (delta = [] <-> isTruthy (Goals.daily_calories g) = false)
  /\ (Goals.daily_calories g = None \/ Goals.daily_calories g = Some zero -> delta = []).
Proof.
  intros Hg Hid date total delta.
  split; [|split].
  - rewrite (log_food_text clock input st Hg Hid). cbv zeta. fold date. fold total.
    unfold log_food_response, calorieRemaining, showRemaining.
    cbn [optField NutritionInfo.calories].
    set (row := snd (logFood (timestamp clock) (loggedEntry clock input) st)).
    exists ([Text "Logged: **"; Text (FoodLogEntry.food_name row); Text "** (";
             Num (FoodLogEntry.serving_size row); Text " ";
             Text (FoodLogEntry.serving_unit row); Text ")\n";
             Num (FoodLogEntry.calories row); Text " cal"]
            ++ whenSet (FoodLogEntry.protein_g row) " | P: " "g"
            ++ whenSet (FoodLogEntry.carbs_g row) " | C: " "g"
            ++ whenSet (FoodLogEntry.fat_g row) " | F: " "g"
            ++ match strOrNull (FoodLogEntry.meal row) with
               | Some m => [Text "\nMeal: "; Text m]
               | None => []
               end).
    unfold delta. rewrite <- !app_assoc.
    destruct (Goals.daily_calories g) as [goal|];
      [destruct (truthy goal); [destruct (gtb (sub goal total) zero)|]|]; reflexivity.
  - unfold delta.
    destruct (Goals.daily_calories g) as [goal|]; cbn [isTruthy];
      [destruct (truthy goal); [destruct (gtb (sub goal total) zero)|]|];
      split; intros H; try reflexivity; discriminate H.
  - unfold delta. intros [->| ->]; [reflexivity|]. now rewrite truthy_zero.
Qed.

Lemma calorie_delta_iff_goal_nonzero_witness :
  exists logged : list (piece float),
    snd (log_food sampleClock
           (logRequest "oatmeal" 150%float (Some 5%float) (Some "breakfast"%string) None)
           day1150)
    = mkResult (logged
                ++ [Text "\n\n**Daily Total ("; Text "2025-01-15"; Text "):** ";
                    Num 1300%float; Text " cal"]
                ++ [Text " | "; Num 700%float; Text " remaining"])
               false.
Proof.
  refine (proj1 (@calorie_delta_iff_goal_nonzero float _ _ sampleClock
                   (logRequest "oatmeal" 150%float (Some 5%float)
                               (Some "breakfast"%string) None)
                   day1150
                   (Goals.mk 1 (Some 2000%float) (Some 150%float) (Some 250%float)
                             (Some 65%float) "2025-01-01 00:00:00")
                   _ _)).
  - reflexivity.
  - reflexivity.
Defined.

(** C3, as stated, fails: the calorie goal is set, to [0], and the answer
    of [log_food] carries no delta. *)
Lemma calorie_delta_zero_goal_counterexample :
  goals (file zeroGoalStore)
  = [Goals.mk 1 (Some 0%float) (Some 100%float) (Some 250%float) (Some 65%float)
              "2025-01-15 12:00:00"]
  /\ snd (log_food sampleClock
            (logRequest "oatmeal" 150%float (Some 5%float) (Some "breakfast"%string) None)
            zeroGoalStore)
     = mkResult
         [Text "Logged: **"; Text "oatmeal"; Text "** ("; Num 1%float; Text " ";
          Text "serving"; Text ")\n"; Num 150%float; Text " cal";
          Text " | P: "; Num 5%float; Text "g";
          Text "\nMeal: "; Text "breakfast";
          Text "\n\n**Daily Total ("; Text "2025-01-15"; Text "):** ";
          Num 150%float; Text " cal"]
         false.
Proof. split; vm_compute; reflexivity. Qed.

(** X16.  The daily total that [log_food] reports.  When no stored row is
    logged later than the request, [log_food] stores the new row last in
    the food log, under the date of the request or under today's date, and
    its answer names the food, the serving and the nutrients of the
    request, gives as daily total the total of that date before the request
    plus the calories of the new entry, and compares that total with the
    calorie goal of the stored goals record. *)
Theorem log_food_adds_to_daily_total {num : Type} {N : Number num} {A : Arithmetic num}
        (clock : Clock) (input : LogFoodInput.t num) (st : State num) :
  Forall (fun e => String.leb (FoodLogEntry.logged_at e) (timestamp clock) = true)
         (food_logs (file st)) ->
  let date := strOr (LogFoodInput.date input) (today clock) in
  let before := sumOf (map caloriesOf (snd (getDailyLog (timestamp clock) date st))) in
  let total := add before (orZero (Some (LogFoodInput.calories input))) in
  let shown := fun (v : option num) (label : string) =>
                 match v with
                 | Some x => if truthy x then [Text label; Num x; Text "g"] else []
                 | None => []
                 end in
  let delta :=
    match snd (getGoals (timestamp clock) (fst (log_food clock input st))) with
    | Some g =>
        match Goals.daily_calories g with
        | Some goal =>
            if truthy goal
            then if gtb (sub goal total) zero
                 then [Text " | "; Num (sub goal total); Text " remaining"]
                 else [Text " | "; Num (abs (sub goal total)); Text " over goal"]
            else []
        | None => []
        end
    | None => []
    end in
  exists row : FoodLogEntry.t num,
    food_logs (file (fst (log_food clock input st))) = food_logs (file st) ++ [row]
    /\ FoodLogEntry.date row = date
    /\ FoodLogEntry.calories row = LogFoodInput.calories input
    /\ snd (log_food clock input st)
       = mkResult
           ([Text "Logged: **"; Text (LogFoodInput.food_name input); Text "** (";
             Num (LogFoodInput.serving_size input); Text " ";
             Text (LogFoodInput.serving_unit input); Text ")\n";
             Num (LogFoodInput.calories input); Text " cal"]
            ++ shown (LogFoodInput.protein_g input) " | P: "%string
            ++ shown (LogFoodInput.carbs_g input) " | C: "%string
            ++ shown (LogFoodInput.fat_g input) " | F: "%string
            ++ match LogFoodInput.meal input with
               | Some EmptyString | None => []
               | Some meal => [Text "\nMeal: "; Text meal]
               end
            ++ [Text "\n\n**Daily Total ("; Text date; Text "):** "; Num total; Text " cal"]
            ++ delta)
           false.
Proof.
  intros Hlate date before total shown delta.
  assert (Htotal : sumOf (map caloriesOf
                            (snd (getDailyLog (timestamp clock) date
                                    (fst (log_food clock input st)))))
                   = total).
  { rewrite (log_food_rows clock input st Hlate). fold date.
    rewrite map_app. unfold sumOf. rewrite fold_left_app. reflexivity. }
  unfold delta. clear delta.
  rewrite log_food_shape in *. cbn [fst snd] in *. fold date.
  set (now := timestamp clock) in *.
  set (row := snd (logFood now (loggedEntry clock input) st)).
  set (st1 := fst (logFood now (loggedEntry clock input) st)) in *.
  destruct (logFood_file now (loggedEntry clock input) st) as [Hl [_ [_ [Hd _]]]].
  fold row st1 in Hl. fold row in Hd. cbn [loggedEntry NewEntry.date] in Hd. fold date in Hd.
  exists row.
  split; [exact Hl|]. split; [exact Hd|]. split; [reflexivity|].
  unfold textResult, log_food_response, calorieRemaining, showRemaining, optField.
  rewrite calculateTotals_fields.
  cbn [NutritionInfo.calories]. fold (caloriesOf (num:=num)).
  change (map (fun e : FoodLogEntry.t num => orZero (Some (FoodLogEntry.calories e))))
    with (map (caloriesOf (num:=num))).
  rewrite Htotal. unfold row, logFood, loggedEntry, whenSet, shown.
  cbn [snd FoodLogEntry.food_name FoodLogEntry.serving_size FoodLogEntry.serving_unit
       FoodLogEntry.calories FoodLogEntry.protein_g FoodLogEntry.carbs_g
       FoodLogEntry.fat_g FoodLogEntry.meal NewEntry.food_name NewEntry.serving_size
       NewEntry.serving_unit NewEntry.calories NewEntry.protein_g NewEntry.carbs_g
       NewEntry.fat_g NewEntry.meal].
  destruct (snd (getGoals now st1)) as [g|];
    [destruct (Goals.daily_calories g) as [goal|];
     [destruct (truthy goal); [destruct (gtb (sub goal total) zero)|]|]|];
    destruct (LogFoodInput.meal input) as [[|c m]|]; cbn [strOrNull]; reflexivity.
Qed.

Lemma log_food_adds_to_daily_total_witness :
  exists row : FoodLogEntry.t float,
    food_logs (file (fst (log_food sampleClock
                            (logRequest "oatmeal" 150%float (Some 5%float)
                                        (Some "breakfast"%string) None)
                            day1150)))
    = food_logs (file day1150) ++ [row]
    /\ snd (log_food sampleClock
              (logRequest "oatmeal" 150%float (Some 5%float) (Some "breakfast"%string) None)
              day1150)
       = mkResult
           [Text "Logged: **"; Text "oatmeal"; Text "** ("; Num 1%float; Text " ";
            Text "serving"; Text ")\n"; Num 150%float; Text " cal";
            Text " | P: "; Num 5%float; Text "g";
            Text "\nMeal: "; Text "breakfast";
            Text "\n\n**Daily Total ("; Text "2025-01-15"; Text "):** ";
            Num 1300%float; Text " cal";
            Text " | "; Num 700%float; Text " remaining"]
           false.
Proof.
  destruct (@log_food_adds_to_daily_total float _ _ sampleClock
              (logRequest "oatmeal" 150%float (Some 5%float) (Some "breakfast"%string) None)
              day1150)
    as [row [Hrows [_ [_ Hanswer]]]].
  - repeat constructor.
  - exists row. split; [exact Hrows | exact Hanswer].
Defined.

(* ----------------------------------------------------------------- *)
(** ** The text of a goals report *)

Section SetGoalsAnswer.
Context {num : Type} {N : Number num} {A : Arithmetic num}.

(** In a store reached from a fresh file the goals record has its four
    targets. *)
Lemma reachable_goals_record (now0 : string) (calls : list (string * Op num)) :
  exists (calories protein carbs fat : num) (updated_at : string),
    goals (file (run calls (boot now0 freshFile)))
    = [Goals.mk 1 (Some calories) (Some protein) (Some carbs) (Some fat) updated_at].
Proof.
  destruct (@run_goalsComplete num N A calls (boot now0 freshFile) (defaultGoals now0)
              eq_refl eq_refl (defaultGoals_complete now0))
    as [[id dc p c f t] [Hg [Hid [Hdc [Hp [Hc Hf]]]]]].
  cbn [Goals.id Goals.daily_calories Goals.protein_g Goals.carbs_g Goals.fat_g] in *.
  subst id.
  destruct dc as [calories|]; [|congruence]. destruct p as [protein|]; [|congruence].
  destruct c as [carbs|]; [|congruence]. destruct f as [fat|]; [|congruence].
  exists calories, protein, carbs, fat, t. exact Hg.
Qed.


(** The report of the current goals. *)
Lemma set_goals_report (clock : Clock) (input : GoalsPatch.t num) (st : State num)
      (calories protein carbs fat : num) (updated_at : string) :
  goals (file st)
  = [Goals.mk 1 (Some calories) (Some protein) (Some carbs) (Some fat) updated_at] ->
  nothingToSet input = true ->
  file (fst (set_goals clock input st)) = file st
  /\ snd (set_goals clock input st)
     = mkResult
         [Text "**Current Goals:**\n";
          Text "- Calories: "; (if truthy calories then Num calories else Text "not set");
          Text "\n";
          Text "- Protein: "; (if truthy protein then Num protein else Text "not set");
          Text "g\n";
          Text "- Carbs: "; (if truthy carbs then Num carbs else Text "not set");
          Text "g\n";
          Text "- Fat: "; (if truthy fat then Num fat else Text "not set");
          Text "g"]
         false.
Proof.
  intros Hg Hn. rewrite (set_goals_query clock input st Hn). cbn [fst snd].
  destruct (getGoals_row (timestamp clock) st Hg eq_refl) as [-> Hfile].
  cbn [fst snd]. split; [exact Hfile | reflexivity].
Qed.


End SetGoalsAnswer.

(** C10.  In every state the store can be in: when each numeric field of a
    [set_goals] request is [0] or absent, the store is left as it is and the
    answer is the report of the current goals, the four targets of the
    stored record, a target of [0] shown as "not set"; hence a call that
    changes the store supplies some field that is not zero. *)
Theorem set_goals_all_zero_only_reports
        {num : Type} {N : Number num} {A : Arithmetic num}
        (clock : Clock) (now0 : string) (calls : list (string * Op num))
        (input : GoalsPatch.t num) :
  let st := run calls (boot now0 freshFile) in
  (zeroOrAbsent (GoalsPatch.daily_calories input) ->
   zeroOrAbsent (GoalsPatch.protein_g input) ->
   zeroOrAbsent (GoalsPatch.carbs_g input) ->
   zeroOrAbsent (GoalsPatch.fat_g input) ->
   file (fst (set_goals clock input st)) = file st
   /\ exists (calories protein carbs fat : num) (updated_at : string),
        goals (file st)
        = [Goals.mk 1 (Some calories) (Some protein) (Some carbs) (Some fat) updated_at]
        /\ snd (set_goals clock input st)
           = mkResult
               [Text "**Current Goals:**\n";
                Text "- Calories: ";
                (if truthy calories then Num calories else Text "not set"); Text "\n";
                Text "- Protein: ";
                (if truthy protein then Num protein else Text "not set"); Text "g\n";
                Text "- Carbs: ";
                (if truthy carbs then Num carbs else Text "not set"); Text "g\n";
                Text "- Fat: ";
                (if truthy fat then Num fat else Text "not set"); Text "g"]
               false)
  /\ (file (fst (set_goals clock input st)) <> file st ->
      exists v : num,
        (GoalsPatch.daily_calories input = Some v \/ GoalsPatch.protein_g input = Some v
         \/ GoalsPatch.carbs_g input = Some v \/ GoalsPatch.fat_g input = Some v)
        /\ truthy v = true /\ v <> zero).
Proof.
  intros st.
  destruct (reachable_goals_record now0 calls) as [calories [protein [carbs [fat [t Hg]]]]].
  fold st in Hg.
  split.
  - intros H1 H2 H3 H4.
    assert (Hn : nothingToSet input = true)
      by (unfold nothingToSet; now rewrite !zeroOrAbsent_falsy).
    destruct (set_goals_report clock input st Hg Hn) as [Hfile Hanswer].
    split; [exact Hfile|]. exists calories, protein, carbs, fat, t. now split.
  - intros Hchanged. destruct (nothingToSet input) eqn:Hn.
    + exfalso. apply Hchanged. apply (set_goals_report clock input st Hg Hn).
    + destruct (nothingToSet_false input Hn) as [v [Hv Ht]].
      exists v. repeat split; [assumption | assumption | now apply truthy_nonzero].
Qed.

Lemma set_goals_all_zero_only_reports_witness :
  file (fst (set_goals sampleClock (GoalsPatch.mk (Some 0%float) None None None) day1150))
  = file day1150.
Proof.
  refine (proj1 (proj1 (@set_goals_all_zero_only_reports float _ _ sampleClock
                          "2025-01-01 00:00:00"
                          [("2025-01-15 12:00:00"%string,
                            OpLogFood (loggedEntry sampleClock
                                         (logRequest "lunch box" 1150%float None
                                                     (Some "lunch"%string)
                                                     (Some "2025-01-15"%string))))]
                          (GoalsPatch.mk (Some 0%float) None None None)) _ _ _ _)).
  - right. reflexivity.
  - left. reflexivity.
  - left. reflexivity.
  - left. reflexivity.
Defined.

(** A goal of [0] can be stored, by a request that also supplies a nonzero
    field; the report then shows it as "not set". *)
Example set_goals_can_store_zero :
  snd (set_goals sampleClock (GoalsPatch.mk None None None None) zeroGoalStore)
  = mkResult
      [Text "**Current Goals:**\n";
       Text "- Calories: "; Text "not set"; Text "\n";
       Text "- Protein: "; Num 100%float; Text "g\n";
       Text "- Carbs: "; Num 250%float; Text "g\n";
       Text "- Fat: "; Num 65%float; Text "g"]
      false.
Proof. vm_compute. reflexivity. Qed.


(* ----------------------------------------------------------------- *)
(** ** Nutrition values of the USDA client *)

Lemma find_first {X : Type} (p : X -> bool) (xs : list X) (x : X) :
  find p xs = Some x ->
  exists before after : list X,
    xs = before ++ x :: after /\ p x = true /\ forall y, In y before -> p y = false.
Proof.
  induction xs as [|y xs IH]; cbn [find]; [discriminate|].
  destruct (p y) eqn:E.
  - intros H. injection H as <-. exists [], xs. repeat split; [exact E | intros z []].
  - intros H. destruct (IH H) as [before [after [-> [Hp Hbefore]]]].
    exists (y :: before), after. repeat split; [exact Hp|].
    intros z [<-|Hz]; [exact E | now apply Hbefore].
Qed.

Section DoubleKinds.

Lemma double_nan (x : float) : Prim2SF x = S754_nan -> x = nan.
Proof. intros H. rewrite <- (SF2Prim_Prim2SF x), H. reflexivity. Qed.

Lemma mul_kinds (x y : float) :
  (zeroDouble y = true -> properDouble x || zeroDouble x = true ->
   zeroDouble (PrimFloat.mul x y) = true)
  /\ (zeroDouble x = true -> properDouble y || zeroDouble y = true ->
      zeroDouble (PrimFloat.mul x y) = true)
  /\ (infiniteDouble y = true -> properDouble x || infiniteDouble x = true ->
      infiniteDouble (PrimFloat.mul x y) = true)
  /\ (infiniteDouble x = true -> properDouble y || infiniteDouble y = true ->
      infiniteDouble (PrimFloat.mul x y) = true)
  /\ (Prim2SF y = S754_nan -> PrimFloat.mul x y = nan)
  /\ (Prim2SF x = S754_nan -> PrimFloat.mul x y = nan).
Proof.
  unfold zeroDouble, properDouble, infiniteDouble.
  assert (H := FloatAxioms.mul_spec x y). unfold SF64mul, SFmul in H.
  repeat split; intros; try apply double_nan;
    destruct (Prim2SF x), (Prim2SF y); try discriminate; cbn in *;
    try (rewrite H; reflexivity); try exact H.
Qed.

Lemma div_kinds (x y : float) :
  (zeroDouble x = true -> properDouble y = true -> zeroDouble (PrimFloat.div x y) = true)
  /\ (zeroDouble y = true -> properDouble x = true ->
      infiniteDouble (PrimFloat.div x y) = true)
  /\ (infiniteDouble x = true -> properDouble y = true ->
      infiniteDouble (PrimFloat.div x y) = true)
  /\ (zeroDouble x = true -> zeroDouble y = true -> PrimFloat.div x y = nan)
  /\ (Prim2SF x = S754_nan -> PrimFloat.div x y = nan).
Proof.
  unfold zeroDouble, properDouble, infiniteDouble.
  assert (H := FloatAxioms.div_spec x y). unfold SF64div, SFdiv in H.
  repeat split; intros; try apply double_nan;
    destruct (Prim2SF x), (Prim2SF y); try discriminate; cbn in *;
    try (rewrite H; reflexivity); try exact H.
Qed.

Lemma round_kinds (x : float) :
  (zeroDouble x = true -> zeroDouble (float_round x) = true)
  /\ (infiniteDouble x = true -> infiniteDouble (float_round x) = true)
  /\ (Prim2SF x = S754_nan -> float_round x = nan).
Proof.
  unfold zeroDouble, infiniteDouble, float_round.
  repeat split; intros H; destruct (Prim2SF x) eqn:E; try discriminate; try exact H.
  - unfold zeroDouble. now rewrite E.
  - now rewrite E.
  - now apply double_nan.
Qed.

(** What [Math.round(x * scale)] and [Math.round(x * scale * 10) / 10] are
    for a scale that is a zero, an infinity or [NaN]. *)
Lemma scaled_zero (x scale : float) :
  zeroDouble scale = true -> properDouble x || zeroDouble x = true ->
  zeroDouble (round (mul x scale)) = true
  /\ zeroDouble (roundToTenth (mul x scale)) = true.
Proof.
  intros Hs Hx. unfold roundToTenth. cbn [round mul div ofZ float_Arith].
  assert (Hz : zeroDouble (PrimFloat.mul x scale) = true)
    by exact (proj1 (mul_kinds x scale) Hs Hx).
  split; [exact (proj1 (round_kinds _) Hz)|].
  apply (proj1 (div_kinds _ _)); [|reflexivity].
  apply (proj1 (round_kinds _)).
  exact (proj1 (proj2 (mul_kinds _ (float_ofZ 10))) Hz eq_refl).
Qed.

Lemma scaled_infinite (x scale : float) :
  infiniteDouble scale = true -> properDouble x = true ->
  infiniteDouble (round (mul x scale)) = true
  /\ infiniteDouble (roundToTenth (mul x scale)) = true.
Proof.
  intros Hs Hx. unfold roundToTenth. cbn [round mul div ofZ float_Arith].
  assert (Hi : infiniteDouble (PrimFloat.mul x scale) = true).
  { apply (proj1 (proj2 (proj2 (mul_kinds x scale))) Hs). now rewrite Hx. }
  split; [exact (proj1 (proj2 (round_kinds _)) Hi)|].
  apply (proj1 (proj2 (proj2 (div_kinds _ _)))); [|reflexivity].
  apply (proj1 (proj2 (round_kinds _))).
  exact (proj1 (proj2 (proj2 (proj2 (mul_kinds _ (float_ofZ 10))))) Hi eq_refl).
Qed.

Lemma scaled_nan (x : float) :
  round (mul x nan) = nan /\ roundToTenth (mul x nan) = nan.
Proof.
  unfold roundToTenth. cbn [round mul div ofZ float_Arith].
  assert (Hn : PrimFloat.mul x nan = nan)
    by exact (proj1 (proj2 (proj2 (proj2 (proj2 (mul_kinds x nan))))) eq_refl).
  rewrite Hn. split; reflexivity.
Qed.

End DoubleKinds.

(** X18.  The nutrition values read from a USDA food.  The value of a
    nutrient is that of the first listed nutrient with its id, and [0] when
    none is listed; [extractNutrition] returns [Math.round] of the value of
    nutrient 1008 as calories and [Math.round(v * 10) / 10] of the values of
    nutrients 1003, 1005, 1004 and 1079 as protein, carbohydrates, fat and
    fiber.  On doubles the product is rounded before [Math.round] sees it:
    a protein value of 0.15 gives 0.2. *)
Theorem extractNutrition_reads_first_match
        {num : Type} {N : Number num} {A : Arithmetic num} (food : USDAFood.t num) :
  let listed := fun (nutrientId : Z) (v : num) =>
    exists (before after : list (USDANutrient.t num)) (n : USDANutrient.t num),
      USDAFood.foodNutrients food = before ++ n :: after
      /\ USDANutrient.nutrientId n = nutrientId
      /\ USDANutrient.value n = v
      /\ forall m, In m before -> USDANutrient.nutrientId m <> nutrientId in
  let unlisted := fun nutrientId : Z =>
    forall n, In n (USDAFood.foodNutrients food) -> USDANutrient.nutrientId n <> nutrientId in
  let valueOf := fun (nutrientId : Z) (v : num) =>
    listed nutrientId v \/ (unlisted nutrientId /\ v = zero) in
  let tenth := fun v : num => div (round (mul v (ofZ 10))) (ofZ 10) in
  (forall nutrientId : Z, exists v : num, valueOf nutrientId v)
  /\ (forall energy protein carbs fat fiber : num,
         valueOf 1008%Z energy -> valueOf 1003%Z protein -> valueOf 1005%Z carbs ->
         valueOf 1004%Z fat -> valueOf 1079%Z fiber ->
         extractNutrition food
         = NutritionInfo.mk (round energy) (tenth protein) (tenth carbs)
                            (tenth fat) (tenth fiber))
  /\ extractNutrition oats
     = NutritionInfo.mk 389%float 0x1.0e66666666666p+4%float 0x1.0933333333333p+6%float
                        0x1.b99999999999ap+2%float 0x1.5333333333333p+3%float
  /\ extractNutrition traces
     = NutritionInfo.mk 0%float 0x1.999999999999ap-3%float 0%float 0%float 0%float.
Proof.
  intros listed unlisted valueOf tenth.
  assert (Hvalue : forall (nutrientId : Z) (v : num),
             valueOf nutrientId v -> getNutrientValue food nutrientId = v).
  { intros nutrientId v [[before [after [n [Hlist [Hid [Hv Hbefore]]]]]]|[Hmiss ->]].
    - rewrite <- Hv. exact (getNutrientValue_first food before after n Hlist Hid Hbefore).
    - exact (getNutrientValue_missing food Hmiss). }
  split; [|split; [|split]].
  - intros nutrientId.
    destruct (find (fun n => Z.eqb (USDANutrient.nutrientId n) nutrientId)
                   (USDAFood.foodNutrients food)) as [n|] eqn:E.
    + destruct (find_first _ _ E) as [before [after [Hlist [Hid Hbefore]]]].
      exists (USDANutrient.value n). left. exists before, after, n.
      split; [exact Hlist|]. split; [now apply Z.eqb_eq|]. split; [reflexivity|].
      intros m Hm. apply Z.eqb_neq. now apply Hbefore.
    + exists zero. right. split; [|reflexivity].
      intros n Hn. apply Z.eqb_neq. exact (find_none _ _ E n Hn).
  - intros energy protein carbs fat fiber He Hp Hc Hf Hb. unfold extractNutrition.
    unfold NUTRIENT_IDS.ENERGY, NUTRIENT_IDS.PROTEIN, NUTRIENT_IDS.CARBS,
      NUTRIENT_IDS.FAT, NUTRIENT_IDS.FIBER.
    now rewrite (Hvalue _ _ He), (Hvalue _ _ Hp), (Hvalue _ _ Hc), (Hvalue _ _ Hf),
      (Hvalue _ _ Hb).
  - vm_compute. reflexivity.
  - vm_compute. reflexivity.
Qed.

(** X19.  Scaling at the edges, on doubles.  A base serving that is not
    given is 100.  With a serving of [0] and a base serving that is a number
    other than [0], every scaled value is [0]; with a base serving of [0]
    nothing is refused: the scaled values are infinite for a serving other
    than [0] (and [NaN] where the value scaled is [0]), and [NaN] for a
    serving of [0].  The scale is rounded before it is applied: 45 kcal and
    1.5 g for 70 g of 100 g give 31 kcal and 1 g. *)
Theorem scaleNutrition_edge_servings
        (nutrition : NutritionInfo.t float) (servingSize base : float) :
  let scaled := scaleNutrition nutrition servingSize (Some base) in
  let values := fun n : NutritionInfo.t float =>
    [NutritionInfo.calories n; NutritionInfo.protein_g n; NutritionInfo.carbs_g n;
     NutritionInfo.fat_g n; NutritionInfo.fiber_g n] in
  scaleNutrition nutrition servingSize None
  = scaleNutrition nutrition servingSize (Some 100%float)
  /\ (zeroDouble servingSize = true -> properDouble base = true ->
      Forall (fun x => properDouble x || zeroDouble x = true) (values nutrition) ->
      Forall (fun x => zeroDouble x = true) (values scaled))
  /\ (properDouble servingSize = true -> zeroDouble base = true ->
      Forall (fun x => properDouble x = true) (values nutrition) ->
      Forall (fun x => infiniteDouble x = true) (values scaled))
  /\ (zeroDouble servingSize = true -> zeroDouble base = true ->
      scaled = NutritionInfo.mk nan nan nan nan nan)
  /\ scaleNutrition (NutritionInfo.mk 45%float 1.5%float 0%float 0%float 0%float)
                    70%float None
     = NutritionInfo.mk 31%float 1%float 0%float 0%float 0%float
  /\ scaleNutrition (extractNutrition oats) 40%float None
     = NutritionInfo.mk 156%float 0x1.b333333333333p+2%float 26.5%float
                        0x1.6666666666666p+1%float 0x1.0cccccccccccdp+2%float
  /\ scaleNutrition (NutritionInfo.mk 45%float 1.5%float 0%float 0%float 0%float)
                    70%float (Some 0%float)
     = NutritionInfo.mk infinity infinity nan nan nan.
Proof.
  intros scaled values. unfold scaled, values, scaleNutrition.
  cbn [NutritionInfo.calories NutritionInfo.protein_g NutritionInfo.carbs_g
       NutritionInfo.fat_g NutritionInfo.fiber_g].
  split; [reflexivity|]. split; [|split; [|split; [|split; [|split]]]].
  - intros Hs Hb Hvalues.
    assert (Hscale : zeroDouble (div servingSize base) = true)
      by exact (proj1 (div_kinds servingSize base) Hs Hb).
    inversion Hvalues as [|? ? Hc H1]; subst. inversion H1 as [|? ? Hp H2]; subst.
    inversion H2 as [|? ? Hcb H3]; subst. inversion H3 as [|? ? Hf H4]; subst.
    inversion H4 as [|? ? Hfb _]; subst.
    repeat constructor; now apply scaled_zero.
  - intros Hs Hb Hvalues.
    assert (Hscale : infiniteDouble (div servingSize base) = true)
      by exact (proj1 (proj2 (div_kinds servingSize base)) Hb Hs).
    inversion Hvalues as [|? ? Hc H1]; subst. inversion H1 as [|? ? Hp H2]; subst.
    inversion H2 as [|? ? Hcb H3]; subst. inversion H3 as [|? ? Hf H4]; subst.
    inversion H4 as [|? ? Hfb _]; subst.
    repeat constructor; now apply scaled_infinite.
  - intros Hs Hb.
    assert (Hscale : div servingSize base = nan)
      by exact (proj1 (proj2 (proj2 (proj2 (div_kinds servingSize base)))) Hs Hb).
    rewrite Hscale.
    now rewrite !(proj1 (scaled_nan _)), !(proj2 (scaled_nan _)).
  - vm_compute. reflexivity.
  - vm_compute. reflexivity.
  - vm_compute. reflexivity.
Qed.
